(** * Hector benchmark harness: a shallow embedding and its properties

    The development embeds the two Python harness scripts of the
    repository,

      - [docs/benchmarks/behavioral_benchmark.py] (class [BehavioralTester]),
      - [docs/benchmarks/generic_benchmark.py]   (class [GenericBenchmark]
        and [main]),

    and proves properties of criterion evaluation, configuration
    materialisation, scenario execution and result aggregation.

    Modelling conventions.

    - Python objects that travel through the scripts (JSON and YAML
      documents, result records, summaries) are values of the type
      [value]; a [dict] is an association list in insertion order, as in
      CPython.  Documents are trees, except in the module [InPlace],
      which keeps dictionaries in a store and holds them by reference, to
      account for the objects that a YAML alias shares.
    - Python [float]s are modelled by exact rationals ([Q]); every
      statement about a quotient or an average is a statement about the
      exact rational, compared with [==].
    - Effects are explicit.  A computation is a function from a [world]
      (console, files, process events) to a new world and either a result
      or a raised exception.
    - What lives outside the scripts (the regular-expression engine, the
      subject binary, the clock, the iteration order of a [set], string
      formatting of non-string objects) is a [Variable] of the enclosing
      section.
    - [str] is a byte string; [lower], [len] and slicing are modelled on
      ASCII text. *)

From Stdlib Require Import List String Ascii ZArith QArith Bool Lia Permutation.
From Stdlib Require Import DecimalString.
Import ListNotations.

Local Open Scope string_scope.
Local Open Scope list_scope.

Set Warnings "-register-all".

(* ===================================================================== *)
(** * Python values *)
(* ===================================================================== *)

Inductive value : Type :=
| VNone
| VBool (b : bool)
| VInt (z : Z)
| VFloat (q : Q)
| VStr (s : string)
| VList (l : list value)
| VDict (d : list (value * value)).

Definition dict := list (value * value).

(** Exceptions.  [SystemExit] derives from [BaseException] only, the other
    kinds derive from [Exception]. *)
Inductive exn_kind : Type :=
| KeyError | TypeError | AttributeError | ValueError | IndexError
| ZeroDivisionError | ReError | YAMLError | JSONDecodeError
| FileNotFoundError | TimeoutExpired.

Inductive exn : Type :=
| Exc (k : exn_kind) (msg : string)
| SystemExit (code : Z).

Definition is_Exception (e : exn) : bool :=
  match e with Exc _ _ => true | SystemExit _ => false end.

(** [str(e)] *)
Definition exn_str (e : exn) : string :=
  match e with
  | Exc _ msg => msg
  | SystemExit c => NilZero.string_of_int (Z.to_int c)
  end.

Inductive result (A : Type) : Type :=
| Ok (a : A)
| Raise (e : exn).
Arguments Ok {A} a.
Arguments Raise {A} e.

Definition type_name (v : value) : string :=
  match v with
  | VNone => "NoneType" | VBool _ => "bool" | VInt _ => "int"
  | VFloat _ => "float" | VStr _ => "str" | VList _ => "list"
  | VDict _ => "dict"
  end.

(** ** Numbers *)

(** [bool] is a subclass of [int]; [int] and [float] mix freely. *)
Definition as_num (v : value) : option Q :=
  match v with
  | VBool b => Some (inject_Z (if b then 1 else 0))
  | VInt z => Some (inject_Z z)
  | VFloat q => Some q
  | _ => None
  end.

Definition as_int (v : value) : option Z :=
  match v with
  | VBool b => Some (if b then 1 else 0)%Z
  | VInt z => Some z
  | _ => None
  end.

Definition Qlt_bool (x y : Q) : bool := negb (Qle_bool y x).

Definition unsupported (op : string) (a b : value) : exn :=
  Exc TypeError ("unsupported operand type(s) for " ++ op ++ ": '"
                 ++ type_name a ++ "' and '" ++ type_name b ++ "'").

(** [a + b] on numbers ([str] and [list] concatenation never arises in the
    scripts' sums, which start from the integer [0]). *)
Definition py_add (a b : value) : result value :=
  match as_int a, as_int b with
  | Some x, Some y => Ok (VInt (x + y))
  | _, _ =>
    match as_num a, as_num b with
    | Some x, Some y => Ok (VFloat (x + y))
    | _, _ => Raise (unsupported "+" a b)
    end
  end.

Definition py_sub (a b : value) : result value :=
  match as_int a, as_int b with
  | Some x, Some y => Ok (VInt (x - y))
  | _, _ =>
    match as_num a, as_num b with
    | Some x, Some y => Ok (VFloat (x - y))
    | _, _ => Raise (unsupported "-" a b)
    end
  end.

Definition py_mul (a b : value) : result value :=
  match as_int a, as_int b with
  | Some x, Some y => Ok (VInt (x * y))
  | _, _ =>
    match as_num a, as_num b with
    | Some x, Some y => Ok (VFloat (x * y))
    | _, _ => Raise (unsupported "*" a b)
    end
  end.

(** [a / b]: true division, always a [float]. *)
Definition py_truediv (a b : value) : result value :=
  match as_num a, as_num b with
  | Some x, Some y =>
    if Qeq_bool y 0 then Raise (Exc ZeroDivisionError "division by zero")
    else Ok (VFloat (x / y))
  | _, _ => Raise (unsupported "/" a b)
  end.

(** [a == b] on scalars.  Numbers compare by value across [bool], [int]
    and [float]; a container is never equal to a scalar.  Equality between
    two containers is not needed by the scripts. *)
Definition py_eq (a b : value) : bool :=
  match as_num a, as_num b with
  | Some x, Some y => Qeq_bool x y
  | _, _ =>
    match a, b with
    | VNone, VNone => true
    | VStr s, VStr t => String.eqb s t
    | _, _ => false
    end
  end.

(** [a < b] and [a > b]: numbers by value, strings lexicographically;
    anything else is a [TypeError]. *)
Definition py_lt (a b : value) : result bool :=
  match as_num a, as_num b with
  | Some x, Some y => Ok (Qlt_bool x y)
  | _, _ =>
    match a, b with
    | VStr s, VStr t => Ok (String.ltb s t)
    | _, _ =>
      Raise (Exc TypeError ("'<' not supported between instances of '"
                            ++ type_name a ++ "' and '" ++ type_name b ++ "'"))
    end
  end.

Definition py_gt (a b : value) : result bool := py_lt b a.

(** Truth value of an object. *)
Definition truthy (v : value) : bool :=
  match v with
  | VNone => false
  | VBool b => b
  | VInt z => negb (z =? 0)%Z
  | VFloat q => negb (Qeq_bool q 0)
  | VStr s => negb (String.eqb s "")
  | VList l => match l with [] => false | _ => true end
  | VDict d => match d with [] => false | _ => true end
  end.

Definition hashable (v : value) : bool :=
  match v with VList _ | VDict _ => false | _ => true end.

(** ** Dictionaries *)

Fixpoint dict_get (d : dict) (k : value) : option value :=
  match d with
  | [] => None
  | (k', v) :: rest => if py_eq k' k then Some v else dict_get rest k
  end.

(** [d[k] = v]: an existing key keeps its position, a new key goes last. *)
Fixpoint dict_set (d : dict) (k v : value) : dict :=
  match d with
  | [] => [(k, v)]
  | (k', v') :: rest =>
    if py_eq k' k then (k', v) :: rest else (k', v') :: dict_set rest k v
  end.

Definition dict_mem (d : dict) (k : value) : bool :=
  match dict_get d k with Some _ => true | None => false end.

Definition dict_keys (d : dict) : list value := map fst d.

(** [repr] of a key, as shown by [str(KeyError(k))]; only string keys are
    looked up by the scripts. *)
Definition key_repr (k : value) : string :=
  match k with
  | VStr s => "'" ++ s ++ "'"
  | _ => "<" ++ type_name k ++ ">"
  end.

Definition not_subscriptable (v : value) : exn :=
  Exc TypeError ("'" ++ type_name v ++ "' object is not subscriptable").

(** [v[k]] for a string key [k]. *)
Definition getitem (v : value) (k : string) : result value :=
  match v with
  | VDict d =>
    match dict_get d (VStr k) with
    | Some x => Ok x
    | None => Raise (Exc KeyError (key_repr (VStr k)))
    end
  | VList _ => Raise (Exc TypeError "list indices must be integers or slices, not str")
  | VStr _ => Raise (Exc TypeError "string indices must be integers, not 'str'")
  | _ => Raise (not_subscriptable v)
  end.

Definition no_attribute (v : value) (a : string) : exn :=
  Exc AttributeError ("'" ++ type_name v ++ "' object has no attribute '" ++ a ++ "'").

(** [v.get(k, default)] *)
Definition get (v : value) (k : string) (default : value) : result value :=
  match v with
  | VDict d =>
    match dict_get d (VStr k) with
    | Some x => Ok x
    | None => Ok default
    end
  | _ => Raise (no_attribute v "get")
  end.

(** [len(v)] *)
Definition py_len (v : value) : result Z :=
  match v with
  | VList l => Ok (Z.of_nat (List.length l))
  | VDict d => Ok (Z.of_nat (List.length d))
  | VStr s => Ok (Z.of_nat (String.length s))
  | _ => Raise (Exc TypeError ("object of type '" ++ type_name v ++ "' has no len()"))
  end.

Fixpoint chars (s : string) : list value :=
  match s with
  | EmptyString => []
  | String c rest => VStr (String c EmptyString) :: chars rest
  end.

(** The items a [for] loop sees: elements of a list, keys of a dict,
    characters of a string. *)
Definition py_iter (v : value) : result (list value) :=
  match v with
  | VList l => Ok l
  | VDict d => Ok (dict_keys d)
  | VStr s => Ok (chars s)
  | _ => Raise (Exc TypeError ("'" ++ type_name v ++ "' object is not iterable"))
  end.

(** [k in v] for a string [k]. *)
Definition contains_key (v : value) (k : string) : result bool :=
  match v with
  | VDict d => Ok (dict_mem d (VStr k))
  | VList l => Ok (existsb (fun x => py_eq x (VStr k)) l)
  | VStr s => Ok (match index 0 k s with Some _ => true | None => false end)
  | _ => Raise (Exc TypeError ("argument of type '" ++ type_name v ++ "' is not iterable"))
  end.

(** ** Strings *)

Definition lower_ascii (c : ascii) : ascii :=
  let n := nat_of_ascii c in
  if (65 <=? n)%nat && (n <=? 90)%nat then ascii_of_nat (n + 32) else c.

Fixpoint lower (s : string) : string :=
  match s with
  | EmptyString => EmptyString
  | String c rest => String (lower_ascii c) (lower rest)
  end.

(** [needle in haystack] on strings. *)
Definition str_contains (needle haystack : string) : bool :=
  match index 0 needle haystack with Some _ => true | None => false end.

(** [s.split(sep)] for a one-character separator. *)
Fixpoint split_on (sep : ascii) (s : string) : list string :=
  match s with
  | EmptyString => [EmptyString]
  | String c rest =>
    if Ascii.eqb c sep then EmptyString :: split_on sep rest
    else match split_on sep rest with
         | h :: t => String c h :: t
         | [] => [String c EmptyString]
         end
  end.

(** [s[:n]] *)
Fixpoint take (n : nat) (s : string) : string :=
  match n, s with
  | S n', String c rest => String c (take n' rest)
  | _, _ => EmptyString
  end.

Definition str_of_Z (z : Z) : string := NilZero.string_of_int (Z.to_int z).

(* ===================================================================== *)
(** * The world and the effect monad *)
(* ===================================================================== *)

(** A file is known by what the harness does with it: a document written
    by [yaml.safe_dump] or [json.dump], a log opened for a child process,
    or text that was on disk before the run, described by the documents
    [json.load] and [yaml.safe_load] read from it ([None] when the text
    does not parse). *)
Inductive file : Type :=
| YamlDump (v : value)
| JsonDump (v : value)
| LogFile
| OnDisk (json yaml : option value).

(** Process and timing events, in the order the harness issues them. *)
Inductive event : Type :=
| EvMkdir (path : string)
| EvWrite (path : string) (f : file)
| EvPopen (argv : list string) (log : string)
| EvSleep (seconds : Z)
| EvRun (argv : list string) (timeout : Z)
| EvTerminate
| EvWait.

(** The attributes of a [GenericBenchmark] instance. *)
Record benchmark : Type := mkBenchmark {
  test_def_path : string;
  test_def : value;
  results_dir : string;
  hector_bin : string
}.

(** The state a computation runs in: the console, the files, the events
    issued so far, the number of external calls made so far, and the
    attributes of the benchmark object ([self]), which only
    [generic_benchmark.py] uses. *)
Record world : Type := mkWorld {
  stdout : list string;
  files : list (string * file);
  events : list event;
  calls : nat;
  self : benchmark
}.

Definition add_stdout (lines : list string) (w : world) : world :=
  mkWorld (stdout w ++ lines) (files w) (events w) (calls w) (self w).

Definition M (A : Type) : Type := world -> world * result A.

Definition ret {A} (a : A) : M A := fun w => (w, Ok a).

Definition bind {A B} (m : M A) (k : A -> M B) : M B :=
  fun w => match m w with
           | (w', Ok a) => k a w'
           | (w', Raise e) => (w', Raise e)
           end.

Definition raise {A} (e : exn) : M A := fun w => (w, Raise e).

Definition lift {A} (r : result A) : M A := fun w => (w, r).

(** [try: body except K as e: handler(e)], where [catches] tells the
    exceptions of class [K]. *)
Definition try_catch {A} (catches : exn -> bool) (body : M A) (handler : exn -> M A)
  : M A :=
  fun w => match body w with
           | (w', Ok a) => (w', Ok a)
           | (w', Raise e) =>
             if catches e then handler e w' else (w', Raise e)
           end.

(** [try: body except Exception as e: handler(e)] *)
Definition try_except {A} (body : M A) (handler : exn -> M A) : M A :=
  try_catch is_Exception body handler.

(** [try: body finally: cleanup] *)
Definition try_finally {A} (body : M A) (cleanup : M unit) : M A :=
  fun w => match body w with
           | (w', r) =>
             match cleanup w' with
             | (w'', Ok _) => (w'', r)
             | (w'', Raise e) => (w'', Raise e)
             end
           end.

Declare Scope monad_scope.
Delimit Scope monad_scope with monad.
Notation "x <- m ;; k" := (bind m (fun x => k))
  (at level 61, m at next level, right associativity) : monad_scope.
Notation "m ;;; k" := (bind m (fun _ => k))
  (at level 61, right associativity) : monad_scope.
Local Open Scope monad_scope.

Definition print (s : string) : M unit :=
  fun w => (add_stdout [s] w, Ok tt).

Definition emit (e : event) : M unit :=
  fun w => (mkWorld (stdout w) (files w) (events w ++ [e]) (calls w) (self w), Ok tt).

Fixpoint file_lookup (fs : list (string * file)) (p : string) : option file :=
  match fs with
  | [] => None
  | (p', f) :: rest => if String.eqb p' p then Some f else file_lookup rest p
  end.

(** [path.exists()] *)
Definition exists_ (p : string) : M bool :=
  fun w => (w, Ok (match file_lookup (files w) p with Some _ => true | None => false end)).

(** [open(p, 'w')] followed by writing [f]: the file is created or
    replaced.  Directories and permissions are not modelled. *)
Definition written (p : string) (f : file) (w : world) : world :=
  mkWorld (stdout w) ((p, f) :: files w) (events w ++ [EvWrite p f]) (calls w) (self w).

Definition write_file (p : string) (f : file) : M unit :=
  fun w => (written p f w, Ok tt).

(** Consult the outside world: each external call is numbered. *)
Definition tick : M nat :=
  fun w => (mkWorld (stdout w) (files w) (events w) (S (calls w)) (self w), Ok (calls w)).

(** [for x in xs: body x] *)
Fixpoint for_each {A} (xs : list A) (body : A -> M unit) : M unit :=
  match xs with
  | [] => ret tt
  | x :: rest => body x ;;; for_each rest body
  end.

(** A loop that threads an accumulator. *)
Fixpoint fold_m {A S} (xs : list A) (body : S -> A -> M S) (s : S) : M S :=
  match xs with
  | [] => ret s
  | x :: rest => s' <- body s x ;; fold_m rest body s'
  end.

(** A computation is quiet when it issues no event. *)
Definition quiet {A} (m : M A) : Prop :=
  forall w w' r, m w = (w', r) -> events w' = events w.

(** A computation is free of [SystemExit] when the only exceptions it can
    end with derive from [Exception]. *)
Definition exc_only {A} (r : result A) : Prop :=
  match r with
  | Raise (SystemExit _) => False
  | _ => True
  end.

Definition m_exc_only {A} (m : M A) : Prop := forall w, exc_only (snd (m w)).

(** A computation fails quietly when it always ends with an exception and
    issues no event. *)
Definition fails_quietly {A} (m : M A) : Prop :=
  forall w w' r, m w = (w', r) -> (exists e, r = Raise e) /\ events w' = events w.

(** [Path(a) / b]: an absolute right operand replaces the left one. *)
Definition path_div (a b : string) : string :=
  match b with
  | String "/" _ => b
  | _ => a ++ "/" ++ b
  end.

(** Sequencing of pure computations that may raise. *)
Definition rbind {A B} (r : result A) (k : A -> result B) : result B :=
  match r with
  | Ok a => k a
  | Raise e => Raise e
  end.

Notation "x <~ r ;; k" := (rbind r (fun x => k))
  (at level 61, r at next level, right associativity) : monad_scope.

(** [v.items()] *)
Definition items (v : value) : result (list (value * value)) :=
  match v with
  | VDict d => Ok d
  | _ => Raise (no_attribute v "items")
  end.

(** [s * n] for a string [s] *)
Fixpoint repeat_str (s : string) (n : nat) : string :=
  match n with
  | O => EmptyString
  | S n' => s ++ repeat_str s n'
  end.

Definition nl : string := String (ascii_of_nat 10) EmptyString.

(** The interface of string formatting: [format(v, spec)], which is what
    an f-string field [{v:spec}] expands to; with an empty [spec] it is
    [str(v)]. *)
Definition formatter : Type := value -> string -> string.

(** [len([r for r in results if p(r)])] *)
Fixpoint count_m (p : value -> result bool) (rs : list value) : result Z :=
  match rs with
  | [] => Ok 0%Z
  | r :: rest =>
    match p r with
    | Raise e => Raise e
    | Ok b =>
      match count_m p rest with
      | Raise e => Raise e
      | Ok n => Ok (if b then n + 1 else n)%Z
      end
    end
  end.

(** [sum(f(r) for r in results)], starting from the integer [0]. *)
Fixpoint sum_m (f : value -> result value) (rs : list value) (acc : value)
  : result value :=
  match rs with
  | [] => Ok acc
  | r :: rest =>
    match f r with
    | Raise e => Raise e
    | Ok x =>
      match py_add acc x with
      | Raise e => Raise e
      | Ok acc' => sum_m f rest acc'
      end
    end
  end.

(** [with open(p) as f: json.load(f)] *)
Definition json_load (p : string) : M value :=
  fun w =>
    match file_lookup (files w) p with
    | None => (w, Raise (Exc FileNotFoundError ("No such file or directory: '" ++ p ++ "'")))
    | Some (JsonDump v) => (w, Ok v)
    | Some (OnDisk (Some v) _) => (w, Ok v)
    | Some _ => (w, Raise (Exc JSONDecodeError "Expecting value"))
    end.

(** [s.upper()] and [s.replace(a, b)] for single characters, on ASCII. *)
Definition upper_ascii (c : ascii) : ascii :=
  let n := nat_of_ascii c in
  if (97 <=? n)%nat && (n <=? 122)%nat then ascii_of_nat (n - 32) else c.

Fixpoint upper (s : string) : string :=
  match s with
  | EmptyString => EmptyString
  | String c rest => String (upper_ascii c) (upper rest)
  end.

Fixpoint replace_char (a b : ascii) (s : string) : string :=
  match s with
  | EmptyString => EmptyString
  | String c rest => String (if Ascii.eqb c a then b else c) (replace_char a b rest)
  end.

(** Using [v] as a dictionary key hashes it. *)
Definition require_hashable (v : value) : result unit :=
  if hashable v then Ok tt
  else Raise (Exc TypeError ("unhashable type: '" ++ type_name v ++ "'")).

(* ===================================================================== *)
(** * behavioral_benchmark.py *)
(* ===================================================================== *)

Inductive re_flag : Type := IGNORECASE | DOTALL.

(** The interface of the regular-expression engine: for a [str] pattern,
    a text and flags, either the message of the [re.error] raised when the
    pattern does not compile, or the outcome of the search: [None] for no
    match, [Some groups] with the text of the capture groups of the first
    match. *)
Definition regex_engine : Type :=
  string -> string -> list re_flag -> string + option (list string).

Module BehavioralTester.
Section WithEngine.

Variable re_search : regex_engine.
Variable py_format : formatter.

(** [datetime.now().isoformat()] *)
Variable isoformat_now : string.

(** [self.results_dir] of the tester *)
Variable tester_results_dir : string.

(** [load_behavioral_tests(self)] *)
Definition load_behavioral_tests : M value :=
  data <- json_load "behavioral_tests.json" ;;
  lift (getitem data "behavioral_tests").

(** [re.search(pattern, text, flags)] for an arbitrary object as pattern. *)
Definition py_re_search (pattern : value) (text : string) (flags : list re_flag)
  : result (option (list string)) :=
  match pattern with
  | VStr p =>
    match re_search p text flags with
    | inl msg => Raise (Exc ReError msg)
    | inr m => Ok m
    end
  | _ => Raise (Exc TypeError "first argument must be string or compiled pattern")
  end.

(** [check_criterion(self, output, criterion)] *)
Definition check_criterion (output : string) (criterion : value) : M bool :=
  pattern <- lift (getitem criterion "check_pattern") ;;
  try_except
    (m <- lift (py_re_search pattern output [IGNORECASE; DOTALL]) ;;
     ret (match m with Some _ => true | None => false end))
    (fun e => print ("  Warning: Pattern error: " ++ exn_str e) ;;; ret false).

(** [results[k].append(x)] *)
Definition append_at (results : dict) (k : string) (x : value) : result dict :=
  match getitem (VDict results) k with
  | Ok (VList l) => Ok (dict_set results (VStr k) (VList (l ++ [x])))
  | Ok v => Raise (no_attribute v "append")
  | Raise e => Raise e
  end.

(** [results[k] += 1] *)
Definition incr_at (results : dict) (k : string) : result dict :=
  match getitem (VDict results) k with
  | Ok v =>
    match py_add v (VInt 1) with
    | Ok v' => Ok (dict_set results (VStr k) v')
    | Raise e => Raise e
    end
  | Raise e => Raise e
  end.

(** The body of the loop over [test_def['success_criteria']]. *)
Definition evaluate_criterion (output : string) (results : dict) (criterion : value)
  : M dict :=
  passed <- check_criterion output criterion ;;
  c <- lift (getitem criterion "criterion") ;;
  d <- lift (getitem criterion "description") ;;
  results <- lift (append_at results "criteria_results"
                     (VDict [(VStr "criterion", c);
                             (VStr "description", d);
                             (VStr "passed", VBool passed)])) ;;
  if passed then lift (incr_at results "passed_criteria") else ret results.

(** [evaluate_test(self, test_def, output)] *)
Definition evaluate_test (test_def : value) (output : string) : M value :=
  test_id <- lift (getitem test_def "id") ;;
  test_name <- lift (getitem test_def "name") ;;
  sc <- lift (getitem test_def "success_criteria") ;;
  total <- lift (py_len sc) ;;
  let results : dict :=
    [(VStr "test_id", test_id);
     (VStr "test_name", test_name);
     (VStr "criteria_results", VList []);
     (VStr "passed_criteria", VInt 0);
     (VStr "total_criteria", VInt total);
     (VStr "passed", VBool false);
     (VStr "output_length", VInt (Z.of_nat (String.length output)))] in
  sc <- lift (getitem test_def "success_criteria") ;;
  criteria <- lift (py_iter sc) ;;
  results <- fold_m criteria (evaluate_criterion output) results ;;
  (* Test passes if all criteria are met *)
  pc <- lift (getitem (VDict results) "passed_criteria") ;;
  tc <- lift (getitem (VDict results) "total_criteria") ;;
  let results := dict_set results (VStr "passed") (VBool (py_eq pc tc)) in
  tc <- lift (getitem (VDict results) "total_criteria") ;;
  positive <- lift (py_gt tc (VInt 0)) ;;
  score <- (if positive : bool then
              pc <- lift (getitem (VDict results) "passed_criteria") ;;
              tc <- lift (getitem (VDict results) "total_criteria") ;;
              lift (py_truediv pc tc)
            else ret (VInt 0)) ;;
  ret (VDict (dict_set results (VStr "score") score)).

(** ** [generate_comparison_report(self, all_results)]

    The report is embedded block by block, in the order of the source;
    [generate_comparison_report] below chains the blocks. *)

(** One round of the loop that fills [config_summaries]. *)
Definition summarize_config (config_summaries : dict) (item : value * value)
  : M dict :=
  let (config_name, results) := item in
  total <- lift (py_len results) ;;
  rs <- lift (py_iter results) ;;
  passed <- lift (count_m (fun r => p <~ get r "passed" (VBool false) ;;
                                    Ok (truthy p)) rs) ;;
  partial <- lift (count_m (fun r => p <~ get r "passed" (VBool false) ;;
                                     if negb (truthy p)
                                     then (s <~ get r "score" (VInt 0) ;;
                                           py_gt s (VInt 0))
                                     else Ok false) rs) ;;
  failed <- lift (count_m (fun r => s <~ get r "score" (VInt 0) ;;
                                    Ok (py_eq s (VInt 0))) rs) ;;
  avg_score <- lift (if (0 <? total)%Z
                     then (t <~ sum_m (fun r => get r "score" (VInt 0)) rs (VInt 0) ;;
                           py_truediv t (VInt total))
                     else Ok (VInt 0)) ;;
  pass_rate <- lift (if (0 <? total)%Z
                     then (x <~ py_truediv (VInt passed) (VInt total) ;;
                           py_mul x (VInt 100))
                     else Ok (VInt 0)) ;;
  avg_quality_score <- lift (py_mul avg_score (VInt 100)) ;;  (* As percentage *)
  let config_summaries :=
    dict_set config_summaries config_name
      (VDict [(VStr "tests_total", VInt total);
              (VStr "tests_passed", VInt passed);
              (VStr "tests_partial", VInt partial);
              (VStr "tests_failed", VInt failed);
              (VStr "avg_quality_score", avg_quality_score);
              (VStr "pass_rate", pass_rate)]) in
  shown <- lift (py_mul avg_score (VInt 100)) ;;
  print (py_format config_name "<30" ++ " " ++ py_format (VInt total) "<8" ++ " "
         ++ py_format (VInt passed) "<8" ++ " " ++ py_format (VInt partial) "<8" ++ " "
         ++ py_format (VInt failed) "<8" ++ " " ++ py_format shown "<9.1f" ++ "%") ;;;
  ret config_summaries.

(** Lines 167-202: headers, grouping by configuration, summary statistics.
    Returns [by_config] and [config_summaries]. *)
Definition summary_block (all_results : value) : M (dict * dict) :=
  print (nl ++ repeat_str "=" 80) ;;;
  print " BEHAVIORAL TESTING RESULTS - COMPARISON" ;;;
  print (repeat_str "=" 80 ++ nl) ;;;
  (* Group by configuration *)
  its <- lift (items all_results) ;;
  let by_config := fold_left (fun acc it => dict_set acc (fst it) (snd it)) its [] in
  (* Calculate summary stats *)
  print "📊 OVERALL SCORES BY CONFIGURATION" ;;;
  print (repeat_str "-" 80) ;;;
  print (py_format (VStr "Configuration") "<30" ++ " " ++ py_format (VStr "Tests") "<8" ++ " "
         ++ py_format (VStr "Passed") "<8" ++ " " ++ py_format (VStr "Partial") "<8" ++ " "
         ++ py_format (VStr "Failed") "<8" ++ " " ++ py_format (VStr "Avg Score") "<10") ;;;
  print (repeat_str "-" 80) ;;;
  config_summaries <- fold_m by_config summarize_config [] ;;
  print "" ;;;
  ret (by_config, config_summaries).

(** [{test['id']: test['tests_feature'] for test in tests}] *)
Fixpoint feature_map_of (tests : list value) (acc : dict) : result dict :=
  match tests with
  | [] => Ok acc
  | test :: rest =>
    k <~ getitem test "id" ;;
    v <~ getitem test "tests_feature" ;;
    _ <~ require_hashable k ;;
    feature_map_of rest (dict_set acc k v)
  end.

(** [by_feature[feature][config_name].append(score)] on the nested
    [defaultdict]. *)
Definition by_feature_add (by_feature : dict) (feature config_name score : value)
  : dict :=
  let inner := match dict_get by_feature feature with
               | Some (VDict d) => d
               | _ => []
               end in
  let scores := match dict_get inner config_name with
                | Some (VList l) => l
                | _ => []
                end in
  dict_set by_feature feature
           (VDict (dict_set inner config_name (VList (scores ++ [score])))).

(** The inner loop that groups the results of one configuration. *)
Fixpoint group_results (feature_map : dict) (config_name : value)
         (results : list value) (by_feature : dict) : result dict :=
  match results with
  | [] => Ok by_feature
  | result :: rest =>
    test_id <~ getitem result "test_id" ;;
    _ <~ require_hashable test_id ;;
    let feature := match dict_get feature_map test_id with
                   | Some f => f
                   | None => VStr "unknown"
                   end in
    _ <~ require_hashable feature ;;
    score <~ get result "score" (VInt 0) ;;
    group_results feature_map config_name rest
                  (by_feature_add by_feature feature config_name score)
  end.

(** One row of the table of a feature. *)
Definition feature_row (inner : value) (config_name : string) : M unit :=
  present <- lift (contains_key inner config_name) ;;
  if present : bool then
    scores <- lift (getitem inner config_name) ;;
    n <- lift (py_len scores) ;;
    l <- lift (py_iter scores) ;;
    avg <- lift (if truthy scores
                 then (t <~ sum_m (fun x => Ok x) l (VInt 0) ;; py_truediv t (VInt n))
                 else Ok (VInt 0)) ;;
    shown <- lift (py_mul avg (VInt 100)) ;;
    print (py_format (VStr config_name) "<30" ++ " " ++ py_format (VInt n) "<8" ++ " "
           ++ py_format shown "<9.1f" ++ "%")
  else ret tt.

Definition configuration_names : list string :=
  ["Baseline"; "Reflection Only"; "Completion Only"; "All Features"; "Supervisor"].

(** Lines 204-234: the per-feature table.  Returns [by_feature]. *)
Definition feature_block (by_config : dict) : M dict :=
  print "🎯 FEATURE-SPECIFIC ANALYSIS" ;;;
  print (repeat_str "-" 80) ;;;
  (* Load test definitions to get feature mappings *)
  tests <- load_behavioral_tests ;;
  tests <- lift (py_iter tests) ;;
  feature_map <- lift (feature_map_of tests []) ;;
  (* Group results by feature *)
  by_feature <- fold_m by_config
                  (fun by_feature item =>
                     results <- lift (py_iter (snd item)) ;;
                     lift (group_results feature_map (fst item) results by_feature))
                  [] ;;
  for_each ["reflection"; "completion"; "goals"; "all"]
    (fun feature =>
       if negb (dict_mem by_feature (VStr feature)) then ret tt
       else
         print (nl ++ upper feature ++ " Feature Tests:") ;;;
         print (py_format (VStr "Configuration") "<30" ++ " "
                ++ py_format (VStr "Tests") "<8" ++ " "
                ++ py_format (VStr "Avg Score") "<10") ;;;
         print (repeat_str "-" 50) ;;;
         inner <- lift (getitem (VDict by_feature) feature) ;;
         for_each configuration_names (feature_row inner)) ;;;
  print "" ;;;
  ret by_feature.

(** One row of the improvement table. *)
Definition improvement_row (baseline_score : value) (item : value * value) : M unit :=
  let (config_name, summary) := item in
  if py_eq config_name (VStr "Baseline") then ret tt
  else
    a <- lift (getitem summary "avg_score") ;;
    score_improvement <- lift (py_sub a baseline_score) ;;
    t <- lift (getitem summary "total") ;;
    positive <- lift (py_gt t (VInt 0)) ;;
    pass_rate <- lift (if positive : bool
                       then (p <~ getitem summary "passed" ;;
                             t <~ getitem summary "total" ;;
                             x <~ py_truediv p t ;;
                             py_mul x (VInt 100))
                       else Ok (VInt 0)) ;;
    pct <- lift (py_mul score_improvement (VInt 100)) ;;
    let improvement_str := (py_format pct "+.1f" ++ "%")%string in
    print (py_format config_name "<30" ++ " " ++ py_format (VStr improvement_str) "<20"
           ++ " " ++ py_format pass_rate "<14.1f" ++ "%").

(** Lines 236-257: the improvement analysis against the configuration
    named [Baseline].  Returns [baseline_summary] and [baseline_score],
    which the rest of the report uses. *)
Definition improvement_block (config_summaries : dict) : M (value * value) :=
  print "📈 IMPROVEMENT ANALYSIS (vs Baseline)" ;;;
  print (repeat_str "-" 80) ;;;
  baseline_summary <- lift (get (VDict config_summaries) "Baseline" (VDict [])) ;;
  baseline_score <- lift (get baseline_summary "avg_score" (VInt 0)) ;;
  positive <- lift (py_gt baseline_score (VInt 0)) ;;
  (if positive : bool then
     print (py_format (VStr "Configuration") "<30" ++ " "
            ++ py_format (VStr "Score Improvement") "<20" ++ " "
            ++ py_format (VStr "Pass Rate") "<15") ;;;
     print (repeat_str "-" 80) ;;;
     for_each config_summaries (improvement_row baseline_score)
   else ret tt) ;;;
  print "" ;;;
  ret (baseline_summary, baseline_score).

(** Lines 259-275: the first recommendation, on the configuration named
    [Reflection Only]. *)
Definition reflection_recommendation (config_summaries : dict)
           (baseline_summary : value) : M unit :=
  (* Recommendations *)
  print "💡 BEHAVIORAL RECOMMENDATIONS" ;;;
  print (repeat_str "-" 80) ;;;
  (* Check reflection improvement *)
  reflection_config <- lift (get (VDict config_summaries) "Reflection Only" (VDict [])) ;;
  if truthy reflection_config && truthy baseline_summary then
    a <- lift (getitem reflection_config "avg_score") ;;
    b <- lift (getitem baseline_summary "avg_score") ;;
    d <- lift (py_sub a b) ;;
    reflection_improvement <- lift (py_mul d (VInt 100)) ;;
    big <- lift (py_gt reflection_improvement (VInt 10)) ;;
    if big : bool then
      print ("✅ Structured Reflection shows "
             ++ py_format reflection_improvement ".1f" ++ "% improvement") ;;;
      print "   Recommended for: Error recovery, iterative refinement, quality tasks"
    else
      modest <- lift (py_gt reflection_improvement (VInt 5)) ;;
      if modest : bool then
        print ("⚠️  Structured Reflection shows modest "
               ++ py_format reflection_improvement ".1f" ++ "% improvement") ;;;
        print "   Consider for: Critical tasks where quality matters"
      else
        print ("⚠️  Structured Reflection shows minimal improvement ("
               ++ py_format reflection_improvement ".1f" ++ "%)") ;;;
        print "   May not justify cost for your use case"
  else ret tt.

(** Lines 277-289: the recommendation on [Completion Only]. *)
Definition completion_recommendation (config_summaries : dict)
           (baseline_summary : value) : M unit :=
  completion_config <- lift (get (VDict config_summaries) "Completion Only" (VDict [])) ;;
  if truthy completion_config && truthy baseline_summary then
    a <- lift (getitem completion_config "avg_score") ;;
    b <- lift (getitem baseline_summary "avg_score") ;;
    d <- lift (py_sub a b) ;;
    completion_improvement <- lift (py_mul d (VInt 100)) ;;
    big <- lift (py_gt completion_improvement (VInt 10)) ;;
    if big : bool then
      print (nl ++ "✅ Completion Verification shows "
             ++ py_format completion_improvement ".1f" ++ "% improvement") ;;;
      print "   Recommended for: Multi-step tasks, complex workflows, reports"
    else
      modest <- lift (py_gt completion_improvement (VInt 5)) ;;
      if modest : bool then
        print (nl ++ "⚠️  Completion Verification shows modest "
               ++ py_format completion_improvement ".1f" ++ "% improvement") ;;;
        print "   Consider for: Tasks where completeness is critical"
      else
        print (nl ++ "⚠️  Completion Verification shows minimal improvement ("
               ++ py_format completion_improvement ".1f" ++ "%)") ;;;
        print "   Baseline may be sufficient for your tasks"
  else ret tt.

(** Lines 291-300: the recommendation on [All Features]. *)
Definition all_features_recommendation (config_summaries : dict)
           (baseline_summary : value) : M unit :=
  all_features_config <- lift (get (VDict config_summaries) "All Features" (VDict [])) ;;
  if truthy all_features_config && truthy baseline_summary then
    a <- lift (getitem all_features_config "avg_score") ;;
    b <- lift (getitem baseline_summary "avg_score") ;;
    d <- lift (py_sub a b) ;;
    all_improvement <- lift (py_mul d (VInt 100)) ;;
    big <- lift (py_gt all_improvement (VInt 15)) ;;
    if big : bool then
      print (nl ++ "✅ All Features combined: "
             ++ py_format all_improvement ".1f" ++ "% improvement") ;;;
      print "   Strong synergy between features - recommended for quality-critical production"
    else
      moderate <- lift (py_gt all_improvement (VInt 10)) ;;
      if moderate : bool then
        print (nl ++ "⚠️  All Features combined: "
               ++ py_format all_improvement ".1f" ++ "% improvement") ;;;
        print "   Moderate synergy - use for important workflows"
      else ret tt
  else ret tt.

(** [{config_name.lower().replace(' ', '_'): config_data for ...}] *)
Fixpoint configurations_of (config_summaries : dict) (acc : dict) : result dict :=
  match config_summaries with
  | [] => Ok acc
  | (config_name, config_data) :: rest =>
    match config_name with
    | VStr name =>
      configurations_of rest
        (dict_set acc (VStr (replace_char " " "_" (lower name))) config_data)
    | _ => Raise (no_attribute config_name "lower")
    end
  end.

(** Lines 302-320: saving the summary. *)
Definition save_summary (config_summaries by_feature : dict) (baseline_score : value)
  : M unit :=
  print "" ;;;
  print (repeat_str "=" 80) ;;;
  (* Save summary with standardized structure for cross-provider comparison *)
  configurations <- lift (configurations_of config_summaries []) ;;
  let summary :=
    VDict [(VStr "timestamp", VStr isoformat_now);
           (VStr "configurations", VDict configurations);
           (VStr "feature_analysis", VDict by_feature);
           (VStr "baseline_score", baseline_score)] in
  let summary_file := path_div tester_results_dir "summary.json" in
  write_file summary_file (JsonDump summary) ;;;
  print (nl ++ "Summary saved to: " ++ summary_file).

(** [generate_comparison_report(self, all_results)] *)
Definition generate_comparison_report (all_results : value) : M unit :=
  groups <- summary_block all_results ;;
  let (by_config, config_summaries) := groups : dict * dict in
  (* Feature-specific analysis *)
  by_feature <- feature_block by_config ;;
  (* Improvement analysis *)
  baseline <- improvement_block config_summaries ;;
  let (baseline_summary, baseline_score) := baseline : value * value in
  reflection_recommendation config_summaries baseline_summary ;;;
  completion_recommendation config_summaries baseline_summary ;;;
  all_features_recommendation config_summaries baseline_summary ;;;
  save_summary config_summaries by_feature baseline_score.

(** ** Reference notions for criterion evaluation *)

(** The pattern of a criterion matches the captured output: the search,
    case-insensitive and with [.] matching newlines, finds a match. *)
Definition pattern_matches (pattern output : string) : bool :=
  match re_search pattern output [IGNORECASE; DOTALL] with
  | inr (Some _) => true
  | _ => false
  end.

Definition criterion_matches (output : string) (criterion : value) : bool :=
  match getitem criterion "check_pattern" with
  | Ok (VStr p) => pattern_matches p output
  | _ => false
  end.

(** A criterion as [behavioral_tests.json] declares it: an object with a
    pattern, an identifier and a description. *)
Definition wf_criterion (c : value) : bool :=
  match c with
  | VDict d =>
    dict_mem d (VStr "check_pattern") && dict_mem d (VStr "criterion")
    && dict_mem d (VStr "description")
  | _ => false
  end.

(** The record under construction during the loop of [evaluate_test]. *)
Definition partial_results (id name : value) (l : list value) (n total ol : Z) : dict :=
  [(VStr "test_id", id);
   (VStr "test_name", name);
   (VStr "criteria_results", VList l);
   (VStr "passed_criteria", VInt n);
   (VStr "total_criteria", VInt total);
   (VStr "passed", VBool false);
   (VStr "output_length", VInt ol)].

(** The entry of [criteria_results] for one criterion. *)
Definition criterion_report (output : string) (criterion : value) : value :=
  VDict [(VStr "criterion",
          match getitem criterion "criterion" with Ok c => c | Raise _ => VNone end);
         (VStr "description",
          match getitem criterion "description" with Ok d => d | Raise _ => VNone end);
         (VStr "passed", VBool (criterion_matches output criterion))].

(** The number of criteria whose pattern matches. *)
Definition passed_count (output : string) (crits : list value) : nat :=
  List.length (filter (criterion_matches output) crits).

(** No summary entry carries the key [avg_score]: the entries are built
    with the keys [tests_total], [tests_passed], [tests_partial],
    [tests_failed], [avg_quality_score] and [pass_rate]. *)
Definition lacks_avg_score (v : value) : Prop :=
  get v "avg_score" (VInt 0) = Ok (VInt 0).

(** The verdict and the score that the report reads from a result
    record. *)
Definition record_passed (r : value) : bool :=
  match get r "passed" (VBool false) with
  | Ok p => truthy p
  | Raise _ => false
  end.

Definition record_score (r : value) : Q :=
  match get r "score" (VInt 0) with
  | Ok s => match as_num s with Some q => q | None => 0 end
  | Raise _ => 0
  end.

(** A record as [run_behavioral_suite] builds it for a failed execution
    or for a test with at least one criterion: the score, if present, is
    a number, it is not negative, and it is positive when the test
    passed. *)
Definition scored_record (r : value) : bool :=
  match r with
  | VDict d =>
    match dict_get d (VStr "score") with
    | Some s => match as_num s with Some _ => true | None => false end
    | None => true
    end
    && Qle_bool 0 (record_score r)
    && (negb (record_passed r) || Qlt_bool 0 (record_score r))
  | _ => false
  end.

(** An entry of [config_summaries] as [summarize_config] builds it. *)
Definition config_summary (v : value) : Prop :=
  exists total passed partial failed avg_quality_score pass_rate,
    v = VDict [(VStr "tests_total", total);
               (VStr "tests_passed", passed);
               (VStr "tests_partial", partial);
               (VStr "tests_failed", failed);
               (VStr "avg_quality_score", avg_quality_score);
               (VStr "pass_rate", pass_rate)].

End WithEngine.
End BehavioralTester.

(* ===================================================================== *)
(** * generic_benchmark.py *)
(* ===================================================================== *)

(** What the subject binary does when [hector call] is run: it exits with
    some output and status after some time, it never exits, or it cannot
    be started at all. *)
Inductive child : Type :=
| Exits (out : string) (returncode : Z) (duration : Q)
| Hangs
| CannotStart (msg : string).

(** [subprocess.run(argv, capture_output=True, text=True, timeout=t)]:
    the captured output, the status and the time the call took, when the
    child exits within [t] seconds; [TimeoutExpired] when it does not. *)
Definition subprocess_run (c : child) (t : Z) : result (string * Z * Q) :=
  match c with
  | Exits out rc d =>
    if Qle_bool d (inject_Z t) then Ok (out, rc, d)
    else Raise (Exc TimeoutExpired "timed out")
  | Hangs => Raise (Exc TimeoutExpired "timed out")
  | CannotStart msg => Raise (Exc FileNotFoundError msg)
  end.

(** The child is still running when [t] seconds have passed. *)
Definition exceeds_timeout (c : child) (t : Z) : Prop :=
  match c with
  | Exits _ _ d => inject_Z t < d
  | Hangs => True
  | CannotStart _ => False
  end.

(** [int(s)] for a string of decimal digits. *)
Fixpoint digits_value (s : string) (acc : Z) : option Z :=
  match s with
  | EmptyString => Some acc
  | String c rest =>
    let n := nat_of_ascii c in
    if (48 <=? n)%nat && (n <=? 57)%nat
    then digits_value rest (10 * acc + Z.of_nat (n - 48))
    else None
  end.

Definition py_int (s : string) : result Z :=
  match s with
  | EmptyString => Raise (Exc ValueError "invalid literal for int() with base 10: ''")
  | _ =>
    match digits_value s 0 with
    | Some z => Ok z
    | None => Raise (Exc ValueError ("invalid literal for int() with base 10: '" ++ s ++ "'"))
    end
  end.

(** An object used as a command-line argument or as a path segment must
    be a string. *)
Definition as_str (v : value) : result string :=
  match v with
  | VStr s => Ok s
  | _ => Raise (Exc TypeError ("expected str, bytes or os.PathLike object, not "
                               ++ type_name v))
  end.

Definition is_TimeoutExpired (e : exn) : bool :=
  match e with
  | Exc TimeoutExpired _ => true
  | _ => false
  end.

(** ** [behavioral_benchmark.py]: calling the subject *)

Module BehavioralCalls.
Section WithSubject.

(** How the [hector call] child behaves at the [n]-th external call. *)
Variable call_subject : nat -> list string -> child.

(** [run_test(self, agent_name, prompt)].  The two [except] clauses belong
    to one [try]; their handlers raise nothing, so handling them one
    inside the other gives the same result. *)
Definition run_test (agent_name prompt : value) : M (value * bool) :=
  try_except
    (try_catch is_TimeoutExpired
       (agent <- lift (as_str agent_name) ;;
        prompt <- lift (as_str prompt) ;;
        n <- tick ;;
        let cmd := ["../hector"; "call"; agent; prompt] in
        emit (EvRun cmd 60) ;;;
        r <- lift (subprocess_run (call_subject n cmd) 60) ;;
        let '(output, returncode, _) := r in
        ret (VStr output, (returncode =? 0)%Z))
       (fun _ => ret (VStr "TIMEOUT", false)))
    (fun e => ret (VStr ("ERROR: " ++ exn_str e), false)).

End WithSubject.
End BehavioralCalls.

Module GenericBenchmark.
Section WithWorld.

Variable re_search : regex_engine.
Variable py_format : formatter.

(** What [yaml.safe_load] reads from a file written by [yaml.safe_dump]:
    the dumped document, up to the order of keys. *)
Variable yaml_reload : value -> value.

(** [Path(p).resolve()] *)
Variable resolve : string -> string.

(** [datetime.now().strftime('%Y%m%d_%H%M%S')] *)
Variable timestamp : string.

(** The outside world, consulted at the [n]-th external call with the
    command line [argv]: whether [subprocess.Popen] fails to launch the
    server (with which message), and how a [hector call] child behaves. *)
Variable spawn_server : nat -> list string -> option string.
Variable call_subject : nat -> list string -> child.

(** The order in which a [set] built from the given distinct objects is
    iterated. *)
Variable set_order : list value -> list value.

(** [with open(p) as f: yaml.safe_load(f)] *)
Definition yaml_load (p : string) : M value :=
  fun w =>
    match file_lookup (files w) p with
    | None => (w, Raise (Exc FileNotFoundError ("No such file or directory: '" ++ p ++ "'")))
    | Some (YamlDump v) => (w, Ok (yaml_reload v))
    | Some (JsonDump v) => (w, Ok v)
    | Some (OnDisk _ (Some v)) => (w, Ok v)
    | Some _ => (w, Raise (Exc YAMLError "could not parse the document"))
    end.

Definition get_self : M benchmark := fun w => (w, Ok (self w)).

Definition set_self (b : benchmark) : M unit :=
  fun w => (mkWorld (stdout w) (files w) (events w) (calls w) b, Ok tt).

(** [__init__(self, test_def_path)] *)
Definition init (path : string) : M unit :=
  set_self (mkBenchmark path VNone (path_div "results" "generic") (resolve "../hector")).

(** The loop over the required fields in [load_test_definition]: [Some f]
    is the first field missing from the definition. *)
Fixpoint first_missing (td : value) (required : list string) : result (option string) :=
  match required with
  | [] => Ok None
  | field :: rest =>
    present <~ contains_key td field ;;
    if present : bool then first_missing td rest else Ok (Some field)
  end.

(** [load_test_definition(self)] *)
Definition load_test_definition : M bool :=
  me <- get_self ;;
  found <- exists_ (test_def_path me) ;;
  if negb found then
    print ("❌ Test definition not found: " ++ test_def_path me) ;;;
    ret false
  else
    try_except
      (td <- json_load (test_def_path me) ;;
       set_self (mkBenchmark (test_def_path me) td (results_dir me) (hector_bin me)) ;;;
       (* Validate required fields *)
       missing <- lift (first_missing td ["test_name"; "description"; "variants"; "scenarios"]) ;;
       match missing with
       | Some field =>
         print ("❌ Missing required field: " ++ field) ;;;
         ret false
       | None =>
         n <- lift (getitem td "test_name") ;;
         print ("✅ Loaded test definition: " ++ py_format n "") ;;;
         d <- lift (getitem td "description") ;;
         print ("   Description: " ++ py_format d "") ;;;
         vs <- lift (getitem td "variants") ;;
         nv <- lift (py_len vs) ;;
         print ("   Variants: " ++ py_format (VInt nv) "") ;;;
         ss <- lift (getitem td "scenarios") ;;
         ns <- lift (py_len ss) ;;
         print ("   Scenarios: " ++ py_format (VInt ns) "") ;;;
         ret true
       end)
      (fun e =>
         print ("❌ Failed to load test definition: " ++ exn_str e) ;;;
         ret false).

(** [_set_nested_key(self, d, key_path, value)], after [key_path] has been
    split: walk the keys but the last through [setdefault(key, {})], then
    assign at the last key.  The dictionaries are updated in place; the
    result is the outermost dictionary after the update. *)
Fixpoint set_nested (d : value) (keys : list string) (v : value) : result value :=
  match keys with
  | [] => Raise (Exc IndexError "list index out of range")
  | [k] =>
    match d with
    | VDict m => Ok (VDict (dict_set m (VStr k) v))
    | _ => Raise (Exc TypeError ("'" ++ type_name d
                                 ++ "' object does not support item assignment"))
    end
  | k :: rest =>
    match d with
    | VDict m =>
      let child := match dict_get m (VStr k) with
                   | Some c => c
                   | None => VDict []
                   end in
      child' <~ set_nested child rest v ;;
      Ok (VDict (dict_set m (VStr k) child'))
    | _ => Raise (no_attribute d "setdefault")
    end
  end.

Definition _set_nested_key (d key_path v : value) : result value :=
  match key_path with
  | VStr path => set_nested d (split_on "." path) v
  | _ => Raise (no_attribute key_path "split")
  end.

(** The mapping [k1 -> k2 -> ... -> v]. *)
Fixpoint nested (keys : list string) (v : value) : value :=
  match keys with
  | [] => v
  | k :: rest => VDict [(VStr k, nested rest v)]
  end.

(** A path segment: a string without the separator. *)
Fixpoint dot_free (s : string) : bool :=
  match s with
  | EmptyString => true
  | String c rest => negb (Ascii.eqb c ".") && dot_free rest
  end.

(** Reading a configuration along a list of keys: the value found by
    descending through the mappings, if every key is there. *)
Fixpoint get_nested (d : value) (keys : list string) : option value :=
  match keys with
  | [] => Some d
  | k :: rest =>
    match d with
    | VDict m =>
      match dict_get m (VStr k) with
      | Some c => get_nested c rest
      | None => None
      end
    | _ => None
    end
  end.

Definition is_mapping (v : value) : bool :=
  match v with VDict _ => true | _ => false end.

(** [self.results_dir / f"{variant['name']}_{provider}_temp.yaml"] *)
Definition temp_config_path (dir : string) (name provider : value) : string :=
  path_div dir (py_format name "" ++ "_" ++ py_format provider "" ++ "_temp.yaml").

(** [prepare_variant_config(self, variant, provider)]; [None] is the
    Python [None], [Some p] the path [p]. *)
Definition prepare_variant_config (variant provider : value) : M (option string) :=
  me <- get_self ;;
  config_path <- lift (get variant "config" VNone) ;;
  match config_path with
  | VStr config_file =>
    (* If config is a string, it's a file path *)
    found <- exists_ config_file ;;
    if negb found then
      print ("⚠️  Config file not found: " ++ config_file) ;;;
      ret None
    else
      (* Apply overrides if specified *)
      has_overrides <- lift (contains_key variant "config_overrides") ;;
      if has_overrides : bool then
        config <- yaml_load config_file ;;
        overrides <- lift (getitem variant "config_overrides") ;;
        its <- lift (items overrides) ;;
        config <- lift (fold_left
                          (fun acc kv => c <~ acc ;; _set_nested_key c (fst kv) (snd kv))
                          its (Ok config)) ;;
        (* Write modified config *)
        name <- lift (getitem variant "name") ;;
        let temp_config := temp_config_path (results_dir me) name provider in
        write_file temp_config (YamlDump config) ;;;
        ret (Some temp_config)
      else ret (Some config_file)
  | VDict _ =>
    (* If config is an object, generate config file *)
    let config := config_path in
    name <- lift (getitem variant "name") ;;
    let temp_config := temp_config_path (results_dir me) name provider in
    write_file temp_config (YamlDump config) ;;;
    ret (Some temp_config)
  | _ => ret None
  end.

(** [_extract_metric(self, output, metric_name)] *)
Definition _extract_metric (output metric_name : string) : result Z :=
  let patterns := [("tokens", "(\d+)\s*tokens?"); ("iteration", "iteration\s*(\d+)")] in
  match find (fun kv => String.eqb (fst kv) metric_name) patterns with
  | Some (_, pattern) =>
    match re_search pattern output [IGNORECASE] with
    | inl msg => Raise (Exc ReError msg)
    | inr (Some groups) =>
      match groups with
      | g :: _ => py_int g
      | [] => Raise (Exc IndexError "no such group")
      end
    | inr None => Ok 0%Z
    end
  | None => Ok 0%Z
  end.

(** The loop over [scenario['expected_output_keywords']], which stops at
    the first keyword that the output lacks. *)
Fixpoint check_keywords (keywords : list value) (output : string) (success : bool)
  : result bool :=
  match keywords with
  | [] => Ok success
  | VStr keyword :: rest =>
    if negb (str_contains (lower keyword) (lower output)) then Ok false
    else check_keywords rest output success
  | v :: _ => Raise (no_attribute v "lower")
  end.

(** The record returned when the call runs into the timeout. *)
Definition timeout_record (scenario_name variant_name : value) : value :=
  VDict [(VStr "scenario", scenario_name);
         (VStr "variant", variant_name);
         (VStr "success", VBool false);
         (VStr "error", VStr "Timeout");
         (VStr "elapsed_time", VInt 60)].

(** The body of the [try] block of [run_scenario]. *)
Definition call_and_measure (me : benchmark) (variant scenario scenario_name
                             prompt agent_name : value) : M value :=
  (* Run test *)
  agent <- lift (as_str agent_name) ;;
  prompt <- lift (as_str prompt) ;;
  n <- tick ;;
  let argv := [hector_bin me; "call"; agent; prompt] in
  emit (EvRun argv 60) ;;;
  r <- lift (subprocess_run (call_subject n argv) 60) ;;
  let '(output, returncode, elapsed_time) := r in
  (* Parse output for metrics *)
  let success := (returncode =? 0)%Z in
  (* Extract metrics from output *)
  tokens <- lift (_extract_metric output "tokens") ;;
  iterations <- lift (_extract_metric output "iteration") ;;
  (* Check success criteria *)
  has_keywords <- lift (contains_key scenario "expected_output_keywords") ;;
  success <- (if has_keywords : bool then
                kws <- lift (getitem scenario "expected_output_keywords") ;;
                keywords <- lift (py_iter kws) ;;
                lift (check_keywords keywords output success)
              else ret success) ;;
  variant_name <- lift (getitem variant "name") ;;
  ret (VDict [(VStr "scenario", scenario_name);
              (VStr "variant", variant_name);
              (VStr "success", VBool success);
              (VStr "elapsed_time", VFloat elapsed_time);
              (VStr "tokens", VInt tokens);
              (VStr "iterations", VInt iterations);
              (VStr "output", VStr (take 500 output))]).  (* Truncate for storage *)

(** [run_scenario(self, variant, scenario, config_path, agent_name)] *)
Definition run_scenario (variant scenario : value) (config_path : string)
           (agent_name : value) : M value :=
  me <- get_self ;;
  scenario_name <- lift (getitem scenario "name") ;;
  prompt <- lift (getitem scenario "prompt") ;;
  print ("   Running scenario: " ++ py_format scenario_name "") ;;;
  (* Start server *)
  variant_name <- lift (getitem variant "name") ;;
  let server_log :=
    path_div (results_dir me)
             (py_format variant_name "" ++ "_" ++ py_format scenario_name ""
              ++ "_server.log") in
  let argv := [hector_bin me; "serve"; "--config"; config_path] in
  write_file server_log LogFile ;;;
  n <- tick ;;
  match spawn_server n argv with
  | Some msg => raise (Exc FileNotFoundError msg)
  | None => emit (EvPopen argv server_log)
  end ;;;
  emit (EvSleep 3) ;;;  (* Wait for server to start *)
  try_finally
    (try_catch is_TimeoutExpired
       (call_and_measure me variant scenario scenario_name prompt agent_name)
       (fun _ =>
          variant_name <- lift (getitem variant "name") ;;
          ret (timeout_record scenario_name variant_name)))
    (emit EvTerminate ;;; emit EvWait).

(** ** [generate_summary] *)

(** [d[k]] for an arbitrary key. *)
Definition lookup (d : dict) (k : value) : result value :=
  match dict_get d k with
  | Some x => Ok x
  | None => Raise (Exc KeyError (key_repr k))
  end.

(** The distinct elements of a list, each at its first occurrence. *)
Fixpoint dedup (l : list value) : list value :=
  match l with
  | [] => []
  | x :: rest => x :: filter (fun y => negb (py_eq x y)) (dedup rest)
  end.

(** [r['variant'] for r in results], as consumed by [set(...)]: every
    element must be hashable. *)
Fixpoint variant_names (results : list value) : result (list value) :=
  match results with
  | [] => Ok []
  | r :: rest =>
    v <~ getitem r "variant" ;;
    if hashable v then (vs <~ variant_names rest ;; Ok (v :: vs))
    else Raise (Exc TypeError ("unhashable type: '" ++ type_name v ++ "'"))
  end.

(** [[r for r in results if r['variant'] == variant]] *)
Fixpoint results_of (variant : value) (results : list value) : result (list value) :=
  match results with
  | [] => Ok []
  | r :: rest =>
    v <~ getitem r "variant" ;;
    rs <~ results_of variant rest ;;
    Ok (if py_eq v variant then r :: rs else rs)
  end.

(** [sum(r.get(field, 0) for r in rs) / len(rs) if rs else 0] *)
Definition average (field : string) (rs : list value) : result value :=
  match rs with
  | [] => Ok (VInt 0)
  | _ =>
    total <~ sum_m (fun r => get r field (VInt 0)) rs (VInt 0) ;;
    py_truediv total (VInt (Z.of_nat (List.length rs)))
  end.

(** The entry of [summary] computed for one variant. *)
Definition variant_summary (results : list value) (variant : value) : result value :=
  variant_results <~ results_of variant results ;;
  success_count <~ count_m (fun r => s <~ get r "success" VNone ;; Ok (truthy s))
                     variant_results ;;
  success_rate <~ match variant_results with
                  | [] => Ok (VInt 0)
                  | _ => py_truediv (VInt success_count)
                                    (VInt (Z.of_nat (List.length variant_results)))
                  end ;;
  avg_tokens <~ average "tokens" variant_results ;;
  avg_time <~ average "elapsed_time" variant_results ;;
  Ok (VDict [(VStr "success_rate", success_rate);
             (VStr "avg_tokens", avg_tokens);
             (VStr "avg_time", avg_time);
             (VStr "total_tests", VInt (Z.of_nat (List.length variant_results)))]).

(** One round of the loop that fills [summary]. *)
Definition summarize_variant (results : list value) (summary : dict) (variant : value)
  : M dict :=
  entry <- lift (variant_summary results variant) ;;
  let summary := dict_set summary variant entry in
  success_rate <- lift (getitem entry "success_rate") ;;
  avg_tokens <- lift (getitem entry "avg_tokens") ;;
  avg_time <- lift (getitem entry "avg_time") ;;
  print (py_format variant "<20" ++ " " ++ py_format success_rate "<15.1%" ++ " "
         ++ py_format avg_tokens "<15.0f" ++ " " ++ py_format avg_time "<15.1f" ++ "s") ;;;
  ret summary.

(** [max(items, key=...)] and [min(items, key=...)]: the first item whose
    key no other item beats. *)
Fixpoint extremum (beats : value -> value -> result bool) (key : value -> result value)
         (best kbest : value) (rest : list value) : result value :=
  match rest with
  | [] => Ok best
  | v :: rest' =>
    kv <~ key v ;;
    b <~ beats kv kbest ;;
    if b : bool then extremum beats key v kv rest'
    else extremum beats key best kbest rest'
  end.

Definition py_max (key : value -> result value) (l : list value) : result value :=
  match l with
  | [] => Raise (Exc ValueError "max() arg is an empty sequence")
  | v :: rest => kv <~ key v ;; extremum py_gt key v kv rest
  end.

Definition py_min (key : value -> result value) (l : list value) : result value :=
  match l with
  | [] => Raise (Exc ValueError "min() arg is an empty sequence")
  | v :: rest => kv <~ key v ;; extremum py_lt key v kv rest
  end.

(** [summary[v][field]] *)
Definition summary_key (summary : dict) (field : string) (v : value) : result value :=
  entry <~ lookup summary v ;; getitem entry field.

(** The variant the recommendation names, if the primary metric is one of
    the three the script knows. *)
Definition best_variant (primary_metric : value) (variants : list value)
           (summary : dict) : result (option value) :=
  if py_eq primary_metric (VStr "quality") then
    best <~ py_max (summary_key summary "success_rate") variants ;; Ok (Some best)
  else if py_eq primary_metric (VStr "cost") then
    best <~ py_min (summary_key summary "avg_tokens") variants ;; Ok (Some best)
  else if py_eq primary_metric (VStr "speed") then
    best <~ py_min (summary_key summary "avg_time") variants ;; Ok (Some best)
  else Ok None.

(** *** Reference notions for the summary *)

(** The number stored under [field] in the summary entry of a variant
    (0 when there is none). *)
Definition field_value (summary : dict) (field : string) (v : value) : Q :=
  match summary_key summary field v with
  | Ok x => match as_num x with Some q => q | None => 0 end
  | Raise _ => 0
  end.

(** Every listed variant has a number under [field]. *)
Definition numeric_entries (summary : dict) (field : string) (variants : list value)
  : Prop :=
  forall v, In v variants ->
            exists x q, summary_key summary field v = Ok x /\ as_num x = Some q.

(** A summary entry as [generate_summary] builds it: the three statistics
    are numbers. *)
Definition summary_entry (e : value) : Prop :=
  exists sr tk tm (qsr qtk qtm : Q) (n : Z),
    e = VDict [(VStr "success_rate", sr);
               (VStr "avg_tokens", tk);
               (VStr "avg_time", tm);
               (VStr "total_tests", VInt n)] /\
    as_num sr = Some qsr /\ as_num tk = Some qtk /\ as_num tm = Some qtm.

(** The record [r] belongs to the variant [v]. *)
Definition has_variant (v r : value) : bool :=
  match getitem r "variant" with
  | Ok x => py_eq x v
  | Raise _ => false
  end.

(** What a record contributes to the sum of a metric: the number under
    [field], and 0 when the record has no such field. *)
Definition metric_of (field : string) (r : value) : Q :=
  match get r field (VInt 0) with
  | Ok x => match as_num x with Some q => q | None => 0 end
  | Raise _ => 0
  end.

Definition succeeded (r : value) : bool :=
  match get r "success" VNone with
  | Ok s => truthy s
  | Raise _ => false
  end.

Definition Qsum (l : list Q) : Q := fold_right Qplus 0 l.

(** A record as [run_scenario] builds them: an object with a variant
    name, whose [tokens] and [elapsed_time], where present, are numbers. *)
Definition numeric_or_absent (field : string) (d : dict) : bool :=
  match dict_get d (VStr field) with
  | Some x => match as_num x with Some _ => true | None => false end
  | None => true
  end.

Definition wf_record (r : value) : bool :=
  match r with
  | VDict d =>
    dict_mem d (VStr "variant") && numeric_or_absent "tokens" d
    && numeric_or_absent "elapsed_time" d
  | _ => false
  end.

(** The key function yields a number on [v]. *)
Definition has_number (key : value -> result value) (v : value) : Prop :=
  exists x q, key v = Ok x /\ as_num x = Some q.

(** The text [main] prints when no argument is given. *)
Definition usage_lines : list string :=
  ["Usage: python generic_benchmark.py <test_definition.json>";
   (nl ++ "Example:")%string;
   "  python generic_benchmark.py tests/prompt_variations.json"].

(** [generate_summary(self, results, run_dir)] *)
Definition generate_summary (results : list value) (run_dir : string) : M unit :=
  print (nl ++ repeat_str "=" 80) ;;;
  print "SUMMARY" ;;;
  print (repeat_str "=" 80 ++ nl) ;;;
  names <- lift (variant_names results) ;;
  let variants := set_order (dedup names) in
  print (py_format (VStr "Variant") "<20" ++ " " ++ py_format (VStr "Success Rate") "<15"
         ++ " " ++ py_format (VStr "Avg Tokens") "<15" ++ " "
         ++ py_format (VStr "Avg Time") "<15") ;;;
  print (repeat_str "-" 80) ;;;
  summary <- fold_m variants (summarize_variant results) [] ;;
  (* Save summary *)
  let summary_file := path_div run_dir "summary.json" in
  write_file summary_file (JsonDump (VDict summary)) ;;;
  print (nl ++ "📊 Summary saved: " ++ summary_file) ;;;
  (* Recommendations *)
  print (nl ++ "💡 Recommendations:") ;;;
  (* Find best variant by primary metric *)
  me <- get_self ;;
  metrics <- lift (get (test_def me) "metrics" (VDict [])) ;;
  primary_metric <- lift (get metrics "primary" (VStr "quality")) ;;
  best <- lift (best_variant primary_metric variants summary) ;;
  match best with
  | None => ret tt
  | Some best =>
    if py_eq primary_metric (VStr "quality") then
      x <- lift (summary_key summary "success_rate" best) ;;
      print ("   - Best quality: " ++ py_format best "" ++ " ("
             ++ py_format x ".1%" ++ " success)")
    else if py_eq primary_metric (VStr "cost") then
      x <- lift (summary_key summary "avg_tokens" best) ;;
      print ("   - Most cost-effective: " ++ py_format best "" ++ " ("
             ++ py_format x ".0f" ++ " avg tokens)")
    else
      x <- lift (summary_key summary "avg_time" best) ;;
      print ("   - Fastest: " ++ py_format best "" ++ " ("
             ++ py_format x ".1f" ++ "s avg)")
  end.

(** ** [run_benchmark] and [main] *)

(** [range(n)] as the list of its indices. *)
Definition py_range (n : value) : result (list Z) :=
  match as_int n with
  | Some z => Ok (map Z.of_nat (seq 0 (Z.to_nat z)))
  | None => Raise (Exc TypeError ("'" ++ type_name n
                                  ++ "' object cannot be interpreted as an integer"))
  end.

(** [list(agents.keys())[0] if agents else 'test_agent'] *)
Definition first_agent (agents : value) : result value :=
  if truthy agents then
    match agents with
    | VDict d =>
      match dict_keys d with
      | k :: _ => Ok k
      | [] => Raise (Exc IndexError "list index out of range")
      end
    | _ => Raise (no_attribute agents "keys")
    end
  else Ok (VStr "test_agent").

(** One execution of a scenario inside the loops of [run_benchmark]. *)
Definition run_iteration (variant provider scenario : value) (config_path : string)
           (agent_name : value) (all_results : list value) (i : Z)
  : M (list value) :=
  result <- run_scenario variant scenario config_path agent_name ;;
  d <- lift (match result with
             | VDict d => Ok d
             | _ => Raise (Exc TypeError "object does not support item assignment")
             end) ;;
  let d := dict_set d (VStr "provider") provider in
  let d := dict_set d (VStr "iteration") (VInt (i + 1)) in
  let all_results := all_results ++ [VDict d] in
  ok <- lift (get (VDict d) "success" VNone) ;;
  let status := if truthy ok then "✅" else "❌" in
  name <- lift (getitem scenario "name") ;;
  elapsed <- lift (get (VDict d) "elapsed_time" (VInt 0)) ;;
  print ("      " ++ status ++ " " ++ py_format name "" ++ " ("
         ++ py_format elapsed ".1f" ++ "s)") ;;;
  ret all_results.

(** The body of the loop over providers. *)
Definition run_provider (iterations variant : value) (all_results : list value)
           (provider : value) : M (list value) :=
  print ("   Provider: " ++ py_format provider "") ;;;
  (* Prepare config *)
  config_path <- prepare_variant_config variant provider ;;
  match config_path with
  | None =>
    print "   ⚠️  Failed to prepare config, skipping" ;;;
    ret all_results
  | Some config_path =>
    (* Determine agent name from config *)
    config <- yaml_load config_path ;;
    agents <- lift (get config "agents" (VDict [])) ;;
    agent_name <- lift (first_agent agents) ;;
    (* Run scenarios *)
    me <- get_self ;;
    scenarios <- lift (getitem (test_def me) "scenarios") ;;
    scenarios <- lift (py_iter scenarios) ;;
    fold_m scenarios
      (fun all_results scenario =>
         indices <- lift (py_range iterations) ;;
         fold_m indices
           (run_iteration variant provider scenario config_path agent_name)
           all_results)
      all_results
  end.

(** The body of the loop over variants. *)
Definition run_variant (providers iterations : value) (all_results : list value)
           (variant : value) : M (list value) :=
  name <- lift (getitem variant "name") ;;
  print (nl ++ "🧪 Testing variant: " ++ py_format name "") ;;;
  has_description <- lift (contains_key variant "description") ;;
  (if has_description : bool then
     d <- lift (getitem variant "description") ;;
     print ("   " ++ py_format d "")
   else ret tt) ;;;
  providers <- lift (py_iter providers) ;;
  fold_m providers (run_provider iterations variant) all_results.

(** [run_benchmark(self)] *)
Definition run_benchmark : M unit :=
  loaded <- load_test_definition ;;
  if negb loaded then ret tt
  else
    (* Create results directory *)
    me <- get_self ;;
    test_name <- lift (getitem (test_def me) "test_name") ;;
    segment <- lift (as_str test_name) ;;
    let run_dir := path_div (path_div (results_dir me) segment) ("run_" ++ timestamp) in
    emit (EvMkdir run_dir) ;;;
    set_self (mkBenchmark (test_def_path me) (test_def me) run_dir (hector_bin me)) ;;;
    print (nl ++ repeat_str "=" 80) ;;;
    print ("RUNNING TEST: " ++ segment) ;;;
    print (repeat_str "=" 80 ++ nl) ;;;
    providers <- lift (get (test_def me) "providers" (VList [VStr "openai"])) ;;
    iterations <- lift (get (test_def me) "iterations" (VInt 1)) ;;
    (* Run each variant *)
    variants <- lift (getitem (test_def me) "variants") ;;
    variants <- lift (py_iter variants) ;;
    all_results <- fold_m variants (run_variant providers iterations) [] ;;
    (* Save results *)
    let results_file := path_div run_dir "results.json" in
    write_file results_file (JsonDump (VList all_results)) ;;;
    print (nl ++ "✅ Results saved: " ++ results_file) ;;;
    (* Generate summary *)
    generate_summary all_results run_dir.

(** [main()], given [sys.argv]. *)
Definition main (argv : list string) : M unit :=
  (if (List.length argv <? 2)%nat then
     print "Usage: python generic_benchmark.py <test_definition.json>" ;;;
     print (nl ++ "Example:") ;;;
     print "  python generic_benchmark.py tests/prompt_variations.json" ;;;
     raise (SystemExit 1)
   else ret tt) ;;;
  match nth_error argv 1 with
  | Some test_def_path =>
    init test_def_path ;;;
    run_benchmark
  | None => raise (Exc IndexError "list index out of range")
  end.

(** *** Reference notions for a scenario run *)

(** Every expected keyword occurs in the output, letter case aside. *)
Definition keywords_found (keywords : list string) (output : string) : bool :=
  forallb (fun keyword => str_contains (lower keyword) (lower output)) keywords.

(** The record of a call that returned within the time limit. *)
Definition completed_record (scenario_name variant_name : value) (success : bool)
           (elapsed_time : Q) (tokens iterations : Z) (output : string) : value :=
  VDict [(VStr "scenario", scenario_name);
         (VStr "variant", variant_name);
         (VStr "success", VBool success);
         (VStr "elapsed_time", VFloat elapsed_time);
         (VStr "tokens", VInt tokens);
         (VStr "iterations", VInt iterations);
         (VStr "output", VStr (take 500 output))].

(** The variant is an object with a name whose [config] is the path of a
    file that is not among [fs]. *)
Definition config_file_missing (fs : list (string * file)) (variant : value) : bool :=
  match variant with
  | VDict d =>
    dict_mem d (VStr "name")
    && match dict_get d (VStr "config") with
       | Some (VStr p) =>
         match file_lookup fs p with None => true | Some _ => false end
       | _ => false
       end
  | _ => false
  end.

(** The loop [for key, value in variant['config_overrides'].items():
    self._set_nested_key(config, key, value)]: the configuration after
    the overrides have been applied, in the order of their declaration. *)
Definition apply_overrides (config : value) (overrides : list (value * value))
  : result value :=
  fold_left (fun acc kv => c <~ acc ;; _set_nested_key c (fst kv) (snd kv))
            overrides (Ok config).

(** The record names its variant by a string. *)
Definition named_record (r : value) : bool :=
  match getitem r "variant" with
  | Ok (VStr _) => true
  | _ => false
  end.

(** The number stored under [total_tests] in a summary entry. *)
Definition total_tests_of (entry : value) : Z :=
  match getitem entry "total_tests" with
  | Ok (VInt n) => n
  | _ => 0%Z
  end.

Definition Zsum (l : list Z) : Z := fold_right Z.add 0%Z l.

(** The primary metric that [generate_summary] reads from a definition. *)
Definition primary_metric_of (td : value) : result value :=
  metrics <~ get td "metrics" (VDict []) ;; get metrics "primary" (VStr "quality").

End WithWorld.
End GenericBenchmark.

(** ** [_set_nested_key] on shared dictionaries

    [yaml.safe_load] resolves an alias to the very object of its anchor,
    so two entries of a configuration can hold the same dictionary, and
    [_set_nested_key] updates dictionaries in place.  Here dictionaries
    live in a store and are held by reference: an update through one
    holder is seen by every holder. *)
Module InPlace.

Definition loc : Type := nat.

(** An object: a dictionary, by reference; a list of objects; or any
    other value ([None], a boolean, a number, a string). *)
Inductive obj : Type :=
| Ref (l : loc)
| Items (xs : list obj)
| Atom (v : value).

(** The entries of a dictionary, in insertion order. *)
Definition table : Type := list (value * obj).

(** The dictionaries that exist: the dictionary at location [l] is the
    [l]-th table.  A new dictionary goes last. *)
Definition store : Type := list table.

Definition obj_type_name (o : obj) : string :=
  match o with
  | Ref _ => "dict"
  | Items _ => "list"
  | Atom v => type_name v
  end.

Fixpoint table_get (t : table) (k : value) : option obj :=
  match t with
  | [] => None
  | (k', x) :: rest => if py_eq k' k then Some x else table_get rest k
  end.

(** [t[k] = x]: an existing key keeps its position, a new key goes last. *)
Fixpoint table_set (t : table) (k : value) (x : obj) : table :=
  match t with
  | [] => [(k, x)]
  | (k', x') :: rest =>
    if py_eq k' k then (k', x) :: rest else (k', x') :: table_set rest k x
  end.

Definition fetch (s : store) (l : loc) : option table := nth_error s l.

(** Replace the table of the dictionary at [l]. *)
Fixpoint put (s : store) (l : loc) (t : table) : store :=
  match s, l with
  | [], _ => []
  | _ :: rest, O => t :: rest
  | t0 :: rest, S l' => t0 :: put rest l' t
  end.

(** A reference to a location outside the store does not occur in a
    Python state; the model stops on it. *)
Definition no_object : exn := Exc KeyError "no dictionary at this location".

(** [d.setdefault(key, {})]: the object under [key], after binding [key]
    to a new empty dictionary when it was absent.  (The [{}] that Python
    builds when [key] is present is dropped at once and not modelled.) *)
Definition setdefault (s : store) (d : obj) (key : string) : result (store * obj) :=
  match d with
  | Ref l =>
    match fetch s l with
    | Some t =>
      match table_get t (VStr key) with
      | Some x => Ok (s, x)
      | None =>
        let fresh := List.length s in
        Ok (put s l (table_set t (VStr key) (Ref fresh)) ++ [[]], Ref fresh)
      end
    | None => Raise no_object
    end
  | _ => Raise (Exc AttributeError ("'" ++ obj_type_name d
                                    ++ "' object has no attribute 'setdefault'"))
  end.

(** [d[key] = x] *)
Definition setitem (s : store) (d : obj) (key : string) (x : obj) : result store :=
  match d with
  | Ref l =>
    match fetch s l with
    | Some t => Ok (put s l (table_set t (VStr key) x))
    | None => Raise no_object
    end
  | Items _ => Raise (Exc TypeError "list indices must be integers or slices, not str")
  | Atom _ => Raise (Exc TypeError ("'" ++ obj_type_name d
                                    ++ "' object does not support item assignment"))
  end.

(** The loop and the final assignment of [_set_nested_key], after
    [key_path] has been split. *)
Fixpoint set_nested_in_place (s : store) (d : obj) (keys : list string) (x : obj)
  : result store :=
  match keys with
  | [] => Raise (Exc IndexError "list index out of range")
  | [key] => setitem s d key x
  | key :: rest =>
    r <~ setdefault s d key ;;
    set_nested_in_place (fst r) (snd r) rest x
  end.

(** [_set_nested_key(self, d, key_path, value)] *)
Definition _set_nested_key (s : store) (d : obj) (key_path : value) (x : obj)
  : result store :=
  match key_path with
  | VStr path => set_nested_in_place s d (split_on "." path) x
  | _ => Raise (no_attribute key_path "split")
  end.

(** *** Reference notions *)

(** Where an override lands in the store as it is before the call: the
    walk follows the segments as long as they are present, and the
    dictionary it stops in is updated at the first absent segment (bound
    to a new dictionary) or else at the last segment (bound to the
    value). *)
Fixpoint landing (s : store) (d : obj) (keys : list string) : option (loc * string) :=
  match keys with
  | [] => None
  | key :: rest =>
    match d with
    | Ref l =>
      match rest with
      | [] => Some (l, key)
      | _ =>
        match fetch s l with
        | Some t =>
          match table_get t (VStr key) with
          | Some x => landing s x rest
          | None => Some (l, key)
          end
        | None => None
        end
      end
    | _ => None
    end
  end.

(** The document an object stands for, read through the references down
    to the given depth (a store can hold cycles). *)
Fixpoint view (depth : nat) (s : store) (o : obj) : value :=
  match depth with
  | O => VNone
  | S depth' =>
    match o with
    | Atom v => v
    | Items xs => VList (map (view depth' s) xs)
    | Ref l =>
      match fetch s l with
      | Some t => VDict (map (fun kx => (fst kx, view depth' s (snd kx))) t)
      | None => VNone
      end
    end
  end.

End InPlace.

(** The exit status of the interpreter after running a script body: 0
    when it returns, the code given to [sys.exit], and 1 when an exception
    ends the program. *)
Definition exit_status {A} (r : result A) : Z :=
  match r with
  | Ok _ => 0
  | Raise (SystemExit code) => code
  | Raise (Exc _ _) => 1
  end.

(** A small engine on which the models run on concrete inputs.  A pattern
    without metacharacters is searched as literal text, ignoring case under
    [IGNORECASE]; the pattern ["("] does not compile.  On these patterns it
    agrees with Python's [re]. *)
Definition literal_engine : regex_engine :=
  fun pattern text flags =>
    if String.eqb pattern "(" then
      inl "missing ), unterminated subpattern at position 0"
    else
      let ci := existsb (fun f => match f with IGNORECASE => true | _ => false end) flags in
      let found := if ci then str_contains (lower pattern) (lower text)
                   else str_contains pattern text in
      if found then inr (Some []) else inr None.

(** A formatter for concrete runs: [str] of a string or an integer, and
    the type name in angle brackets for any other object; the format
    specification (padding, precision) is ignored. *)
Definition plain_format : formatter :=
  fun v _ =>
    match v with
    | VStr s => s
    | VInt z => str_of_Z z
    | _ => ("<" ++ type_name v ++ ">")%string
    end.

Definition empty_world : world :=
  mkWorld [] [] [] 0 (mkBenchmark "" VNone "" "").

(** ** Sample inputs for the behavioural tester *)

Definition hello_criterion : value :=
  VDict [(VStr "criterion", VStr "greets");
         (VStr "description", VStr "says hello");
         (VStr "check_pattern", VStr "hello")].

Definition broken_criterion : value :=
  VDict [(VStr "criterion", VStr "broken");
         (VStr "description", VStr "pattern with an unclosed group");
         (VStr "check_pattern", VStr "(")].

Definition two_criteria_test : value :=
  VDict [(VStr "id", VStr "t1");
         (VStr "name", VStr "greeting");
         (VStr "success_criteria", VList [hello_criterion; broken_criterion])].

Definition zero_criteria_test : value :=
  VDict [(VStr "id", VStr "t0");
         (VStr "name", VStr "nothing declared");
         (VStr "success_criteria", VList [])].


(** A result record as [evaluate_test] returns it for a test with one
    criterion. *)
Definition suite_record (passed : bool) (passed_criteria : Z) (score : Q) : value :=
  VDict [(VStr "test_id", VStr "t1");
         (VStr "test_name", VStr "greeting");
         (VStr "criteria_results",
          VList [VDict [(VStr "criterion", VStr "greets");
                        (VStr "description", VStr "says hello");
                        (VStr "passed", VBool passed)]]);
         (VStr "passed_criteria", VInt passed_criteria);
         (VStr "total_criteria", VInt 2);
         (VStr "passed", VBool passed);
         (VStr "output_length", VInt 11);
         (VStr "score", VFloat score)].

(** A run of two configurations, one of them the baseline: the baseline
    passes its test with score 1.0, the other scores 0.5. *)
Definition baseline_run : value :=
  VDict [(VStr "Baseline", VList [suite_record true 2 1]);
         (VStr "Reflection Only", VList [suite_record false 1 (1 # 2)])].

(** A run without a baseline configuration. *)
Definition no_baseline_run : value :=
  VDict [(VStr "Reflection Only", VList [suite_record false 1 (1 # 2)])].

(** ** Sample inputs for the generic benchmark *)

Definition base_config : value :=
  VDict [(VStr "agents",
          VDict [(VStr "main", VDict [(VStr "model", VStr "gpt-4o")])])].

(** A variant that refers to a configuration file and overrides nothing. *)
Definition plain_variant : value :=
  VDict [(VStr "name", VStr "plain"); (VStr "config", VStr "configs/base.yaml")].

(** A variant that refers to the same file and overrides one setting. *)
Definition tuned_variant : value :=
  VDict [(VStr "name", VStr "tuned");
         (VStr "config", VStr "configs/base.yaml");
         (VStr "config_overrides",
          VDict [(VStr "agents.main.temperature", VInt 0)])].

(** A variant with an inline configuration. *)
Definition inline_variant : value :=
  VDict [(VStr "name", VStr "inline"); (VStr "config", base_config)].

(** A benchmark object on a disk that holds the base configuration. *)
Definition bench_world : world :=
  mkWorld [] [("configs/base.yaml", OnDisk None (Some base_config))] [] 0
          (mkBenchmark "tests/prompt_variations.json" VNone "results/generic"
                       "/opt/hector/hector").

(** The regular-expression answers needed by the sample runs: on the one
    output the sample subject prints, the token pattern captures [42] and
    the iteration pattern captures [3]; any other search goes to
    [literal_engine]. *)
Definition sample_output : string := "Hello there. Used 42 tokens in iteration 3.".

Definition sample_engine : regex_engine :=
  fun pattern text flags =>
    if String.eqb text sample_output && String.eqb pattern "(\d+)\s*tokens?"
    then inr (Some ["42"])
    else if String.eqb text sample_output && String.eqb pattern "iteration\s*(\d+)"
    then inr (Some ["3"])
    else if String.eqb pattern "(\d+)\s*tokens?" || String.eqb pattern "iteration\s*(\d+)"
    then inr None
    else literal_engine pattern text flags.

(** A subject that answers the first [hector call] at once and never
    answers later ones; the server always starts. *)
Definition sample_subject : nat -> list string -> child :=
  fun n _ => if (n <=? 1)%nat then Exits sample_output 0 (3 # 2) else Hangs.

Definition hanging_subject : nat -> list string -> child := fun _ _ => Hangs.

Definition server_starts : nat -> list string -> option string := fun _ _ => None.

Definition echo_scenario : value :=
  VDict [(VStr "name", VStr "echo-test");
         (VStr "prompt", VStr "say hello");
         (VStr "expected_output_keywords", VList [VStr "hello"])].

(** A test definition with the inline variant, one scenario and two
    iterations. *)
Definition sample_definition : value :=
  VDict [(VStr "test_name", VStr "prompt_variations");
         (VStr "description", VStr "compare prompts");
         (VStr "iterations", VInt 2);
         (VStr "variants", VList [inline_variant]);
         (VStr "scenarios", VList [echo_scenario])].

(** The disk before a run: the test definition and the base
    configuration. *)
Definition sample_disk : world :=
  mkWorld []
          [("tests/prompt_variations.json", OnDisk (Some sample_definition) None);
           ("configs/base.yaml", OnDisk None (Some base_config))]
          [] 0 (mkBenchmark "" VNone "" "").

(** The records of a run of two variants: [careful] succeeds twice, with
    100 tokens in 10 seconds each time; [quick] succeeds once, with 10
    tokens in one second, and runs into the timeout once. *)
Definition run_record (variant : string) (success : bool) (seconds : Q) (tokens : Z)
  : value :=
  VDict [(VStr "scenario", VStr "echo-test");
         (VStr "variant", VStr variant);
         (VStr "success", VBool success);
         (VStr "elapsed_time", VFloat seconds);
         (VStr "tokens", VInt tokens);
         (VStr "iterations", VInt 1);
         (VStr "output", VStr "hello")].

Definition two_variant_results : list value :=
  [run_record "careful" true 10 100;
   run_record "quick" true 1 10;
   run_record "careful" true 10 100;
   GenericBenchmark.timeout_record (VStr "echo-test") (VStr "quick")].

Definition two_variant_names : list value :=
  [VStr "careful"; VStr "quick"; VStr "careful"; VStr "quick"].

Definition two_variant_summary : dict :=
  [(VStr "careful",
    VDict [(VStr "success_rate", VFloat (2 # 2));
           (VStr "avg_tokens", VFloat (200 # 2));
           (VStr "avg_time", VFloat (20 # 2));
           (VStr "total_tests", VInt 2)]);
   (VStr "quick",
    VDict [(VStr "success_rate", VFloat (1 # 2));
           (VStr "avg_tokens", VFloat (10 # 2));
           (VStr "avg_time", VFloat (61 # 2));
           (VStr "total_tests", VInt 2)])].

(** The test definitions of the behavioural suite, as stored in
    [behavioral_tests.json]. *)
Definition behavioral_tests_file : value :=
  VDict [(VStr "behavioral_tests",
          VList [VDict [(VStr "id", VStr "t1");
                        (VStr "name", VStr "greeting");
                        (VStr "tests_feature", VStr "reflection");
                        (VStr "prompt", VStr "say hello");
                        (VStr "success_criteria",
                         VList [hello_criterion; broken_criterion])]])].

Definition tester_world : world :=
  mkWorld [] [("behavioral_tests.json", OnDisk (Some behavioral_tests_file) None)] [] 0
          (mkBenchmark "" VNone "" "").

(** A configuration whose [agents] entry is a plain string, and an empty
    configuration file, which [yaml.safe_load] reads as [None]. *)
Definition flat_config : value :=
  VDict [(VStr "agents", VStr "none"); (VStr "version", VInt 2)].

Definition nested_config : value :=
  VDict [(VStr "version", VInt 2);
         (VStr "agents",
          VDict [(VStr "main", VDict [(VStr "model", VStr "gpt-4o")])])].

(** A variant whose configuration file does not exist, one without any
    configuration, and an inline variant that also declares overrides. *)
Definition lost_variant : value :=
  VDict [(VStr "name", VStr "lost"); (VStr "config", VStr "configs/none.yaml")].

Definition bare_variant : value :=
  VDict [(VStr "name", VStr "bare")].

Definition inline_tuned_variant : value :=
  VDict [(VStr "name", VStr "inline");
         (VStr "config", base_config);
         (VStr "config_overrides",
          VDict [(VStr "agents.main.temperature", VInt 0)])].

(** A test definition without scenarios, and a disk that holds it. *)
Definition incomplete_definition : dict :=
  [(VStr "test_name", VStr "prompt_variations");
   (VStr "description", VStr "compare prompts");
   (VStr "variants", VList [inline_variant])].

Definition incomplete_disk : world :=
  mkWorld []
          [("tests/incomplete.json", OnDisk (Some (VDict incomplete_definition)) None)]
          [] 0 (mkBenchmark "tests/incomplete.json" VNone "results/generic" "../hector").

Definition loaded_disk : world :=
  mkWorld []
          [("tests/prompt_variations.json", OnDisk (Some sample_definition) None);
           ("configs/base.yaml", OnDisk None (Some base_config))]
          [] 0 (mkBenchmark "tests/prompt_variations.json" VNone "results/generic"
                            "../hector").

(** A machine on which the server binary is missing. *)
Definition server_missing : nat -> list string -> option string :=
  fun _ _ => Some "[Errno 2] No such file or directory: '/opt/hector/hector'".

(** A subject binary that cannot be started. *)
Definition missing_subject : nat -> list string -> child :=
  fun _ _ => CannotStart "[Errno 2] No such file or directory: '/opt/hector/hector'".

(** A benchmark object whose definition is loaded. *)
Definition ready_world : world :=
  mkWorld [] [("configs/base.yaml", OnDisk None (Some base_config))] [] 0
          (mkBenchmark "tests/prompt_variations.json" sample_definition
                       "results/generic" "/opt/hector/hector").

(** The two records of a run of [echo_scenario] against [sample_subject]
    with two iterations: the first call is answered, the second runs into
    the timeout. *)
Definition answered_record : value :=
  VDict [(VStr "scenario", VStr "echo-test");
         (VStr "variant", VStr "inline");
         (VStr "success", VBool true);
         (VStr "elapsed_time", VFloat (3 # 2));
         (VStr "tokens", VInt 42);
         (VStr "iterations", VInt 3);
         (VStr "output", VStr sample_output);
         (VStr "provider", VStr "openai");
         (VStr "iteration", VInt 1)].

Definition timed_out_record : value :=
  VDict [(VStr "scenario", VStr "echo-test");
         (VStr "variant", VStr "inline");
         (VStr "success", VBool false);
         (VStr "error", VStr "Timeout");
         (VStr "elapsed_time", VInt 60);
         (VStr "provider", VStr "openai");
         (VStr "iteration", VInt 2)].

(** A definition whose only variant refers to a configuration file that
    is not on the disk. *)
Definition stranded_definition : value :=
  VDict [(VStr "test_name", VStr "prompt_variations");
         (VStr "description", VStr "compare prompts");
         (VStr "variants", VList [lost_variant]);
         (VStr "scenarios", VList [echo_scenario])].

Definition stranded_disk : world :=
  mkWorld [] [("tests/stranded.json", OnDisk (Some stranded_definition) None)] [] 0
          (mkBenchmark "tests/stranded.json" VNone "results/generic" "../hector").

(** Three records of one configuration: a test that passed, a test that
    met half of its criteria and a test that met none; and the summary
    that [summarize_config] stores for them. *)
Definition three_records : list value :=
  [suite_record true 2 1; suite_record false 1 (1 # 2); suite_record false 0 0].

Definition three_records_summary : dict :=
  [(VStr "Baseline",
    VDict [(VStr "tests_total", VInt 3);
           (VStr "tests_passed", VInt 1);
           (VStr "tests_partial", VInt 1);
           (VStr "tests_failed", VInt 1);
           (VStr "avg_quality_score", VFloat (300 # 6));
           (VStr "pass_rate", VFloat (100 # 3))])].

(** The base configuration with the override of [tuned_variant]
    applied. *)
Definition tuned_config : value :=
  VDict [(VStr "agents",
          VDict [(VStr "main",
                  VDict [(VStr "model", VStr "gpt-4o");
                         (VStr "temperature", VInt 0)])])].

(** The aliased configuration after [agents.main.temperature] has been
    set to 0. *)
Definition overridden_store : InPlace.store :=
  [[(VStr "defaults", InPlace.Ref 1%nat); (VStr "agents", InPlace.Ref 2%nat)];
   [(VStr "temperature", InPlace.Atom (VInt 0))];
   [(VStr "main", InPlace.Ref 1%nat)]].

(** A configuration as [yaml.safe_load] builds it from a document with an
    alias: [defaults: &d {temperature: 1}] and [agents: {main: *d}].  The
    root dictionary is at location 0; the dictionary at location 1 is held
    both by [defaults] and by [agents.main]. *)
Definition aliased_store : InPlace.store :=
  [[(VStr "defaults", InPlace.Ref 1%nat); (VStr "agents", InPlace.Ref 2%nat)];
   [(VStr "temperature", InPlace.Atom (VInt 1))];
   [(VStr "main", InPlace.Ref 1%nat)]].

(* ===================================================================== *)
(** * Properties *)
(* ===================================================================== *)

(** Evaluation rules of the monad, used as rewriting steps. *)
Lemma bind_ok {A B} (a : A) (k : A -> M B) (w : world) :
  bind (lift (Ok a)) k w = k a w.
Proof. reflexivity. Qed.

Lemma bind_ret {A B} (a : A) (k : A -> M B) (w : world) :
  bind (ret a) k w = k a w.
Proof. reflexivity. Qed.

Lemma bind_run {A B} (m : M A) (k : A -> M B) (w w' : world) (a : A) :
  m w = (w', Ok a) -> bind m k w = k a w'.
Proof. intros H. unfold bind. rewrite H. reflexivity. Qed.
Arguments bind_run {A B m} k {w w' a} _.

(** A sequence that ends normally ran its first part normally. *)
Lemma bind_inv {A B} (m : M A) (k : A -> M B) (w w2 : world) (b : B) :
  bind m k w = (w2, Ok b) ->
  exists w1 a, m w = (w1, Ok a) /\ k a w1 = (w2, Ok b).
Proof.
  unfold bind. destruct (m w) as [w1 [a | e]]; intros H.
  - exists w1, a. split; [reflexivity | exact H].
  - discriminate H.
Qed.

Lemma add_stdout_twice (a b : list string) (w : world) :
  add_stdout b (add_stdout a w) = add_stdout (a ++ b) w.
Proof. unfold add_stdout. simpl. rewrite <- app_assoc. reflexivity. Qed.

(** Peel the steps of a sequence that ended normally. *)
Ltac bind_inv_in H :=
  repeat (let w := fresh "w" in
          let a := fresh "a" in
          let H1 := fresh "Hstep" in
          apply bind_inv in H as (w & a & H1 & H); cbv beta in H).

(** ** Arithmetic on integer objects *)

Lemma Qeq_bool_inject_Z (a b : Z) :
  Qeq_bool (inject_Z a) (inject_Z b) = (a =? b)%Z.
Proof.
  destruct (Z.eqb_spec a b) as [-> | Hne].
  - apply Qeq_bool_refl.
  - destruct (Qeq_bool (inject_Z a) (inject_Z b)) eqn:E; [| reflexivity].
    apply Qeq_bool_eq in E. rewrite inject_Z_injective in E. contradiction.
Qed.

Lemma Qlt_bool_inject_Z (a b : Z) :
  Qlt_bool (inject_Z a) (inject_Z b) = (a <? b)%Z.
Proof.
  unfold Qlt_bool, Qle_bool. simpl. rewrite !Z.mul_1_r.
  rewrite Z.ltb_antisym. reflexivity.
Qed.

Lemma py_eq_int (a b : Z) : py_eq (VInt a) (VInt b) = (a =? b)%Z.
Proof. unfold py_eq. simpl. apply Qeq_bool_inject_Z. Qed.

Lemma py_gt_int (a b : Z) : py_gt (VInt a) (VInt b) = Ok (b <? a)%Z.
Proof. unfold py_gt, py_lt. simpl as_num. cbv iota. rewrite Qlt_bool_inject_Z. reflexivity. Qed.

Lemma py_truediv_int (a b : Z) :
  b <> 0%Z -> py_truediv (VInt a) (VInt b) = Ok (VFloat (inject_Z a / inject_Z b)).
Proof.
  intros Hb. unfold py_truediv. simpl as_num. cbv iota.
  change 0%Q with (inject_Z 0). rewrite Qeq_bool_inject_Z.
  destruct (Z.eqb_spec b 0); [contradiction | reflexivity].
Qed.

(** All elements pass a test exactly when the passing ones are as many as
    the elements. *)
Lemma filter_length_all {A} (f : A -> bool) (l : list A) :
  (List.length (filter f l) =? List.length l)%nat = forallb f l.
Proof.
  induction l as [| x l IH]; [reflexivity |].
  simpl. destruct (f x); simpl.
  - exact IH.
  - pose proof (filter_length_le f l) as Hle.
    destruct (Nat.eqb_spec (List.length (filter f l)) (S (List.length l))); [lia | reflexivity].
Qed.

(** ** Dictionaries *)

Lemma dict_set_Forall (Q : value -> Prop) (d : dict) (k v : value) :
  Forall (fun kv => Q (snd kv)) d -> Q v ->
  Forall (fun kv => Q (snd kv)) (dict_set d k v).
Proof.
  intros Hd Hv. induction Hd as [| [k' v'] rest Hhd Htl IH]; simpl.
  - constructor; [exact Hv | constructor].
  - destruct (py_eq k' k); constructor; assumption.
Qed.

Lemma dict_get_Forall (Q : value -> Prop) (d : dict) (k v : value) :
  Forall (fun kv => Q (snd kv)) d -> dict_get d k = Some v -> Q v.
Proof.
  intros Hd. induction Hd as [| [k' v'] rest Hhd Htl IH]; simpl; intros Hget.
  - discriminate Hget.
  - destruct (py_eq k' k); [injection Hget as <-; exact Hhd | exact (IH Hget)].
Qed.

Lemma py_eq_refl (v : value) : hashable v = true -> py_eq v v = true.
Proof.
  destruct v; simpl; intros H; try discriminate H; unfold py_eq; simpl;
    try apply Qeq_bool_refl; try reflexivity.
  apply String.eqb_refl.
Qed.

(** A key that is present stays present when the dictionary is updated. *)
Lemma dict_set_keeps (d : dict) (k k' v x : value) :
  dict_get d k' = Some x -> exists y, dict_get (dict_set d k v) k' = Some y.
Proof.
  induction d as [| [k0 v0] rest IH]; simpl; intros H; [discriminate H |].
  destruct (py_eq k0 k) eqn:Ek; simpl.
  - destruct (py_eq k0 k'); [eauto | exact (ex_intro _ x H)].
  - destruct (py_eq k0 k'); [eauto | exact (IH H)].
Qed.

Lemma dict_set_present (d : dict) (k v : value) :
  py_eq k k = true -> exists y, dict_get (dict_set d k v) k = Some y.
Proof.
  intros Hk. induction d as [| [k0 v0] rest IH]; simpl.
  - rewrite Hk. eauto.
  - destruct (py_eq k0 k) eqn:Ek; simpl; rewrite Ek; [eauto | exact IH].
Qed.

Module BehavioralFacts.
Import BehavioralTester.
Section WithEngine.

Variable re_search : regex_engine.
Variable py_format : formatter.

Local Abbreviation check_criterion := (check_criterion re_search).
Local Abbreviation evaluate_criterion := (evaluate_criterion re_search).
Local Abbreviation evaluate_test := (evaluate_test re_search).
Local Abbreviation criterion_matches := (criterion_matches re_search).
Local Abbreviation passed_count := (passed_count re_search).

(** The verdict of [check_criterion] on a criterion that carries a pattern
    is the reference notion, whatever the pattern; it never raises. *)
Lemma check_criterion_verdict (output : string) (d : dict) (p : value) (w : world) :
  dict_get d (VStr "check_pattern") = Some p ->
  exists w', check_criterion output (VDict d) w
             = (w', Ok (criterion_matches output (VDict d))).
Proof.
  intros Hp. unfold check_criterion, BehavioralTester.criterion_matches, getitem.
  rewrite Hp, bind_ok. unfold try_except, try_catch, pattern_matches.
  destruct p; simpl; try (eexists; reflexivity).
  destruct (re_search s output [IGNORECASE; DOTALL]) as [msg | [g |]];
    simpl; eexists; reflexivity.
Qed.

Lemma dict_mem_get (d : dict) (k : value) :
  dict_mem d k = true -> exists v, dict_get d k = Some v.
Proof.
  unfold dict_mem. destruct (dict_get d k) as [v |]; [eauto | discriminate].
Qed.

Lemma evaluate_criterion_step (output : string) (c id name : value)
      (l : list value) (n total ol : Z) (w : world) :
  wf_criterion c = true ->
  exists w' x,
    evaluate_criterion output (partial_results id name l n total ol) c w
    = (w', Ok (partial_results id name (l ++ [x])
                 (if criterion_matches output c then n + 1 else n) total ol)).
Proof.
  intros Hwf. destruct c as [| | | | | | d]; try discriminate Hwf.
  simpl in Hwf. apply andb_prop in Hwf as [Hwf Hd]. apply andb_prop in Hwf as [Hp Hc].
  apply dict_mem_get in Hp as [p Hp], Hc as [cv Hc], Hd as [dv Hd].
  destruct (check_criterion_verdict output d p w Hp) as [w' Hck].
  unfold BehavioralTester.evaluate_criterion.
  rewrite (bind_run _ Hck).
  unfold getitem at 1. rewrite Hc, bind_ok.
  unfold getitem at 1. rewrite Hd, bind_ok.
  destruct (criterion_matches output (VDict d)); eexists; eexists; reflexivity.
Qed.

Lemma evaluate_loop (output : string) (id name : value) (total ol : Z)
      (crits : list value) :
  forallb wf_criterion crits = true ->
  forall (l : list value) (n : Z) (w : world),
  exists w' l',
    fold_m crits (evaluate_criterion output) (partial_results id name l n total ol) w
    = (w', Ok (partial_results id name l'
                 (n + Z.of_nat (passed_count output crits)) total ol)).
Proof.
  induction crits as [| c crits IH]; intros Hwf l n w.
  - exists w, l. simpl. unfold passed_count. simpl. rewrite Z.add_0_r. reflexivity.
  - simpl in Hwf. apply andb_prop in Hwf as [Hc Hrest].
    destruct (evaluate_criterion_step output c id name l n total ol w Hc) as (w1 & x & Hstep).
    destruct (IH Hrest (l ++ [x]) (if criterion_matches output c then (n + 1)%Z else n) w1)
      as (w2 & l2 & Hloop).
    exists w2, l2. simpl fold_m. rewrite (bind_run _ Hstep), Hloop.
    unfold passed_count. simpl filter.
    destruct (criterion_matches output c); simpl List.length; do 3 f_equal; lia.
Qed.

(** The state of the record after the loop, and the two final
    assignments of [evaluate_test]. *)
Lemma evaluate_test_run (test_def id name : value) (crits : list value)
      (output : string) (w : world) :
  getitem test_def "id" = Ok id ->
  getitem test_def "name" = Ok name ->
  getitem test_def "success_criteria" = Ok (VList crits) ->
  forallb wf_criterion crits = true ->
  let n := Z.of_nat (passed_count output crits) in
  let total := Z.of_nat (List.length crits) in
  exists w' l score,
    evaluate_test test_def output w
    = (w', Ok (VDict [(VStr "test_id", id);
                      (VStr "test_name", name);
                      (VStr "criteria_results", VList l);
                      (VStr "passed_criteria", VInt n);
                      (VStr "total_criteria", VInt total);
                      (VStr "passed", VBool (n =? total)%Z);
                      (VStr "output_length", VInt (Z.of_nat (String.length output)));
                      (VStr "score", score)])) /\
    (if (0 <? total)%Z then py_truediv (VInt n) (VInt total) else Ok (VInt 0))
    = Ok score.
Proof.
  intros Hid Hname Hsc Hwf n total.
  destruct (evaluate_loop output id name total (Z.of_nat (String.length output))
              crits Hwf [] 0%Z w) as (w' & l & Hloop).
  assert (Hscore : exists score,
             (if (0 <? total)%Z then py_truediv (VInt n) (VInt total) else Ok (VInt 0))
             = Ok score).
  { destruct (Z.ltb_spec 0 total) as [Hpos | Hle].
    - rewrite py_truediv_int by lia. eauto.
    - eauto. }
  destruct Hscore as [score Hscore].
  exists w', l, score. split; [| exact Hscore].
  unfold BehavioralTester.evaluate_test.
  rewrite Hid, bind_ok, Hname, bind_ok, Hsc, bind_ok.
  simpl py_len. rewrite bind_ok. rewrite bind_ok.
  simpl py_iter. rewrite bind_ok.
  fold total. rewrite (bind_run _ Hloop).
  rewrite Z.add_0_l. fold n.
  simpl getitem. rewrite !bind_ok.
  rewrite py_eq_int, py_gt_int. rewrite bind_ok.
  destruct (0 <? total)%Z.
  - unfold bind at 1. rewrite !bind_ok. unfold lift. rewrite Hscore. reflexivity.
  - injection Hscore as <-. reflexivity.
Qed.

(** C6.  Evaluating a test that declares at least one criterion returns
    a record whose [passed] flag is true exactly when the pattern of every
    criterion matches the captured output, and whose [score] is the number
    of passed criteria divided by the number of criteria. *)
Theorem evaluate_test_passed_and_score (test_def id name : value)
        (crits : list value) (output : string) (w : world) :
  getitem test_def "id" = Ok id ->
  getitem test_def "name" = Ok name ->
  getitem test_def "success_criteria" = Ok (VList crits) ->
  forallb wf_criterion crits = true ->
  crits <> [] ->
  exists w' r q,
    evaluate_test test_def output w = (w', Ok (VDict r)) /\
    dict_get r (VStr "passed")
    = Some (VBool (forallb (criterion_matches output) crits)) /\
    dict_get r (VStr "score") = Some (VFloat q) /\
    q == inject_Z (Z.of_nat (passed_count output crits))
         / inject_Z (Z.of_nat (List.length crits)).
Proof.
  intros Hid Hname Hsc Hwf Hne.
  destruct (evaluate_test_run test_def id name crits output w Hid Hname Hsc Hwf)
    as (w' & l & score & Hrun & Hscore).
  assert (Hpos : (0 < Z.of_nat (List.length crits))%Z).
  { destruct crits; [contradiction | simpl; lia]. }
  destruct (Z.ltb_spec 0 (Z.of_nat (List.length crits))) as [_ | Hle]; [| lia].
  rewrite py_truediv_int in Hscore by lia. injection Hscore as <-.
  eexists w', _, _. split; [exact Hrun |]. split; [| split].
  - simpl. do 2 f_equal. unfold passed_count.
    rewrite <- filter_length_all.
    destruct (Nat.eqb_spec (List.length (filter (criterion_matches output) crits))
                           (List.length crits)) as [E | E].
    + rewrite E. apply Z.eqb_refl.
    + apply Z.eqb_neq. lia.
  - reflexivity.
  - reflexivity.
Qed.

(** C1, as the code has it.  Evaluating a test whose criteria collection
    is empty returns a record with [score] the integer 0, [total_criteria]
    0 and [passed] true: zero passed criteria equal zero declared ones. *)
Theorem evaluate_test_zero_criteria (test_def id name sc : value)
        (output : string) (w : world) :
  getitem test_def "id" = Ok id ->
  getitem test_def "name" = Ok name ->
  getitem test_def "success_criteria" = Ok sc ->
  py_len sc = Ok 0%Z ->
  exists r,
    evaluate_test test_def output w = (w, Ok (VDict r)) /\
    dict_get r (VStr "total_criteria") = Some (VInt 0) /\
    dict_get r (VStr "score") = Some (VInt 0) /\
    dict_get r (VStr "passed") = Some (VBool true).
Proof.
  intros Hid Hname Hsc Hlen.
  assert (Hiter : py_iter sc = Ok []).
  { destruct sc as [| | | | s | l | d]; try discriminate Hlen; simpl in Hlen.
    - destruct s; [reflexivity | discriminate Hlen].
    - destruct l; [reflexivity | discriminate Hlen].
    - destruct d; [reflexivity | discriminate Hlen]. }
  unfold BehavioralTester.evaluate_test.
  rewrite Hid, bind_ok, Hname, bind_ok, Hsc, bind_ok, Hlen, bind_ok, bind_ok,
    Hiter, bind_ok.
  eexists. split; [reflexivity |]. repeat split; reflexivity.
Qed.

(** C7.  When the search raises on the pattern of a criterion (the
    pattern does not compile, or is not a string), [check_criterion]
    prints one warning line carrying the error text and returns [False];
    nothing is raised to the caller. *)
Theorem check_criterion_malformed_pattern (output : string) (d : dict)
        (p : value) (e : exn) (w : world) :
  dict_get d (VStr "check_pattern") = Some p ->
  py_re_search re_search p output [IGNORECASE; DOTALL] = Raise e ->
  check_criterion output (VDict d) w
  = (add_stdout [("  Warning: Pattern error: " ++ exn_str e)%string] w, Ok false).
Proof.
  intros Hp Hraise.
  assert (He : is_Exception e = true).
  { destruct p; simpl in Hraise; try (injection Hraise as <-; reflexivity).
    destruct (re_search s output [IGNORECASE; DOTALL]);
      [injection Hraise as <-; reflexivity | discriminate Hraise]. }
  unfold BehavioralTester.check_criterion, getitem.
  rewrite Hp, bind_ok. unfold try_except, try_catch, bind at 1, lift.
  rewrite Hraise, He. reflexivity.
Qed.

(** ** The improvement table *)

Lemma summarize_config_entries (cs cs' : dict) (item : value * value) (w w' : world) :
  Forall (fun kv => lacks_avg_score (snd kv)) cs ->
  summarize_config py_format cs item w = (w', Ok cs') ->
  Forall (fun kv => lacks_avg_score (snd kv)) cs'.
Proof.
  intros Hcs Hrun. destruct item as [config_name results].
  unfold summarize_config in Hrun. bind_inv_in Hrun.
  injection Hrun as _ <-.
  apply dict_set_Forall; [exact Hcs | reflexivity].
Qed.

Lemma summary_loop_entries (its : list (value * value)) :
  forall (cs cs' : dict) (w w' : world),
  Forall (fun kv => lacks_avg_score (snd kv)) cs ->
  fold_m its (summarize_config py_format) cs w = (w', Ok cs') ->
  Forall (fun kv => lacks_avg_score (snd kv)) cs'.
Proof.
  induction its as [| it its IH]; intros cs cs' w w' Hcs Hrun; simpl in Hrun.
  - injection Hrun as _ <-. exact Hcs.
  - apply bind_inv in Hrun as (w1 & cs1 & Hstep & Hrun).
    eapply IH; [| exact Hrun].
    eapply summarize_config_entries; eassumption.
Qed.

Lemma summary_block_entries (all_results : value) (by_config cs : dict)
      (w w' : world) :
  summary_block py_format all_results w = (w', Ok (by_config, cs)) ->
  Forall (fun kv => lacks_avg_score (snd kv)) cs.
Proof.
  intros Hrun. unfold summary_block in Hrun. bind_inv_in Hrun.
  injection Hrun as _ _ <-.
  eapply summary_loop_entries; [constructor | eassumption].
Qed.

(** Whatever the run, the improvement analysis reads [avg_score] from the
    baseline summary, finds no such key, takes the default 0 and skips the
    table: it prints its title, a rule and an empty line. *)
Lemma improvement_block_prints_no_row (all_results : value) (by_config cs : dict)
      (w w1 w2 : world) :
  summary_block py_format all_results w = (w1, Ok (by_config, cs)) ->
  exists baseline_summary,
    improvement_block py_format cs w2
    = (add_stdout ["📈 IMPROVEMENT ANALYSIS (vs Baseline)"; repeat_str "-" 80; ""] w2,
       Ok (baseline_summary, VInt 0)).
Proof.
  intros Hrun. apply summary_block_entries in Hrun.
  unfold improvement_block, get at 1.
  destruct (dict_get cs (VStr "Baseline")) as [b |] eqn:Hb.
  - exists b. pose proof (dict_get_Forall _ cs _ b Hrun Hb) as Hlack.
    unfold lacks_avg_score in Hlack.
    unfold bind at 1 2 3, print at 1 2, lift at 1.
    unfold bind at 1, lift at 1. rewrite Hlack.
    unfold bind, lift, print, ret. cbn. rewrite !add_stdout_twice. reflexivity.
  - exists (VDict []).
    unfold bind, lift, print, ret. cbn. rewrite !add_stdout_twice. reflexivity.
Qed.

End WithEngine.

(** *** Concrete runs *)

Lemma evaluate_test_passed_and_score_witness :
  exists w' r q,
    evaluate_test literal_engine two_criteria_test "Hello world" empty_world
    = (w', Ok (VDict r)) /\
    dict_get r (VStr "passed") = Some (VBool false) /\
    dict_get r (VStr "score") = Some (VFloat q) /\
    q == inject_Z 1 / inject_Z 2.
Proof.
  apply (evaluate_test_passed_and_score literal_engine
           two_criteria_test (VStr "t1") (VStr "greeting")
           [hello_criterion; broken_criterion] "Hello world" empty_world);
    [reflexivity | reflexivity | reflexivity | reflexivity | discriminate].
Defined.

Lemma evaluate_test_zero_criteria_witness :
  exists r,
    evaluate_test literal_engine zero_criteria_test "Hello world" empty_world
    = (empty_world, Ok (VDict r)) /\
    dict_get r (VStr "total_criteria") = Some (VInt 0) /\
    dict_get r (VStr "score") = Some (VInt 0) /\
    dict_get r (VStr "passed") = Some (VBool true).
Proof.
  apply (evaluate_test_zero_criteria literal_engine zero_criteria_test
           (VStr "t0") (VStr "nothing declared") (VList []) "Hello world"
           empty_world); reflexivity.
Defined.

(** C1 as stated fails: with no criteria declared the record has score 0
    but [passed] is [True], not [False]. *)
Lemma zero_criteria_passed_is_true :
  evaluate_test literal_engine zero_criteria_test "Hello world" empty_world
  = (empty_world,
     Ok (VDict [(VStr "test_id", VStr "t0");
                (VStr "test_name", VStr "nothing declared");
                (VStr "criteria_results", VList []);
                (VStr "passed_criteria", VInt 0);
                (VStr "total_criteria", VInt 0);
                (VStr "passed", VBool true);
                (VStr "output_length", VInt 11);
                (VStr "score", VInt 0)]))
  /\ ~ (forall (re : regex_engine) (test_def : value) (output : string)
              (w w' : world) (r : dict),
          getitem test_def "success_criteria" = Ok (VList []) ->
          evaluate_test re test_def output w = (w', Ok (VDict r)) ->
          dict_get r (VStr "score") = Some (VInt 0) /\
          dict_get r (VStr "passed") = Some (VBool false)).
Proof.
  split; [reflexivity |].
  intros H.
  destruct (H literal_engine zero_criteria_test "Hello world" empty_world _ _
              eq_refl eq_refl) as [_ Hpassed].
  discriminate Hpassed.
Qed.

Lemma check_criterion_malformed_pattern_witness :
  check_criterion literal_engine "Hello world" broken_criterion empty_world
  = (add_stdout ["  Warning: Pattern error: missing ), unterminated subpattern at position 0"]
                empty_world,
     Ok false).
Proof.
  apply (check_criterion_malformed_pattern literal_engine "Hello world"
           [(VStr "criterion", VStr "broken");
            (VStr "description", VStr "pattern with an unclosed group");
            (VStr "check_pattern", VStr "(")]
           (VStr "(")
           (Exc ReError "missing ), unterminated subpattern at position 0")
           empty_world); reflexivity.
Defined.

(** C4.  In a run that contains the configuration [Baseline] (average
    score 1.0, stored as 100 under [avg_quality_score]) and another
    configuration (average score 0.5), the improvement analysis looks up
    [avg_score], a key no summary has: the baseline score it works with is
    the default 0 and no improvement row is printed for the other
    configuration.  The recommendations that follow raise [KeyError] on
    the same key, and the report ends there, before the summary file is
    written. *)
Theorem improvement_skipped_with_baseline
        (py_format : formatter) (isoformat_now tester_results_dir : string) :
  exists w1 by_config cs w2 by_feature w3 baseline_summary w4,
    summary_block py_format baseline_run tester_world = (w1, Ok (by_config, cs)) /\
    getitem (VDict cs) "Baseline" = Ok baseline_summary /\
    getitem baseline_summary "avg_quality_score" = Ok (VFloat 100) /\
    (r <~ getitem (VDict cs) "Reflection Only" ;; getitem r "avg_quality_score")
    = Ok (VFloat (100 # 2)) /\
    feature_block py_format by_config w1 = (w2, Ok by_feature) /\
    improvement_block py_format cs w2 = (w3, Ok (baseline_summary, VInt 0)) /\
    stdout w3 = stdout w2 ++ ["📈 IMPROVEMENT ANALYSIS (vs Baseline)";
                              repeat_str "-" 80; ""] /\
    generate_comparison_report py_format isoformat_now tester_results_dir
                               baseline_run tester_world
    = (w4, Raise (Exc KeyError "'avg_score'")) /\
    stdout w4 = stdout w3 ++ ["💡 BEHAVIORAL RECOMMENDATIONS"; repeat_str "-" 80] /\
    events w4 = [].
Proof.
  do 8 eexists. repeat split; lazy; reflexivity.
Qed.

(** Without a baseline configuration the improvement table is left out as
    well: the analysis prints its title, a rule and an empty line, and the
    report runs to its end. *)
Lemma improvement_omitted_without_baseline
      (py_format : formatter) (isoformat_now tester_results_dir : string) :
  exists w1 by_config cs w2 by_feature w3 w4 summary,
    summary_block py_format no_baseline_run tester_world = (w1, Ok (by_config, cs)) /\
    feature_block py_format by_config w1 = (w2, Ok by_feature) /\
    improvement_block py_format cs w2 = (w3, Ok (VDict [], VInt 0)) /\
    stdout w3 = stdout w2 ++ ["📈 IMPROVEMENT ANALYSIS (vs Baseline)";
                              repeat_str "-" 80; ""] /\
    generate_comparison_report py_format isoformat_now tester_results_dir
                               no_baseline_run tester_world
    = (w4, Ok tt) /\
    events w4 = [EvWrite (path_div tester_results_dir "summary.json")
                         (JsonDump (VDict summary))] /\
    dict_get summary (VStr "baseline_score") = Some (VInt 0).
Proof.
  do 8 eexists. repeat split; lazy; reflexivity.
Qed.

End BehavioralFacts.

(* ===================================================================== *)
(** ** generic_benchmark.py *)
(* ===================================================================== *)

Module GenericFacts.
Import GenericBenchmark.

(** *** Splitting an override path *)

Lemma split_on_not_nil (sep : ascii) (s : string) : split_on sep s <> [].
Proof.
  induction s as [| c s IH]; simpl.
  - discriminate.
  - destruct (Ascii.eqb c sep); [discriminate |].
    destruct (split_on sep s); [contradiction | discriminate].
Qed.

Lemma split_on_segment (s : string) :
  dot_free s = true -> split_on "." s = [s].
Proof.
  induction s as [| c s IH]; simpl; intros H; [reflexivity |].
  apply andb_prop in H as [Hc Hs].
  apply negb_true_iff in Hc. rewrite Hc, (IH Hs). reflexivity.
Qed.

Lemma split_on_dotted (a rest : string) :
  dot_free a = true ->
  split_on "." (a ++ String "." rest) = a :: split_on "." rest.
Proof.
  induction a as [| c a IH]; simpl; intros H; [reflexivity |].
  apply andb_prop in H as [Hc Ha].
  apply negb_true_iff in Hc. rewrite Hc, (IH Ha). reflexivity.
Qed.

(** On an empty mapping every key of the path is missing: each level is
    created, and the result is the chain of one-entry mappings. *)
Lemma set_nested_on_empty (v : value) (keys : list string) :
  keys <> [] -> set_nested (VDict []) keys v = Ok (nested keys v).
Proof.
  induction keys as [| k rest IH]; intros Hne; [contradiction |].
  destruct rest as [| k' rest].
  - reflexivity.
  - change (set_nested (VDict []) (k :: k' :: rest) v)
      with (child' <~ set_nested (VDict []) (k' :: rest) v ;;
            Ok (VDict (dict_set [] (VStr k) child'))).
    rewrite IH by discriminate. reflexivity.
Qed.

Lemma set_nested_key_on_empty (path : string) (v : value) :
  _set_nested_key (VDict []) (VStr path) v = Ok (nested (split_on "." path) v).
Proof.
  unfold _set_nested_key. apply set_nested_on_empty, split_on_not_nil.
Qed.

(** C2.  Applying the override path [a.b.c] with value [v] to the empty
    mapping yields the mapping whose only top-level key is [a], holding
    the mapping with only key [b], holding the mapping with only key [c],
    holding [v]; the two missing levels are created and nothing is
    raised. *)
Theorem set_nested_key_three_segments (a b c : string) (v : value) :
  dot_free a = true -> dot_free b = true -> dot_free c = true ->
  _set_nested_key (VDict []) (VStr (a ++ "." ++ b ++ "." ++ c)) v
  = Ok (VDict [(VStr a, VDict [(VStr b, VDict [(VStr c, v)])])]).
Proof.
  intros Ha Hb Hc. rewrite set_nested_key_on_empty.
  change (a ++ "." ++ b ++ "." ++ c)%string
    with (a ++ String "." (b ++ String "." c))%string.
  rewrite (split_on_dotted a _ Ha), (split_on_dotted b _ Hb), (split_on_segment c Hc).
  reflexivity.
Qed.

Lemma set_nested_key_three_segments_witness :
  _set_nested_key (VDict []) (VStr "agents.main.model") (VStr "gpt-4o")
  = Ok (VDict [(VStr "agents",
                VDict [(VStr "main", VDict [(VStr "model", VStr "gpt-4o")])])]).
Proof.
  apply (set_nested_key_three_segments "agents" "main" "model" (VStr "gpt-4o"));
    reflexivity.
Defined.

Section WithWorld.

Variable py_format : formatter.
Variable yaml_reload : value -> value.

Local Abbreviation prepare_variant_config :=
  (prepare_variant_config py_format yaml_reload).

Lemma lift_inv {A} (r : result A) (w w' : world) (a : A) :
  lift r w = (w', Ok a) -> w' = w /\ r = Ok a.
Proof. unfold lift. intros H. injection H as <- ->. split; reflexivity. Qed.


End WithWorld.


(** The three ways of materialising, on the sample variants. *)
Example prepare_tuned_variant :
  prepare_variant_config plain_format (fun v => v) tuned_variant (VStr "openai") bench_world
  = (written "results/generic/tuned_openai_temp.yaml"
       (YamlDump
          (VDict [(VStr "agents",
                   VDict [(VStr "main",
                           VDict [(VStr "model", VStr "gpt-4o");
                                  (VStr "temperature", VInt 0)])])]))
       bench_world,
     Ok (Some "results/generic/tuned_openai_temp.yaml")).
Proof. reflexivity. Qed.

Example prepare_inline_variant :
  prepare_variant_config plain_format (fun v => v) inline_variant (VStr "openai") bench_world
  = (written "results/generic/inline_openai_temp.yaml" (YamlDump base_config) bench_world,
     Ok (Some "results/generic/inline_openai_temp.yaml")).
Proof. reflexivity. Qed.


(** *** Scenario execution *)

Lemma subprocess_run_timeout (c : child) (t : Z) :
  exceeds_timeout c t ->
  exists msg, subprocess_run c t = Raise (Exc TimeoutExpired msg).
Proof.
  destruct c as [out rc d | | msg]; simpl; intros H.
  - destruct (Qle_bool d (inject_Z t)) eqn:E.
    + apply Qle_bool_iff in E. exfalso. exact (Qlt_not_le _ _ H E).
    + eauto.
  - eauto.
  - contradiction.
Qed.

Section Scenario.

Variable re_search : regex_engine.
Variable py_format : formatter.
Variable spawn_server : nat -> list string -> option string.
Variable call_subject : nat -> list string -> child.

Local Abbreviation run_scenario :=
  (run_scenario re_search py_format spawn_server call_subject).

(** The [try] block of [run_scenario] ends in [TimeoutExpired] as soon as
    the call is issued: nothing of the child's output is read. *)
Lemma call_and_measure_timeout (me : benchmark) (variant scenario sname : value)
      (prompt agent : string) (w0 : world) :
  exceeds_timeout
    (call_subject (calls w0) [hector_bin me; "call"; agent; prompt]) 60 ->
  exists msg,
    call_and_measure re_search call_subject me variant scenario sname
                     (VStr prompt) (VStr agent) w0
    = (mkWorld (stdout w0) (files w0)
               (events w0 ++ [EvRun [hector_bin me; "call"; agent; prompt] 60])
               (S (calls w0)) (self w0),
       Raise (Exc TimeoutExpired msg)).
Proof.
  intros Hlate. destruct (subprocess_run_timeout _ _ Hlate) as [msg Hrun].
  exists msg. unfold call_and_measure. simpl as_str. rewrite !bind_ok.
  unfold bind at 1, tick. unfold bind at 1, emit. cbn [calls self events stdout files].
  unfold bind at 1, lift at 1. rewrite Hrun. reflexivity.
Qed.

(** C5.  When the server starts and the [hector call] child is still
    running after the 60 seconds given to [subprocess.run], [run_scenario]
    returns a record with [success] false, [error] ['Timeout'] and
    [elapsed_time] 60, the bound passed to the call; the record has no
    [output], [tokens] or [iterations]; the server is terminated. *)
Theorem run_scenario_timeout (variant scenario sname vname : value)
        (prompt agent config_path : string) (w : world) :
  getitem scenario "name" = Ok sname ->
  getitem scenario "prompt" = Ok (VStr prompt) ->
  getitem variant "name" = Ok vname ->
  spawn_server (calls w) [hector_bin (self w); "serve"; "--config"; config_path] = None ->
  exceeds_timeout
    (call_subject (S (calls w)) [hector_bin (self w); "call"; agent; prompt]) 60 ->
  exists w' record log,
    run_scenario variant scenario config_path (VStr agent) w = (w', Ok record) /\
    getitem record "scenario" = Ok sname /\
    getitem record "variant" = Ok vname /\
    getitem record "success" = Ok (VBool false) /\
    getitem record "error" = Ok (VStr "Timeout") /\
    getitem record "elapsed_time" = Ok (VInt 60) /\
    contains_key record "output" = Ok false /\
    contains_key record "tokens" = Ok false /\
    contains_key record "iterations" = Ok false /\
    events w'
    = events w
      ++ [EvWrite log LogFile;
          EvPopen [hector_bin (self w); "serve"; "--config"; config_path] log;
          EvSleep 3;
          EvRun [hector_bin (self w); "call"; agent; prompt] 60;
          EvTerminate; EvWait].
Proof.
  intros Hsname Hprompt Hvname Hspawn Hlate.
  unfold GenericBenchmark.run_scenario.
  unfold bind at 1, get_self.
  rewrite Hsname, bind_ok, Hprompt, bind_ok.
  unfold bind at 1, print. rewrite Hvname, bind_ok.
  unfold bind at 1, write_file.
  unfold bind at 1, tick. cbn [calls self add_stdout written].
  rewrite Hspawn.
  unfold bind at 1 2, emit at 1 2. cbn [calls self events stdout files].
  unfold try_finally, try_catch.
  match goal with
  | |- context [GenericBenchmark.call_and_measure _ _ ?me _ _ _ _ _ ?w0] =>
    destruct (call_and_measure_timeout me variant scenario sname prompt agent w0 Hlate)
      as [msg Hcm]
  end.
  rewrite Hcm. cbn [is_TimeoutExpired].
  rewrite bind_ok.
  unfold ret, bind, emit. cbn [calls self events stdout files].
  do 3 eexists. split; [reflexivity |].
  repeat split; try reflexivity.
  unfold written, add_stdout. cbn [calls self events stdout files].
  rewrite <- !app_assoc. reflexivity.
Qed.

End Scenario.

Lemma run_scenario_timeout_witness :
  exists w' record log,
    run_scenario sample_engine plain_format server_starts hanging_subject
      inline_variant echo_scenario "results/generic/inline_openai_temp.yaml"
      (VStr "main") bench_world
    = (w', Ok record) /\
    getitem record "scenario" = Ok (VStr "echo-test") /\
    getitem record "variant" = Ok (VStr "inline") /\
    getitem record "success" = Ok (VBool false) /\
    getitem record "error" = Ok (VStr "Timeout") /\
    getitem record "elapsed_time" = Ok (VInt 60) /\
    contains_key record "output" = Ok false /\
    contains_key record "tokens" = Ok false /\
    contains_key record "iterations" = Ok false /\
    events w'
    = events bench_world
      ++ [EvWrite log LogFile;
          EvPopen [hector_bin (self bench_world); "serve"; "--config";
                   "results/generic/inline_openai_temp.yaml"] log;
          EvSleep 3;
          EvRun [hector_bin (self bench_world); "call"; "main"; "say hello"] 60;
          EvTerminate; EvWait].
Proof.
  apply (run_scenario_timeout sample_engine plain_format server_starts hanging_subject
           inline_variant echo_scenario (VStr "echo-test") (VStr "inline")
           "say hello" "main" "results/generic/inline_openai_temp.yaml" bench_world);
    reflexivity.
Defined.

(** *** Selecting the best variant *)

Lemma py_lt_num (a b : value) (x y : Q) :
  as_num a = Some x -> as_num b = Some y -> py_lt a b = Ok (Qlt_bool x y).
Proof. intros Ha Hb. unfold py_lt. rewrite Ha, Hb. reflexivity. Qed.

Lemma Qlt_bool_false (x y : Q) : Qlt_bool x y = false <-> y <= x.
Proof.
  unfold Qlt_bool. rewrite negb_false_iff. apply Qle_bool_iff.
Qed.

Lemma Qlt_bool_true (x y : Q) : Qlt_bool x y = true <-> x < y.
Proof.
  unfold Qlt_bool. rewrite negb_true_iff. split; intros H.
  - apply Qnot_le_lt. intros Hle. apply Qle_bool_iff in Hle. congruence.
  - destruct (Qle_bool y x) eqn:E; [| reflexivity].
    apply Qle_bool_iff in E. exfalso. exact (Qlt_not_le _ _ H E).
Qed.

Section Extremum.

Variable key : value -> result value.

(** [beats] compares two keys through a strict order [better] on their
    numbers. *)
Variable beats : value -> value -> result bool.
Variable better : Q -> Q -> bool.
Hypothesis beats_num :
  forall a b x y, as_num a = Some x -> as_num b = Some y -> beats a b = Ok (better x y).
Hypothesis better_irrefl : forall x, better x x = false.
Hypothesis better_asym : forall x y, better y x = true -> better x y = false.
Hypothesis unbeaten_trans :
  forall x y z, better x y = false -> better y z = false -> better x z = false.

(** The scan keeps an item that no item seen so far beats. *)
Lemma extremum_unbeaten (rest : list value) :
  forall (best kbest : value) (qbest : Q),
  key best = Ok kbest -> as_num kbest = Some qbest ->
  (forall v, In v rest -> has_number key v) ->
  exists b kb qb,
    extremum beats key best kbest rest = Ok b /\
    In b (best :: rest) /\
    key b = Ok kb /\ as_num kb = Some qb /\
    better qbest qb = false /\
    (forall v x q, In v rest -> key v = Ok x -> as_num x = Some q ->
                   better q qb = false).
Proof.
  induction rest as [| v rest IH]; intros best kbest qbest Hk Hq Hnum.
  - exists best, kbest, qbest. simpl.
    split; [reflexivity |]. split; [left; reflexivity |].
    split; [exact Hk |]. split; [exact Hq |]. split; [apply better_irrefl |].
    intros v x q [].
  - destruct (Hnum v (or_introl eq_refl)) as (kv & qv & Hkv & Hqv).
    assert (Hrest : forall u, In u rest -> has_number key u).
    { intros u Hu. apply Hnum. right. exact Hu. }
    simpl extremum. rewrite Hkv. cbn [rbind].
    rewrite (beats_num _ _ _ _ Hqv Hq). cbn [rbind].
    destruct (better qv qbest) eqn:Hb.
    + destruct (IH v kv qv Hkv Hqv Hrest)
        as (b & kb & qb & Hrun & Hin & Hkb & Hqb & Hbest & Hall).
      exists b, kb, qb.
      split; [exact Hrun |]. split.
      { destruct Hin as [<- | Hin]; [right; left; reflexivity | right; right; exact Hin]. }
      split; [exact Hkb |]. split; [exact Hqb |]. split.
      { eapply unbeaten_trans; [| exact Hbest]. apply better_asym. exact Hb. }
      intros u x q [<- | Hu] Hx Hqx.
      * rewrite Hkv in Hx. injection Hx as <-. rewrite Hqv in Hqx.
        injection Hqx as <-. exact Hbest.
      * eapply Hall; eassumption.
    + destruct (IH best kbest qbest Hk Hq Hrest)
        as (b & kb & qb & Hrun & Hin & Hkb & Hqb & Hbest & Hall).
      exists b, kb, qb.
      split; [exact Hrun |]. split.
      { destruct Hin as [<- | Hin]; [left; reflexivity | right; right; exact Hin]. }
      split; [exact Hkb |]. split; [exact Hqb |]. split; [exact Hbest |].
      intros u x q [<- | Hu] Hx Hqx.
      * rewrite Hkv in Hx. injection Hx as <-. rewrite Hqv in Hqx.
        injection Hqx as <-. eapply unbeaten_trans; [exact Hb | exact Hbest].
      * eapply Hall; eassumption.
Qed.

End Extremum.

Lemma py_max_unbeaten (key : value -> result value) (l : list value) :
  l <> [] ->
  (forall v, In v l -> has_number key v) ->
  exists b kb qb,
    py_max key l = Ok b /\ In b l /\ key b = Ok kb /\ as_num kb = Some qb /\
    (forall v x q, In v l -> key v = Ok x -> as_num x = Some q -> q <= qb).
Proof.
  intros Hne Hnum. destruct l as [| v0 rest]; [contradiction |].
  destruct (Hnum v0 (or_introl eq_refl)) as (k0 & q0 & Hk0 & Hq0).
  destruct (extremum_unbeaten key py_gt (fun x y => Qlt_bool y x)) with
      (rest := rest) (best := v0) (kbest := k0) (qbest := q0)
    as (b & kb & qb & Hrun & Hin & Hkb & Hqb & Hbest & Hall).
  - intros a b x y Ha Hb. unfold py_gt. apply py_lt_num; assumption.
  - intros x. apply Qlt_bool_false. apply Qle_refl.
  - intros x y H. apply Qlt_bool_true in H. apply Qlt_bool_false.
    apply Qlt_le_weak. exact H.
  - intros x y z H1 H2. apply Qlt_bool_false in H1, H2. apply Qlt_bool_false.
    eapply Qle_trans; eassumption.
  - exact Hk0.
  - exact Hq0.
  - intros u Hu. apply Hnum. right. exact Hu.
  - exists b, kb, qb. unfold py_max. rewrite Hk0. cbn [rbind].
    split; [exact Hrun |]. split; [exact Hin |]. split; [exact Hkb |].
    split; [exact Hqb |].
    intros u x q [<- | Hu] Hx Hq.
    + rewrite Hk0 in Hx. injection Hx as <-. rewrite Hq0 in Hq. injection Hq as <-.
      apply Qlt_bool_false. exact Hbest.
    + apply Qlt_bool_false. eapply Hall; eassumption.
Qed.

Lemma py_min_unbeaten (key : value -> result value) (l : list value) :
  l <> [] ->
  (forall v, In v l -> has_number key v) ->
  exists b kb qb,
    py_min key l = Ok b /\ In b l /\ key b = Ok kb /\ as_num kb = Some qb /\
    (forall v x q, In v l -> key v = Ok x -> as_num x = Some q -> qb <= q).
Proof.
  intros Hne Hnum. destruct l as [| v0 rest]; [contradiction |].
  destruct (Hnum v0 (or_introl eq_refl)) as (k0 & q0 & Hk0 & Hq0).
  destruct (extremum_unbeaten key py_lt (fun x y => Qlt_bool x y)) with
      (rest := rest) (best := v0) (kbest := k0) (qbest := q0)
    as (b & kb & qb & Hrun & Hin & Hkb & Hqb & Hbest & Hall).
  - intros a b x y Ha Hb. apply py_lt_num; assumption.
  - intros x. apply Qlt_bool_false. apply Qle_refl.
  - intros x y H. apply Qlt_bool_true in H. apply Qlt_bool_false.
    apply Qlt_le_weak. exact H.
  - intros x y z H1 H2. apply Qlt_bool_false in H1, H2. apply Qlt_bool_false.
    eapply Qle_trans; eassumption.
  - exact Hk0.
  - exact Hq0.
  - intros u Hu. apply Hnum. right. exact Hu.
  - exists b, kb, qb. unfold py_min. rewrite Hk0. cbn [rbind].
    split; [exact Hrun |]. split; [exact Hin |]. split; [exact Hkb |].
    split; [exact Hqb |].
    intros u x q [<- | Hu] Hx Hq.
    + rewrite Hk0 in Hx. injection Hx as <-. rewrite Hq0 in Hq. injection Hq as <-.
      apply Qlt_bool_false. exact Hbest.
    + apply Qlt_bool_false. eapply Hall; eassumption.
Qed.

(** The selection on a summary whose entries are numbers. *)
Lemma best_by_max (summary : dict) (field : string) (variants : list value) :
  variants <> [] -> numeric_entries summary field variants ->
  exists b,
    py_max (summary_key summary field) variants = Ok b /\ In b variants /\
    forall v, In v variants -> field_value summary field v <= field_value summary field b.
Proof.
  intros Hne Hnum.
  destruct (py_max_unbeaten (summary_key summary field) variants Hne Hnum)
    as (b & kb & qb & Hrun & Hin & Hkb & Hqb & Hall).
  exists b. split; [exact Hrun |]. split; [exact Hin |].
  intros v Hv. destruct (Hnum v Hv) as (x & q & Hx & Hq).
  unfold field_value. rewrite Hx, Hq, Hkb, Hqb. eapply Hall; eassumption.
Qed.

Lemma best_by_min (summary : dict) (field : string) (variants : list value) :
  variants <> [] -> numeric_entries summary field variants ->
  exists b,
    py_min (summary_key summary field) variants = Ok b /\ In b variants /\
    forall v, In v variants -> field_value summary field b <= field_value summary field v.
Proof.
  intros Hne Hnum.
  destruct (py_min_unbeaten (summary_key summary field) variants Hne Hnum)
    as (b & kb & qb & Hrun & Hin & Hkb & Hqb & Hall).
  exists b. split; [exact Hrun |]. split; [exact Hin |].
  intros v Hv. destruct (Hnum v Hv) as (x & q & Hx & Hq).
  unfold field_value. rewrite Hx, Hq, Hkb, Hqb. eapply Hall; eassumption.
Qed.

(** *** The summary of a run *)

Lemma py_truediv_float (a b x : value) :
  py_truediv a b = Ok x -> exists q, x = VFloat q.
Proof.
  unfold py_truediv. destruct (as_num a), (as_num b); try discriminate.
  destruct (Qeq_bool q0 0); [discriminate |]. intros H. injection H as <-. eauto.
Qed.

Lemma average_number (field : string) (rs : list value) (x : value) :
  average field rs = Ok x -> exists q, as_num x = Some q.
Proof.
  destruct rs as [| r rs]; unfold average.
  - intros H. injection H as <-. simpl. eauto.
  - unfold rbind at 1.
    destruct (sum_m _ (r :: rs) (VInt 0)) as [t | e]; [| discriminate].
    intros H. apply py_truediv_float in H as [q ->]. simpl. eauto.
Qed.

Lemma variant_summary_entry (results : list value) (v e : value) :
  variant_summary results v = Ok e -> summary_entry e.
Proof.
  unfold variant_summary. unfold rbind at 1.
  destruct (results_of v results) as [rs | ex]; [| discriminate].
  unfold rbind at 1. destruct (count_m _ rs) as [n | ex]; [| discriminate].
  unfold rbind at 1.
  destruct (match rs with
            | [] => Ok (VInt 0)
            | _ :: _ => py_truediv (VInt n) (VInt (Z.of_nat (List.length rs)))
            end) as [sr | ex] eqn:Hsr; [| discriminate].
  unfold rbind at 1. destruct (average "tokens" rs) as [tk | ex] eqn:Htk; [| discriminate].
  unfold rbind at 1. destruct (average "elapsed_time" rs) as [tm | ex] eqn:Htm; [| discriminate].
  intros H. injection H as <-.
  assert (Hq : exists q, as_num sr = Some q).
  { destruct rs.
    - injection Hsr as <-. simpl. eauto.
    - apply py_truediv_float in Hsr as [q ->]. simpl. eauto. }
  destruct Hq as [qsr Hqsr].
  apply average_number in Htk as [qtk Hqtk], Htm as [qtm Hqtm].
  unfold summary_entry. exists sr, tk, tm, qsr, qtk, qtm, (Z.of_nat (List.length rs)).
  repeat split; assumption.
Qed.

Lemma variant_names_hashable (results : list value) :
  forall names, variant_names results = Ok names ->
                Forall (fun v => hashable v = true) names.
Proof.
  induction results as [| r results IH]; simpl; intros names H.
  - injection H as <-. constructor.
  - unfold rbind at 1 in H. destruct (getitem r "variant") as [v | e]; [| discriminate H].
    destruct (hashable v) eqn:Hh; [| discriminate H].
    unfold rbind in H. destruct (variant_names results) as [vs | e]; [| discriminate H].
    injection H as <-. constructor; [exact Hh | apply IH; reflexivity].
Qed.

Lemma variant_names_length (results : list value) :
  forall names, variant_names results = Ok names ->
                List.length names = List.length results.
Proof.
  induction results as [| r results IH]; simpl; intros names H.
  - injection H as <-. reflexivity.
  - unfold rbind at 1 in H. destruct (getitem r "variant") as [v | e]; [| discriminate H].
    destruct (hashable v); [| discriminate H].
    unfold rbind in H. destruct (variant_names results) as [vs | e]; [| discriminate H].
    injection H as <-. simpl. f_equal. apply IH. reflexivity.
Qed.

Lemma dedup_subset (l : list value) (v : value) : In v (dedup l) -> In v l.
Proof.
  induction l as [| x l IH]; simpl; [tauto |].
  intros [-> | H]; [left; reflexivity |].
  right. apply IH. apply filter_In in H. tauto.
Qed.

Lemma dedup_not_nil (l : list value) : l <> [] -> dedup l <> [].
Proof. destruct l; [contradiction | discriminate]. Qed.

Section Summary.

Variable py_format : formatter.
Variable set_order : list value -> list value.
Hypothesis set_order_perm : forall l, Permutation (set_order l) l.

Lemma summarize_variant_inv (results : list value) (summary summary' : dict)
      (v : value) (w w' : world) :
  summarize_variant py_format results summary v w = (w', Ok summary') ->
  exists e, variant_summary results v = Ok e /\ summary' = dict_set summary v e.
Proof.
  intros H. unfold summarize_variant in H.
  apply bind_inv in H as (w1 & e & He & H). apply lift_inv in He as [-> He].
  bind_inv_in H. injection H as _ <-. eauto.
Qed.

Lemma summary_loop (results : list value) (variants : list value) :
  forall (summary0 summary : dict) (w w' : world),
  fold_m variants (summarize_variant py_format results) summary0 w = (w', Ok summary) ->
  Forall (fun kv => summary_entry (snd kv)) summary0 ->
  (forall v, In v variants -> py_eq v v = true) ->
  Forall (fun kv => summary_entry (snd kv)) summary /\
  (forall v, In v variants -> exists e, dict_get summary v = Some e) /\
  (forall k x, dict_get summary0 k = Some x -> exists y, dict_get summary k = Some y).
Proof.
  induction variants as [| v variants IH]; intros summary0 summary w w' Hrun H0 Hrefl.
  - simpl in Hrun. injection Hrun as _ <-.
    split; [exact H0 |]. split; [intros v [] | eauto].
  - simpl in Hrun. apply bind_inv in Hrun as (w1 & s1 & Hstep & Hrun).
    apply summarize_variant_inv in Hstep as (e & He & ->).
    destruct (IH _ _ _ _ Hrun) as (Hall & Hin & Hkeep).
    + apply dict_set_Forall; [exact H0 |].
      exact (variant_summary_entry _ _ _ He).
    + intros u Hu. apply Hrefl. right. exact Hu.
    + split; [exact Hall |]. split.
      * intros u [<- | Hu]; [| exact (Hin u Hu)].
        destruct (dict_set_present summary0 v e (Hrefl v (or_introl eq_refl))) as [y Hy].
        exact (Hkeep _ _ Hy).
      * intros k x Hk.
        destruct (dict_set_keeps summary0 v k e x Hk) as [y Hy].
        exact (Hkeep _ _ Hy).
Qed.

(** In the summary that [generate_summary] builds, every variant of the
    run has an entry whose statistics are numbers. *)
Lemma summary_numeric (results names : list value) (summary : dict) (w w' : world) :
  variant_names results = Ok names ->
  fold_m (set_order (dedup names)) (summarize_variant py_format results) [] w
  = (w', Ok summary) ->
  forall field, In field ["success_rate"; "avg_tokens"; "avg_time"] ->
                numeric_entries summary field (set_order (dedup names)).
Proof.
  intros Hnames Hrun field Hfield v Hv.
  destruct (summary_loop _ _ _ _ _ _ Hrun) as (Hall & Hin & _).
  - constructor.
  - intros u Hu. apply py_eq_refl.
    pose proof (variant_names_hashable _ _ Hnames) as Hh.
    rewrite Forall_forall in Hh. apply Hh.
    apply dedup_subset. eapply Permutation_in; [apply set_order_perm | exact Hu].
  - destruct (Hin v Hv) as [e He].
    pose proof (dict_get_Forall _ _ _ _ Hall He) as Hentry.
    destruct Hentry as (sr & tk & tm & qsr & qtk & qtm & n & -> & Hsr & Htk & Htm).
    unfold summary_key, lookup. rewrite He. cbn [rbind].
    destruct Hfield as [<- | [<- | [<- | []]]]; simpl; eauto.
Qed.


End Summary.

(** The summary of the sample run, and the selection under each
    objective. *)
Example two_variant_summary_run :
  exists w',
    fold_m (dedup two_variant_names)
           (summarize_variant plain_format two_variant_results) [] empty_world
    = (w', Ok two_variant_summary).
Proof. eexists. vm_compute. reflexivity. Qed.

Example two_variant_selection :
  best_variant (VStr "quality") (dedup two_variant_names) two_variant_summary
  = Ok (Some (VStr "careful")) /\
  best_variant (VStr "cost") (dedup two_variant_names) two_variant_summary
  = Ok (Some (VStr "quick")) /\
  best_variant (VStr "speed") (dedup two_variant_names) two_variant_summary
  = Ok (Some (VStr "careful")).
Proof. repeat split; reflexivity. Qed.


(** *** Averages over the records of a variant *)

Lemma wf_record_inv (r : value) :
  wf_record r = true ->
  exists d x,
    r = VDict d /\ dict_get d (VStr "variant") = Some x /\
    numeric_or_absent "tokens" d = true /\
    numeric_or_absent "elapsed_time" d = true.
Proof.
  destruct r as [| | | | | | d]; try discriminate. simpl. intros H.
  apply andb_prop in H as [H Htime]. apply andb_prop in H as [Hv Htok].
  unfold dict_mem in Hv. destruct (dict_get d (VStr "variant")) as [x |] eqn:E;
    [| discriminate Hv].
  exists d, x. auto.
Qed.

Lemma results_of_filter (v : value) (results : list value) :
  forallb wf_record results = true ->
  results_of v results = Ok (filter (has_variant v) results).
Proof.
  induction results as [| r results IH]; simpl; intros H; [reflexivity |].
  apply andb_prop in H as [Hr Hrest].
  destruct (wf_record_inv r Hr) as (d & x & -> & Hx & _).
  unfold has_variant. simpl getitem. rewrite Hx. cbn [rbind].
  rewrite (IH Hrest). cbn [rbind]. reflexivity.
Qed.

Lemma wf_record_filter (p : value -> bool) (rs : list value) :
  forallb wf_record rs = true -> forallb wf_record (filter p rs) = true.
Proof.
  rewrite !forallb_forall. intros H r Hr. apply H. apply filter_In in Hr. tauto.
Qed.

Lemma count_succeeded (rs : list value) :
  forallb wf_record rs = true ->
  count_m (fun r => s <~ get r "success" VNone ;; Ok (truthy s)) rs
  = Ok (Z.of_nat (List.length (filter succeeded rs))).
Proof.
  induction rs as [| r rs IH]; simpl; intros H; [reflexivity |].
  apply andb_prop in H as [Hr Hrest].
  destruct (wf_record_inv r Hr) as (d & x & -> & _).
  rewrite (IH Hrest). unfold succeeded. simpl get.
  destruct (dict_get d (VStr "success")) as [s |]; cbn [rbind].
  - destruct (truthy s); simpl List.length; f_equal; lia.
  - reflexivity.
Qed.

Lemma py_add_num (a b : value) (x y : Q) :
  as_num a = Some x -> as_num b = Some y ->
  exists c z, py_add a b = Ok c /\ as_num c = Some z /\ z == x + y.
Proof.
  intros Ha Hb. unfold py_add.
  destruct a as [| ba | za | qa | | |]; try discriminate Ha;
    destruct b as [| bb | zb | qb | | |]; try discriminate Hb;
      simpl in *; injection Ha as <-; injection Hb as <-;
        eexists; eexists; (split; [reflexivity |]); (split; [reflexivity |]);
          first [rewrite inject_Z_plus; reflexivity | reflexivity].
Qed.

Lemma py_truediv_num (t : value) (n : Z) (qt : Q) :
  as_num t = Some qt -> n <> 0%Z ->
  py_truediv t (VInt n) = Ok (VFloat (qt / inject_Z n)).
Proof.
  intros Hqt Hn. unfold py_truediv. rewrite Hqt. cbn [as_num].
  change 0 with (inject_Z 0). rewrite Qeq_bool_inject_Z.
  destruct (Z.eqb_spec n 0); [contradiction | reflexivity].
Qed.

Lemma metric_of_record (field : string) (d : dict) :
  numeric_or_absent field d = true ->
  exists x, get (VDict d) field (VInt 0) = Ok x /\
            as_num x = Some (metric_of field (VDict d)).
Proof.
  unfold numeric_or_absent, metric_of. simpl get.
  destruct (dict_get d (VStr field)) as [x |].
  - destruct (as_num x) as [q |] eqn:E; [| discriminate].
    intros _. exists x. rewrite E. auto.
  - intros _. exists (VInt 0). auto.
Qed.

Lemma sum_metric (field : string) (rs : list value) :
  (forall r, In r rs -> exists d, r = VDict d /\ numeric_or_absent field d = true) ->
  forall (acc : value) (qacc : Q),
  as_num acc = Some qacc ->
  exists t qt,
    sum_m (fun r => get r field (VInt 0)) rs acc = Ok t /\
    as_num t = Some qt /\
    qt == qacc + Qsum (map (metric_of field) rs).
Proof.
  induction rs as [| r rs IH]; intros Hrs acc qacc Hacc.
  - exists acc, qacc. simpl. repeat split; auto. unfold Qsum. simpl. ring.
  - destruct (Hrs r (or_introl eq_refl)) as (d & -> & Hd).
    destruct (metric_of_record field d Hd) as (x & Hx & Hqx).
    destruct (py_add_num acc x _ _ Hacc Hqx) as (acc' & q' & Hadd & Hq' & Heq).
    destruct (IH (fun u Hu => Hrs u (or_intror Hu)) acc' q' Hq')
      as (t & qt & Hsum & Hqt & Hval).
    exists t, qt. cbn [sum_m]. rewrite Hx, Hadd. split; [exact Hsum |].
    split; [exact Hqt |].
    rewrite Hval, Heq. unfold Qsum. simpl. ring.
Qed.

Lemma average_metric (field : string) (rs : list value) :
  rs <> [] ->
  (forall r, In r rs -> exists d, r = VDict d /\ numeric_or_absent field d = true) ->
  exists q,
    average field rs = Ok (VFloat q) /\
    q == Qsum (map (metric_of field) rs) / inject_Z (Z.of_nat (List.length rs)).
Proof.
  intros Hne Hrs.
  destruct (sum_metric field rs Hrs (VInt 0) 0 eq_refl) as (t & qt & Hsum & Hqt & Hval).
  unfold average. destruct rs as [| r rs']; [contradiction |].
  rewrite Hsum. cbn [rbind].
  rewrite (py_truediv_num t _ qt Hqt) by (simpl List.length; lia).
  eexists. split; [reflexivity |].
  rewrite Hval. rewrite Qplus_0_l. reflexivity.
Qed.



(** The timeout record of the sample run is among the records of its
    variant; it counts as a test, not as a success, adds nothing to the
    tokens and 60 seconds to the time. *)
Example timeout_record_in_summary :
  let r := timeout_record (VStr "echo-test") (VStr "quick") in
  In r (filter (has_variant (VStr "quick")) two_variant_results) /\
  succeeded r = false /\
  metric_of "tokens" r = 0 /\
  metric_of "elapsed_time" r = inject_Z 60 /\
  variant_summary two_variant_results (VStr "quick")
  = Ok (VDict [(VStr "success_rate", VFloat (1 # 2));
               (VStr "avg_tokens", VFloat (10 # 2));
               (VStr "avg_time", VFloat (61 # 2));
               (VStr "total_tests", VInt 2)]).
Proof.
  repeat split; try reflexivity.
  simpl. right. left. reflexivity.
Qed.

(** *** The command line *)

Lemma quiet_ret {A} (a : A) : quiet (ret a).
Proof. intros w w' r H. injection H as <- _. reflexivity. Qed.

Lemma quiet_lift {A} (x : result A) : quiet (lift x).
Proof. intros w w' r H. injection H as <- _. reflexivity. Qed.

Lemma quiet_print (s : string) : quiet (print s).
Proof. intros w w' r H. injection H as <- _. reflexivity. Qed.

Lemma quiet_get_self : quiet get_self.
Proof. intros w w' r H. injection H as <- _. reflexivity. Qed.

Lemma quiet_bind {A B} (m : M A) (k : A -> M B) :
  quiet m -> (forall a, quiet (k a)) -> quiet (bind m k).
Proof.
  intros Hm Hk w w' r H. unfold bind in H.
  destruct (m w) as [w1 [a | e]] eqn:E.
  - rewrite (Hk a _ _ _ H). exact (Hm _ _ _ E).
  - injection H as <- _. exact (Hm _ _ _ E).
Qed.

Lemma quiet_fold_m {A S} (body : S -> A -> M S) (xs : list A) :
  (forall s x, quiet (body s x)) -> forall s, quiet (fold_m xs body s).
Proof.
  intros Hbody. induction xs as [| x xs IH]; intros s; simpl.
  - apply quiet_ret.
  - apply quiet_bind; [apply Hbody | exact IH].
Qed.

Ltac quiet_steps :=
  repeat first
         [ apply quiet_ret | apply quiet_lift | apply quiet_print
         | apply quiet_get_self
         | apply quiet_bind; [| intros ]
         | apply quiet_fold_m; intros ].

Section CommandLine.

Variable re_search : regex_engine.
Variable py_format : formatter.
Variable yaml_reload : value -> value.
Variable resolve : string -> string.
Variable timestamp : string.
Variable spawn_server : nat -> list string -> option string.
Variable call_subject : nat -> list string -> child.
Variable set_order : list value -> list value.

Local Abbreviation main :=
  (main re_search py_format yaml_reload resolve timestamp spawn_server call_subject
        set_order).
Local Abbreviation run_benchmark :=
  (run_benchmark re_search py_format yaml_reload timestamp spawn_server call_subject
                 set_order).
Local Abbreviation generate_summary := (generate_summary py_format set_order).

Lemma quiet_summarize_variant (results : list value) (summary : dict) (v : value) :
  quiet (summarize_variant py_format results summary v).
Proof. unfold summarize_variant. quiet_steps. Qed.

(** [generate_summary] writes one file, the summary. *)
Lemma generate_summary_events (results : list value) (run_dir : string) (w w' : world) :
  generate_summary results run_dir w = (w', Ok tt) ->
  exists summary,
    events w' = events w ++ [EvWrite (path_div run_dir "summary.json")
                                     (JsonDump (VDict summary))].
Proof.
  intros H. unfold GenericBenchmark.generate_summary in H.
  apply bind_inv in H as (w1 & u1 & H1 & H). apply quiet_print in H1.
  apply bind_inv in H as (w2 & u2 & H2 & H). apply quiet_print in H2.
  apply bind_inv in H as (w3 & u3 & H3 & H). apply quiet_print in H3.
  apply bind_inv in H as (w4 & names & H4 & H). apply quiet_lift in H4.
  apply bind_inv in H as (w5 & u5 & H5 & H). apply quiet_print in H5.
  apply bind_inv in H as (w6 & u6 & H6 & H). apply quiet_print in H6.
  apply bind_inv in H as (w7 & summary & H7 & H).
  apply (quiet_fold_m _ _ (quiet_summarize_variant results)) in H7.
  apply bind_inv in H as (w8 & u8 & H8 & H).
  unfold write_file in H8. injection H8 as Hw8 _.
  exists summary.
  assert (Hrest : events w' = events w8).
  { assert (Hq : quiet
      (print (nl ++ "📊 Summary saved: " ++ path_div run_dir "summary.json") ;;;
       print (nl ++ "💡 Recommendations:") ;;;
       me <- get_self ;;
       metrics <- lift (get (test_def me) "metrics" (VDict [])) ;;
       primary_metric <- lift (get metrics "primary" (VStr "quality")) ;;
       best <- lift (best_variant primary_metric (set_order (dedup names)) summary) ;;
       match best with
       | None => ret tt
       | Some best =>
         if py_eq primary_metric (VStr "quality") then
           x <- lift (summary_key summary "success_rate" best) ;;
           print ("   - Best quality: " ++ py_format best "" ++ " ("
                  ++ py_format x ".1%" ++ " success)")
         else if py_eq primary_metric (VStr "cost") then
           x <- lift (summary_key summary "avg_tokens" best) ;;
           print ("   - Most cost-effective: " ++ py_format best "" ++ " ("
                  ++ py_format x ".0f" ++ " avg tokens)")
         else
           x <- lift (summary_key summary "avg_time" best) ;;
           print ("   - Fastest: " ++ py_format best "" ++ " ("
                  ++ py_format x ".1f" ++ "s avg)")
       end)).
    { quiet_steps.
      match goal with |- quiet (match ?b with _ => _ end) => destruct b end;
        [| apply quiet_ret].
      repeat match goal with
             | |- quiet (if ?c then _ else _) => destruct c
             end; quiet_steps. }
    exact (Hq _ _ _ H). }
  rewrite Hrest, <- Hw8. unfold written. cbn [events].
  rewrite H7, H6, H5, H4, H3, H2, H1. reflexivity.
Qed.

(** C9, as the code has it.  Without a positional argument [main] prints
    the usage text and exits with status 1.  With the path of a file that
    does not exist it prints an error, writes nothing and returns, so the
    exit status is 0.  When the definition loads and the run completes,
    the last two writes are [results.json] and [summary.json] in the run
    directory, and the exit status is 0. *)
Theorem main_exit_status :
  (forall argv w,
      (List.length argv < 2)%nat ->
      main argv w = (add_stdout usage_lines w, Raise (SystemExit 1)) /\
      exit_status (snd (main argv w)) = 1%Z) /\
  (forall prog path rest w,
      file_lookup (files w) path = None ->
      main (prog :: path :: rest) w
      = (mkWorld (stdout w ++ [("❌ Test definition not found: " ++ path)%string])
                 (files w) (events w) (calls w)
                 (mkBenchmark path VNone "results/generic" (resolve "../hector")),
         Ok tt) /\
      exit_status (snd (main (prog :: path :: rest) w)) = 0%Z) /\
  (forall prog path rest w w1 w',
      load_test_definition py_format (fst (init resolve path w)) = (w1, Ok true) ->
      main (prog :: path :: rest) w = (w', Ok tt) ->
      (exists evs run_dir results summary,
          events w'
          = evs ++ [EvWrite (path_div run_dir "results.json") (JsonDump (VList results));
                    EvWrite (path_div run_dir "summary.json") (JsonDump (VDict summary))]) /\
      exit_status (snd (main (prog :: path :: rest) w)) = 0%Z).
Proof.
  split; [| split].
  - intros argv w Hlen.
    assert (Hrun : main argv w = (add_stdout usage_lines w, Raise (SystemExit 1))).
    { destruct argv as [| a [| b rest]]; [| | simpl in Hlen; lia];
        unfold GenericBenchmark.main, bind, print, raise; simpl;
          rewrite !add_stdout_twice; reflexivity. }
    split; [exact Hrun | rewrite Hrun; reflexivity].
  - intros prog path rest w Hmissing.
    assert (Hrun : main (prog :: path :: rest) w
                   = (mkWorld (stdout w ++ [("❌ Test definition not found: " ++ path)%string])
                              (files w) (events w) (calls w)
                              (mkBenchmark path VNone "results/generic"
                                           (resolve "../hector")),
                      Ok tt)).
    { unfold GenericBenchmark.main, GenericBenchmark.run_benchmark,
        load_test_definition, init, set_self, get_self, exists_, bind, print, ret.
      simpl. rewrite Hmissing. reflexivity. }
    split; [exact Hrun | rewrite Hrun; reflexivity].
  - intros prog path rest w w1 w' Hload Hmain.
    split; [| rewrite Hmain; reflexivity].
    unfold GenericBenchmark.main in Hmain.
    change (List.length (prog :: path :: rest) <? 2)%nat with false in Hmain.
    cbn [nth_error] in Hmain. rewrite bind_ret in Hmain.
    unfold bind at 1 in Hmain.
    destruct (init resolve path w) as [w0 r0] eqn:Hinit.
    unfold init, set_self in Hinit. injection Hinit as Hw0 <-.
    simpl fst in Hload. clear Hw0.
    unfold GenericBenchmark.run_benchmark in Hmain.
    rewrite (bind_run _ Hload) in Hmain. cbn [negb] in Hmain.
    do 13 (apply bind_inv in Hmain as (?w & ?a & ?Hstep & Hmain);
           cbv beta zeta in Hmain).
    apply bind_inv in Hmain as (wa & ua & Hwrite & Hmain).
    apply bind_inv in Hmain as (wb & ub & Hprint & Hmain).
    apply quiet_print in Hprint.
    apply generate_summary_events in Hmain as [summary Hsummary].
    unfold write_file in Hwrite. injection Hwrite as Hwa _.
    eexists _, _, _, summary.
    rewrite Hsummary, Hprint, <- Hwa. unfold written. cbn [events].
    rewrite <- app_assoc. reflexivity.
Qed.

End CommandLine.

Lemma main_exit_status_witness :
  exit_status
    (snd (main sample_engine plain_format (fun v => v) (fun s => s) "20260101_120000"
               server_starts sample_subject (fun l => l)
               ["generic_benchmark.py"] sample_disk)) = 1%Z /\
  exit_status
    (snd (main sample_engine plain_format (fun v => v) (fun s => s) "20260101_120000"
               server_starts sample_subject (fun l => l)
               ["generic_benchmark.py"; "missing.json"] sample_disk)) = 0%Z /\
  exit_status
    (snd (main sample_engine plain_format (fun v => v) (fun s => s) "20260101_120000"
               server_starts sample_subject (fun l => l)
               ["generic_benchmark.py"; "tests/prompt_variations.json"] sample_disk))
  = 0%Z.
Proof.
  pose proof (main_exit_status sample_engine plain_format (fun v => v) (fun s => s)
                "20260101_120000" server_starts sample_subject (fun l => l))
    as (Husage & Hmissing & Hsuccess).
  split; [| split].
  - apply (Husage ["generic_benchmark.py"] sample_disk). simpl. lia.
  - apply (Hmissing "generic_benchmark.py" "missing.json" [] sample_disk). reflexivity.
  - eapply (Hsuccess "generic_benchmark.py" "tests/prompt_variations.json" []
                     sample_disk).
    + vm_compute. reflexivity.
    + vm_compute. reflexivity.
Defined.

(** C9 as stated fails: given the path of a file that does not exist,
    [main] prints the error and returns normally; the exit status is 0. *)
Lemma main_missing_file_exits_zero :
  main sample_engine plain_format (fun v => v) (fun s => s) "20260101_120000"
       server_starts sample_subject (fun l => l)
       ["generic_benchmark.py"; "missing.json"] sample_disk
  = (mkWorld ["❌ Test definition not found: missing.json"]
             (files sample_disk) [] 0
             (mkBenchmark "missing.json" VNone "results/generic" "../hector"),
     Ok tt)
  /\ ~ (forall (re : regex_engine) (fmt : formatter) (reload : value -> value)
              (resolve : string -> string) (timestamp : string)
              (spawn : nat -> list string -> option string)
              (subject : nat -> list string -> child)
              (order : list value -> list value)
              (prog path : string) (w : world),
          file_lookup (files w) path = None ->
          exit_status (snd (main re fmt reload resolve timestamp spawn subject order
                                 [prog; path] w)) <> 0%Z).
Proof.
  split; [reflexivity |].
  intros H.
  apply (H sample_engine plain_format (fun v => v) (fun s => s) "20260101_120000"
           server_starts sample_subject (fun l => l)
           "generic_benchmark.py" "missing.json" sample_disk eq_refl).
  reflexivity.
Qed.

End GenericFacts.

(* ===================================================================== *)
(** * Further properties of generic_benchmark.py *)
(* ===================================================================== *)

Module GenericMore.
Import GenericBenchmark.

(** ** Dotted-path overrides on an arbitrary configuration *)

Lemma py_eq_str_key (k0 : value) (k : string) :
  py_eq k0 (VStr k) = true -> k0 = VStr k.
Proof.
  destruct k0; unfold py_eq; simpl; try discriminate.
  intros H. apply String.eqb_eq in H. subst. reflexivity.
Qed.

Lemma py_eq_str_other (k : string) (kv : value) :
  kv <> VStr k -> py_eq (VStr k) kv = false.
Proof.
  intros Hne. destruct kv; unfold py_eq; simpl; try reflexivity.
  destruct (String.eqb_spec k s); [subst; contradiction | reflexivity].
Qed.

Lemma dict_get_set_same (m : dict) (k : string) (x : value) :
  dict_get (dict_set m (VStr k) x) (VStr k) = Some x.
Proof.
  induction m as [| [k0 v0] rest IH]; simpl.
  - unfold py_eq. simpl. rewrite String.eqb_refl. reflexivity.
  - destruct (py_eq k0 (VStr k)) eqn:E; simpl; rewrite E; [reflexivity | exact IH].
Qed.

Lemma dict_get_set_other (m : dict) (k : string) (kv x : value) :
  kv <> VStr k ->
  dict_get (dict_set m (VStr k) x) kv = dict_get m kv.
Proof.
  intros Hne. induction m as [| [k0 v0] rest IH]; simpl.
  - rewrite (py_eq_str_other k kv Hne). reflexivity.
  - destruct (py_eq k0 (VStr k)) eqn:E; simpl.
    + apply py_eq_str_key in E. subst k0.
      rewrite (py_eq_str_other k kv Hne). reflexivity.
    + destruct (py_eq k0 kv); [reflexivity | exact IH].
Qed.

Lemma dict_set_twice (m : dict) (k : string) (x y : value) :
  dict_set (dict_set m (VStr k) x) (VStr k) y = dict_set m (VStr k) y.
Proof.
  induction m as [| [k0 v0] rest IH]; simpl.
  - unfold py_eq. simpl. rewrite String.eqb_refl. reflexivity.
  - destruct (py_eq k0 (VStr k)) eqn:E; simpl; rewrite E; [reflexivity |].
    rewrite IH. reflexivity.
Qed.

(** The two equations of [set_nested] on a mapping. *)
Lemma set_nested_last (m : dict) (k : string) (v : value) :
  set_nested (VDict m) [k] v = Ok (VDict (dict_set m (VStr k) v)).
Proof. reflexivity. Qed.

Lemma set_nested_step (m : dict) (k k' : string) (rest : list string) (v : value) :
  set_nested (VDict m) (k :: k' :: rest) v
  = (child' <~ set_nested (match dict_get m (VStr k) with
                           | Some c => c
                           | None => VDict []
                           end) (k' :: rest) v ;;
     Ok (VDict (dict_set m (VStr k) child'))).
Proof. reflexivity. Qed.

Lemma set_nested_get (keys : list string) :
  forall (d d' v : value),
  set_nested d keys v = Ok d' -> get_nested d' keys = Some v.
Proof.
  induction keys as [| k rest IH]; intros d d' v H; [discriminate H |].
  destruct d as [| | | | | | m];
    try (destruct rest; discriminate H).
  destruct rest as [| k' rest].
  - rewrite set_nested_last in H. injection H as <-.
    simpl. rewrite dict_get_set_same. reflexivity.
  - rewrite set_nested_step in H. unfold rbind in H.
    destruct (set_nested _ (k' :: rest) v) as [c |] eqn:Hc; [| discriminate H].
    injection H as <-.
    change (get_nested (VDict (dict_set m (VStr k) c)) (k :: k' :: rest))
      with (match dict_get (dict_set m (VStr k) c) (VStr k) with
            | Some c0 => get_nested c0 (k' :: rest)
            | None => None
            end).
    rewrite dict_get_set_same. exact (IH _ _ _ Hc).
Qed.

(** After an override is applied, reading the configuration along the
    same dotted path yields the override value, whatever the
    configuration was before. *)
Theorem set_nested_key_then_read (d d' v : value) (path : string) :
  _set_nested_key d (VStr path) v = Ok d' ->
  get_nested d' (split_on "." path) = Some v.
Proof. unfold _set_nested_key. apply set_nested_get. Qed.

Lemma set_nested_key_then_read_witness :
  get_nested
    (VDict [(VStr "version", VInt 2);
            (VStr "agents",
             VDict [(VStr "main",
                     VDict [(VStr "model", VStr "gpt-4o");
                            (VStr "temperature", VInt 0)])])])
    (split_on "." "agents.main.temperature")
  = Some (VInt 0).
Proof.
  apply (set_nested_key_then_read nested_config _ (VInt 0) "agents.main.temperature").
  reflexivity.
Defined.

Lemma set_nested_overwrite (keys : list string) :
  forall (d d1 v1 v2 : value),
  set_nested d keys v1 = Ok d1 ->
  set_nested d1 keys v2 = set_nested d keys v2.
Proof.
  induction keys as [| k rest IH]; intros d d1 v1 v2 H; [discriminate H |].
  destruct d as [| | | | | | m];
    try (destruct rest; discriminate H).
  destruct rest as [| k' rest].
  - rewrite set_nested_last in H. injection H as <-.
    rewrite !set_nested_last, dict_set_twice. reflexivity.
  - rewrite set_nested_step in H. unfold rbind in H.
    destruct (set_nested _ (k' :: rest) v1) as [c |] eqn:Hc; [| discriminate H].
    injection H as <-.
    rewrite !set_nested_step, dict_get_set_same.
    rewrite (IH _ _ _ v2 Hc). unfold rbind.
    destruct (set_nested _ (k' :: rest) v2) as [c2 | e]; [| reflexivity].
    rewrite dict_set_twice. reflexivity.
Qed.

(** Applying an override to a path that an earlier override has set
    gives the same configuration as applying the later override alone:
    the last value wins, and an override applied twice is applied once. *)
Theorem set_nested_key_last_wins (d d1 v1 v2 : value) (path : string) :
  _set_nested_key d (VStr path) v1 = Ok d1 ->
  _set_nested_key d1 (VStr path) v2 = _set_nested_key d (VStr path) v2.
Proof. unfold _set_nested_key. apply set_nested_overwrite. Qed.

Lemma set_nested_key_last_wins_witness :
  _set_nested_key
    (VDict [(VStr "version", VInt 2);
            (VStr "agents",
             VDict [(VStr "main",
                     VDict [(VStr "model", VStr "gpt-4o");
                            (VStr "temperature", VInt 0)])])])
    (VStr "agents.main.temperature") (VInt 1)
  = _set_nested_key nested_config (VStr "agents.main.temperature") (VInt 1).
Proof.
  apply (set_nested_key_last_wins nested_config _ (VInt 0) (VInt 1)
           "agents.main.temperature").
  reflexivity.
Defined.

Lemma set_nested_not_mapping (keys : list string) (d v : value) :
  is_mapping d = false ->
  exists k msg,
    set_nested d keys v = Raise (Exc k msg) /\
    (k = TypeError \/ k = AttributeError \/ k = IndexError).
Proof.
  intros Hd. destruct keys as [| k [| k' rest]];
    destruct d; try discriminate Hd; simpl;
      do 2 eexists; (split; [reflexivity | auto]).
Qed.

(** An override cannot pass through an entry that is not a mapping: when
    the first segment of the path names an existing scalar, string or
    list, or when the configuration itself is not a mapping (an empty
    YAML file loads as [None]), [_set_nested_key] raises [TypeError] or
    [AttributeError] instead of replacing the entry. *)
Theorem set_nested_key_through_scalar (d x v : value) (a rest : string) :
  dot_free a = true ->
  is_mapping d = false \/
  (exists m, d = VDict m /\ dict_get m (VStr a) = Some x /\ is_mapping x = false) ->
  exists k msg,
    _set_nested_key d (VStr (a ++ "." ++ rest)) v = Raise (Exc k msg) /\
    (k = TypeError \/ k = AttributeError).
Proof.
  intros Ha Hcase. unfold _set_nested_key.
  change (a ++ "." ++ rest)%string with (a ++ String "." rest)%string.
  rewrite (GenericFacts.split_on_dotted a rest Ha).
  pose proof (GenericFacts.split_on_not_nil "." rest) as Hne.
  destruct (split_on "." rest) as [| k' ks] eqn:E; [contradiction |].
  destruct Hcase as [Hd | (m & -> & Hx & Hmap)].
  - destruct d; try discriminate Hd; simpl;
      do 2 eexists; (split; [reflexivity | auto]).
  - rewrite set_nested_step, Hx.
    destruct (set_nested_not_mapping (k' :: ks) x v Hmap) as (k & msg & Hr & Hk).
    rewrite Hr. simpl. exists k, msg. split; [reflexivity |].
    destruct Hk as [Hk | [Hk | Hk]]; auto.
    subst k. destruct ks; destruct x; try discriminate Hmap;
      simpl in Hr; discriminate Hr.
Qed.

Lemma set_nested_key_through_scalar_witness :
  exists k msg,
    _set_nested_key flat_config (VStr "agents.main") (VStr "gpt-4o")
    = Raise (Exc k msg) /\
    (k = TypeError \/ k = AttributeError).
Proof.
  apply (set_nested_key_through_scalar flat_config (VStr "none") (VStr "gpt-4o")
           "agents" "main").
  - reflexivity.
  - right. exists [(VStr "agents", VStr "none"); (VStr "version", VInt 2)].
    repeat split; reflexivity.
Defined.

(** ** Materialising a configuration *)

Section Materialise.

Variable py_format : formatter.
Variable yaml_reload : value -> value.

Local Abbreviation prepare_variant_config :=
  (prepare_variant_config py_format yaml_reload).

(** When [prepare_variant_config] returns [None] it has written nothing:
    either the variant refers to a file that does not exist, and the only
    effect is the warning line, or its [config] is neither a string nor
    an object (or is absent), and there is no effect at all. *)
Theorem prepare_variant_config_none (variant provider : value) (w w' : world) :
  prepare_variant_config variant provider w = (w', Ok None) ->
  (exists config_file,
      get variant "config" VNone = Ok (VStr config_file) /\
      file_lookup (files w) config_file = None /\
      w' = add_stdout [("⚠️  Config file not found: " ++ config_file)%string] w)
  \/
  (exists c,
      get variant "config" VNone = Ok c /\
      (forall s, c <> VStr s) /\ is_mapping c = false /\ w' = w).
Proof.
  intros H. unfold GenericBenchmark.prepare_variant_config in H.
  apply bind_inv in H as (w1 & me & Hme & H).
  unfold get_self in Hme. injection Hme as <- <-.
  apply bind_inv in H as (w1 & cp & Hcp & H).
  apply GenericFacts.lift_inv in Hcp as [-> Hcp].
  destruct cp as [| b | z | q | config_file | l | d].
  1-4, 6: right; unfold ret in H; injection H as <-; eexists;
    (split; [exact Hcp |]); (split; [discriminate |]); split; reflexivity.
  - left. apply bind_inv in H as (w1 & found & Hfound & H).
    unfold exists_ in Hfound. injection Hfound as <- Hfound.
    destruct (file_lookup (files w) config_file) as [f |] eqn:Hfile.
    + subst found. cbn [negb] in H.
      apply bind_inv in H as (w1 & has & Hhas & H).
      apply GenericFacts.lift_inv in Hhas as [-> Hhas].
      destruct has.
      * bind_inv_in H. discriminate H.
      * discriminate H.
    + subst found. cbn [negb] in H.
      apply bind_inv in H as (w1 & u & Hprint & H).
      unfold print in Hprint. injection Hprint as <-.
      unfold ret in H. injection H as <-.
      exists config_file. auto.
  - bind_inv_in H. discriminate H.
Qed.

(** An inline configuration is written as it is: the variant's
    [config_overrides], if any, are not applied to it. *)
Theorem prepare_inline_ignores_overrides (variant provider name : value)
        (d : dict) (w : world) :
  get variant "config" VNone = Ok (VDict d) ->
  getitem variant "name" = Ok name ->
  prepare_variant_config variant provider w
  = (written (temp_config_path py_format (results_dir (self w)) name provider)
             (YamlDump (VDict d)) w,
     Ok (Some (temp_config_path py_format (results_dir (self w)) name provider))).
Proof.
  intros Hcfg Hname. unfold GenericBenchmark.prepare_variant_config.
  unfold bind at 1, get_self. rewrite Hcfg, bind_ok. rewrite Hname, bind_ok.
  reflexivity.
Qed.

End Materialise.

Lemma prepare_variant_config_none_witness :
  (exists config_file,
      get lost_variant "config" VNone = Ok (VStr config_file) /\
      file_lookup (files bench_world) config_file = None /\
      add_stdout ["⚠️  Config file not found: configs/none.yaml"] bench_world
      = add_stdout [("⚠️  Config file not found: " ++ config_file)%string] bench_world)
  \/
  (exists c,
      get lost_variant "config" VNone = Ok c /\
      (forall s, c <> VStr s) /\ is_mapping c = false /\
      add_stdout ["⚠️  Config file not found: configs/none.yaml"] bench_world
      = bench_world).
Proof.
  apply (prepare_variant_config_none plain_format (fun v => v) lost_variant
           (VStr "openai") bench_world).
  reflexivity.
Defined.

Lemma prepare_inline_ignores_overrides_witness :
  prepare_variant_config plain_format (fun v => v) inline_tuned_variant
                         (VStr "openai") bench_world
  = (written "results/generic/inline_openai_temp.yaml" (YamlDump base_config)
             bench_world,
     Ok (Some "results/generic/inline_openai_temp.yaml")).
Proof.
  apply (prepare_inline_ignores_overrides plain_format (fun v => v)
           inline_tuned_variant (VStr "openai") (VStr "inline")
           [(VStr "agents",
             VDict [(VStr "main", VDict [(VStr "model", VStr "gpt-4o")])])]
           bench_world); reflexivity.
Defined.

(** ** Loading the test definition *)

Lemma exc_only_bind {A B} (m : M A) (k : A -> M B) :
  m_exc_only m -> (forall a, m_exc_only (k a)) -> m_exc_only (bind m k).
Proof.
  intros Hm Hk w. unfold bind. specialize (Hm w).
  destruct (m w) as [w1 [a | e]]; simpl in *; [apply Hk | exact Hm].
Qed.

Lemma exc_only_ret {A} (a : A) : m_exc_only (ret a).
Proof. intros w. exact I. Qed.

Lemma exc_only_print (s : string) : m_exc_only (print s).
Proof. intros w. exact I. Qed.

Lemma exc_only_lift {A} (r : result A) : exc_only r -> m_exc_only (lift r).
Proof. intros H w. exact H. Qed.

Lemma exc_only_getitem (v : value) (k : string) : exc_only (getitem v k).
Proof.
  destruct v; simpl; try exact I. destruct (dict_get d (VStr k)); exact I.
Qed.

Lemma exc_only_py_len (v : value) : exc_only (py_len v).
Proof. destruct v; exact I. Qed.

Lemma exc_only_contains_key (v : value) (k : string) : exc_only (contains_key v k).
Proof. destruct v; exact I. Qed.

Lemma exc_only_first_missing (td : value) (required : list string) :
  exc_only (first_missing td required).
Proof.
  induction required as [| f rest IH]; simpl; [exact I |].
  pose proof (exc_only_contains_key td f) as Hc.
  destruct (contains_key td f) as [[|] | e]; simpl; [exact IH | exact I | exact Hc].
Qed.

Lemma exc_only_json_load (p : string) : m_exc_only (json_load p).
Proof.
  intros w. unfold json_load.
  destruct (file_lookup (files w) p) as [[v | v | | [j |] y] |]; exact I.
Qed.

Lemma first_missing_find (d : dict) (required : list string) :
  first_missing (VDict d) required
  = Ok (find (fun f => negb (dict_mem d (VStr f))) required).
Proof.
  induction required as [| f rest IH]; simpl; [reflexivity |].
  destruct (dict_mem d (VStr f)); simpl; [exact IH | reflexivity].
Qed.

Lemma first_missing_none (td : value) (required : list string) :
  first_missing td required = Ok None ->
  forall f, In f required -> contains_key td f = Ok true.
Proof.
  induction required as [| g rest IH]; simpl; intros H f Hin; [contradiction |].
  destruct (contains_key td g) as [[|] | e] eqn:E; simpl in H; try discriminate H.
  destruct Hin as [<- | Hin]; [exact E | exact (IH H f Hin)].
Qed.

Section Loader.

Variable py_format : formatter.

Local Abbreviation load_test_definition := (load_test_definition py_format).

(** [load_test_definition] always returns a boolean: a missing file, text
    that is not JSON, a definition that is not an object or whose
    [variants] have no length are reported on the console and answered
    with [False]; no exception leaves the function. *)
Theorem load_test_definition_never_raises (w : world) :
  exists w' b, load_test_definition w = (w', Ok b).
Proof.
  unfold GenericBenchmark.load_test_definition.
  unfold bind at 1, get_self. unfold bind at 1, exists_.
  destruct (file_lookup (files w) (test_def_path (self w))) as [f |];
    cbn [negb]; [| eexists; eexists; reflexivity].
  unfold try_except, try_catch.
  match goal with
  | |- context [match ?body w with _ => _ end] =>
    assert (Hall : m_exc_only body);
      [| pose proof (Hall w) as Hbody; clear Hall;
         destruct (body w) as [w1 [b | e]]]
  end.
  - apply exc_only_bind; [apply exc_only_json_load | intros td].
    apply exc_only_bind; [intros w0; exact I | intros _].
    apply exc_only_bind;
      [apply exc_only_lift, exc_only_first_missing | intros [field |]].
    + apply exc_only_bind; [apply exc_only_print | intros _; apply exc_only_ret].
    + repeat first
             [ apply exc_only_ret | apply exc_only_print
             | apply exc_only_lift; first [apply exc_only_getitem | apply exc_only_py_len]
             | apply exc_only_bind; [| intros ?] ].
  - eexists; eexists; reflexivity.
  - simpl in Hbody. destruct e as [k msg | code]; [| contradiction].
    simpl. eexists; eexists; reflexivity.
Qed.

(** After [load_test_definition] has returned [True], the definition
    stored in the object has the four required fields, and nothing was
    written. *)
Theorem load_test_definition_true (w w' : world) :
  load_test_definition w = (w', Ok true) ->
  (forall f, In f ["test_name"; "description"; "variants"; "scenarios"] ->
             contains_key (test_def (self w')) f = Ok true) /\
  files w' = files w /\ events w' = events w.
Proof.
  intros H. unfold GenericBenchmark.load_test_definition in H.
  apply bind_inv in H as (w1 & me & Hme & H).
  unfold get_self in Hme. injection Hme as <- <-.
  apply bind_inv in H as (w1 & found & Hfound & H).
  unfold exists_ in Hfound. injection Hfound as <- _.
  destruct found; cbn [negb] in H.
  2: { apply bind_inv in H as (w1 & u & _ & H). discriminate H. }
  unfold try_except, try_catch in H.
  match type of H with
  | (match ?body w with _ => _ end) = _ =>
    destruct (body w) as [w1 [b | e]] eqn:Hbody
  end.
  2: { destruct (is_Exception e); [| discriminate H].
       apply bind_inv in H as (w2 & u & _ & H). discriminate H. }
  injection H as -> ->.
  apply bind_inv in Hbody as (w1 & td & Hload & Hbody).
  assert (w1 = w) as ->.
  { unfold json_load in Hload.
    destruct (file_lookup (files w) (test_def_path (self w)))
      as [[v | v | | [j |] y] |]; try discriminate Hload;
      injection Hload as <- _; reflexivity. }
  apply bind_inv in Hbody as (w1 & u & Hset & Hbody).
  unfold set_self in Hset. injection Hset as <- _.
  apply bind_inv in Hbody as (w2 & missing & Hmissing & Hbody).
  apply GenericFacts.lift_inv in Hmissing as [-> Hmissing].
  destruct missing as [field |].
  { apply bind_inv in Hbody as (w2 & u2 & _ & Hbody). discriminate Hbody. }
  assert (Hw' : self w' = mkBenchmark (test_def_path (self w)) td
                                      (results_dir (self w)) (hector_bin (self w))
                /\ files w' = files w /\ events w' = events w).
  { repeat (apply bind_inv in Hbody as (?w & ?a & ?Hstep & Hbody); cbv beta in Hbody).
    repeat match goal with
           | Hs : lift _ _ = _ |- _ => apply GenericFacts.lift_inv in Hs as [-> _]
           | Hs : print _ _ = _ |- _ => unfold print in Hs; injection Hs as <- _
           end.
    unfold ret in Hbody. injection Hbody as <-. simpl. auto. }
  destruct Hw' as (Hself & Hfiles & Hevents).
  split; [| auto]. rewrite Hself. simpl test_def.
  exact (first_missing_none td _ Hmissing).
Qed.

(** When the definition is a JSON object that lacks a required field,
    the loader names the first missing field, in the order [test_name],
    [description], [variants], [scenarios], and returns [False]. *)
Theorem load_test_definition_missing_field (w : world) (d : dict)
        (y : option value) (field : string) :
  file_lookup (files w) (test_def_path (self w)) = Some (OnDisk (Some (VDict d)) y) ->
  find (fun f => negb (dict_mem d (VStr f)))
       ["test_name"; "description"; "variants"; "scenarios"] = Some field ->
  load_test_definition w
  = (mkWorld (stdout w ++ [("❌ Missing required field: " ++ field)%string])
             (files w) (events w) (calls w)
             (mkBenchmark (test_def_path (self w)) (VDict d) (results_dir (self w))
                          (hector_bin (self w))),
     Ok false).
Proof.
  intros Hfile Hfind. unfold GenericBenchmark.load_test_definition.
  unfold bind at 1, get_self. unfold bind at 1, exists_. rewrite Hfile. cbn [negb].
  unfold try_except, try_catch.
  unfold bind at 1, json_load. rewrite Hfile.
  unfold bind at 1, set_self. cbn [self files stdout events calls].
  rewrite first_missing_find, Hfind, bind_ok.
  reflexivity.
Qed.

End Loader.

Lemma load_test_definition_true_witness :
  (forall f, In f ["test_name"; "description"; "variants"; "scenarios"] ->
             contains_key
               (test_def (self (fst (load_test_definition plain_format loaded_disk))))
               f = Ok true) /\
  files (fst (load_test_definition plain_format loaded_disk)) = files loaded_disk /\
  events (fst (load_test_definition plain_format loaded_disk)) = events loaded_disk.
Proof.
  apply (load_test_definition_true plain_format loaded_disk).
  reflexivity.
Defined.

Lemma load_test_definition_missing_field_witness :
  load_test_definition plain_format incomplete_disk
  = (mkWorld ["❌ Missing required field: scenarios"]
             (files incomplete_disk) [] 0
             (mkBenchmark "tests/incomplete.json" (VDict incomplete_definition)
                          "results/generic" "../hector"),
     Ok false).
Proof.
  apply (load_test_definition_missing_field plain_format incomplete_disk
           incomplete_definition None "scenarios"); reflexivity.
Defined.

(** ** Running a scenario *)

(** The keyword loop on a list of strings: the verdict so far survives
    exactly when every keyword is found. *)
Lemma check_keywords_strings (ks : list string) (output : string) (success : bool) :
  check_keywords (map VStr ks) output success = Ok (success && keywords_found ks output).
Proof.
  induction ks as [| k ks IH]; simpl.
  - rewrite andb_true_r. reflexivity.
  - destruct (str_contains (lower k) (lower output)); simpl.
    + exact IH.
    + rewrite andb_false_r. reflexivity.
Qed.

Section Scenarios.

Variable re_search : regex_engine.
Variable py_format : formatter.
Variable spawn_server : nat -> list string -> option string.
Variable call_subject : nat -> list string -> child.

Local Abbreviation run_scenario :=
  (run_scenario re_search py_format spawn_server call_subject).
Local Abbreviation call_and_measure := (call_and_measure re_search call_subject).

(** The [try] block issues at most one event, the call itself. *)
Lemma call_and_measure_events (me : benchmark)
      (variant scenario sname prompt agent : value) (w0 w1 : world) (r : result value) :
  call_and_measure me variant scenario sname prompt agent w0 = (w1, r) ->
  events w1 = events w0 \/ exists argv, events w1 = events w0 ++ [EvRun argv 60].
Proof.
  unfold GenericBenchmark.call_and_measure.
  destruct (as_str agent) as [a | e]; [| intros H; injection H as <- _; now left].
  rewrite bind_ok.
  destruct (as_str prompt) as [p | e]; [| intros H; injection H as <- _; now left].
  rewrite bind_ok.
  unfold bind at 1, tick. unfold bind at 1, emit. cbn [calls self events stdout files].
  intros H. right. exists [hector_bin me; "call"; a; p].
  match type of H with
  | ?m ?w = _ => assert (Hq : quiet m)
  end.
  { apply GenericFacts.quiet_bind; [apply GenericFacts.quiet_lift |].
    intros [[output rc] d].
    GenericFacts.quiet_steps.
    match goal with |- quiet (if ?c then _ else _) => destruct c end;
      GenericFacts.quiet_steps. }
  apply Hq in H. exact H.
Qed.

(** Every server that [run_scenario] launches is terminated and waited
    for, whatever the call does (answer, timeout, or any exception): the
    events of a run are the launch, at most one call, and the two
    clean-up events.  The function ends without stopping a server only by
    raising before one was launched. *)
Theorem run_scenario_stops_every_server (variant scenario agent_name : value)
        (config_path : string) (w w' : world) (r : result value) :
  run_scenario variant scenario config_path agent_name w = (w', r) ->
  (exists log argv mid,
      events w'
      = events w ++ [EvWrite log LogFile; EvPopen argv log; EvSleep 3] ++ mid
                 ++ [EvTerminate; EvWait] /\
      (mid = [] \/ exists call, mid = [EvRun call 60]))
  \/ ((exists e, r = Raise e) /\
      (events w' = events w \/ exists log, events w' = events w ++ [EvWrite log LogFile])).
Proof.
  unfold GenericBenchmark.run_scenario.
  unfold bind at 1, get_self.
  destruct (getitem scenario "name") as [sname | e];
    [rewrite bind_ok | intros H; injection H as <- <-; right; eauto].
  destruct (getitem scenario "prompt") as [prompt | e];
    [rewrite bind_ok | intros H; injection H as <- <-; right; eauto].
  unfold bind at 1, print.
  destruct (getitem variant "name") as [vname | e];
    [rewrite bind_ok | intros H; injection H as <- <-; right; eauto].
  unfold bind at 1, write_file.
  unfold bind at 1, tick. cbn [calls self add_stdout written events stdout files].
  destruct (spawn_server _ _) as [msg |].
  - intros H. injection H as <- <-. right. split; [eauto |]. right.
    cbn [events]. eauto.
  - unfold bind at 1 2, emit at 1 2. cbn [calls self events stdout files].
    unfold try_finally, try_catch.
    match goal with
    | |- context [GenericBenchmark.call_and_measure _ _ ?me _ _ _ _ _ ?w0] =>
      destruct (call_and_measure me variant scenario sname prompt agent_name w0)
        as [w1 r1] eqn:Hcm
    end.
    apply call_and_measure_events in Hcm. cbn [events] in Hcm.
    assert (Hend : forall r2 : result value,
               (let (w'', r0) := (emit EvTerminate ;;; emit EvWait) w1 in
                match r0 with
                | Ok _ => (w'', r2)
                | Raise e => (w'', Raise e)
                end) = (w', r) ->
               events w' = events w1 ++ [EvTerminate; EvWait]).
    { intros r2 H. unfold bind, emit in H. cbn [calls self events stdout files] in H.
      injection H as <- _. cbn [events]. rewrite <- app_assoc. reflexivity. }
    intros H. left.
    assert (Hev : events w' = events w1 ++ [EvTerminate; EvWait]).
    { destruct r1 as [a | e].
      - exact (Hend _ H).
      - destruct (is_TimeoutExpired e).
        + rewrite bind_ok in H. exact (Hend _ H).
        + exact (Hend _ H). }
    rewrite Hev. do 2 eexists.
    destruct Hcm as [-> | [call ->]].
    + exists []. split; [| now left]. rewrite <- !app_assoc. reflexivity.
    + exists [EvRun call 60]. split; [| right; eauto].
      rewrite <- !app_assoc. reflexivity.
Qed.


(** When the server cannot be launched, [run_scenario] raises the error
    of [subprocess.Popen]: the log file has been created by then (it is
    opened to build the arguments of the launch), no call is made and
    nothing is terminated. *)
Theorem run_scenario_launch_failure (variant scenario sname prompt vname agent_name : value)
        (config_path msg : string) (w : world) :
  getitem scenario "name" = Ok sname ->
  getitem scenario "prompt" = Ok prompt ->
  getitem variant "name" = Ok vname ->
  spawn_server (calls w) [hector_bin (self w); "serve"; "--config"; config_path]
  = Some msg ->
  exists w' log,
    run_scenario variant scenario config_path agent_name w
    = (w', Raise (Exc FileNotFoundError msg)) /\
    files w' = (log, LogFile) :: files w /\
    events w' = events w ++ [EvWrite log LogFile].
Proof.
  intros Hsname Hprompt Hvname Hspawn.
  unfold GenericBenchmark.run_scenario.
  unfold bind at 1, get_self.
  rewrite Hsname, bind_ok, Hprompt, bind_ok.
  unfold bind at 1, print. rewrite Hvname, bind_ok.
  unfold bind at 1, write_file.
  unfold bind at 1, tick. cbn [calls self add_stdout written].
  rewrite Hspawn. unfold bind, raise.
  do 2 eexists. split; [reflexivity |]. split; reflexivity.
Qed.

(** Only the timeout of the call is handled: when the subject binary
    cannot be started, its error leaves [run_scenario] and no record is
    returned; the server is terminated first. *)
Theorem run_scenario_call_failure (variant scenario sname vname : value)
        (prompt agent config_path msg : string) (w : world) :
  getitem scenario "name" = Ok sname ->
  getitem scenario "prompt" = Ok (VStr prompt) ->
  getitem variant "name" = Ok vname ->
  spawn_server (calls w) [hector_bin (self w); "serve"; "--config"; config_path] = None ->
  call_subject (S (calls w)) [hector_bin (self w); "call"; agent; prompt]
  = CannotStart msg ->
  exists w' log,
    run_scenario variant scenario config_path (VStr agent) w
    = (w', Raise (Exc FileNotFoundError msg)) /\
    events w'
    = events w
      ++ [EvWrite log LogFile;
          EvPopen [hector_bin (self w); "serve"; "--config"; config_path] log;
          EvSleep 3;
          EvRun [hector_bin (self w); "call"; agent; prompt] 60;
          EvTerminate; EvWait].
Proof.
  intros Hsname Hprompt Hvname Hspawn Hcall.
  unfold GenericBenchmark.run_scenario.
  unfold bind at 1, get_self.
  rewrite Hsname, bind_ok, Hprompt, bind_ok.
  unfold bind at 1, print. rewrite Hvname, bind_ok.
  unfold bind at 1, write_file.
  unfold bind at 1, tick. cbn [calls self add_stdout written].
  rewrite Hspawn.
  unfold bind at 1 2, emit at 1 2. cbn [calls self events stdout files].
  unfold try_finally, try_catch.
  unfold GenericBenchmark.call_and_measure. simpl as_str. rewrite !bind_ok.
  unfold bind at 1, tick. unfold bind at 1, emit. cbn [calls self events stdout files].
  rewrite Hcall. unfold subprocess_run.
  unfold bind at 1, lift at 1. cbn [is_TimeoutExpired].
  unfold ret, bind, emit. cbn [calls self events stdout files].
  do 2 eexists. split; [reflexivity |].
  unfold written, add_stdout. cbn [calls self events stdout files].
  rewrite <- !app_assoc. reflexivity.
Qed.

End Scenarios.

Lemma run_scenario_stops_every_server_witness :
  (exists log argv mid,
      events (fst (run_scenario sample_engine plain_format server_starts missing_subject
                     inline_variant echo_scenario
                     "results/generic/inline_openai_temp.yaml" (VStr "main") bench_world))
      = events bench_world ++ [EvWrite log LogFile; EvPopen argv log; EvSleep 3] ++ mid
                 ++ [EvTerminate; EvWait] /\
      (mid = [] \/ exists call, mid = [EvRun call 60]))
  \/ ((exists e,
          snd (run_scenario sample_engine plain_format server_starts missing_subject
                 inline_variant echo_scenario
                 "results/generic/inline_openai_temp.yaml" (VStr "main") bench_world)
          = Raise e) /\
      (events (fst (run_scenario sample_engine plain_format server_starts missing_subject
                      inline_variant echo_scenario
                      "results/generic/inline_openai_temp.yaml" (VStr "main") bench_world))
       = events bench_world
       \/ exists log,
          events (fst (run_scenario sample_engine plain_format server_starts
                         missing_subject inline_variant echo_scenario
                         "results/generic/inline_openai_temp.yaml" (VStr "main")
                         bench_world))
          = events bench_world ++ [EvWrite log LogFile])).
Proof.
  apply (run_scenario_stops_every_server sample_engine plain_format server_starts
           missing_subject inline_variant echo_scenario (VStr "main")
           "results/generic/inline_openai_temp.yaml" bench_world).
  vm_compute. reflexivity.
Defined.


Lemma run_scenario_launch_failure_witness :
  exists w' log,
    run_scenario sample_engine plain_format server_missing sample_subject
      inline_variant echo_scenario "results/generic/inline_openai_temp.yaml"
      (VStr "main") bench_world
    = (w', Raise (Exc FileNotFoundError
                      "[Errno 2] No such file or directory: '/opt/hector/hector'")) /\
    files w' = (log, LogFile) :: files bench_world /\
    events w' = events bench_world ++ [EvWrite log LogFile].
Proof.
  apply (run_scenario_launch_failure sample_engine plain_format server_missing
           sample_subject inline_variant echo_scenario (VStr "echo-test")
           (VStr "say hello") (VStr "inline") (VStr "main")
           "results/generic/inline_openai_temp.yaml"
           "[Errno 2] No such file or directory: '/opt/hector/hector'" bench_world);
    reflexivity.
Defined.

Lemma run_scenario_call_failure_witness :
  exists w' log,
    run_scenario sample_engine plain_format server_starts missing_subject
      inline_variant echo_scenario "results/generic/inline_openai_temp.yaml"
      (VStr "main") bench_world
    = (w', Raise (Exc FileNotFoundError
                      "[Errno 2] No such file or directory: '/opt/hector/hector'")) /\
    events w'
    = events bench_world
      ++ [EvWrite log LogFile;
          EvPopen [hector_bin (self bench_world); "serve"; "--config";
                   "results/generic/inline_openai_temp.yaml"] log;
          EvSleep 3;
          EvRun [hector_bin (self bench_world); "call"; "main"; "say hello"] 60;
          EvTerminate; EvWait].
Proof.
  apply (run_scenario_call_failure sample_engine plain_format server_starts
           missing_subject inline_variant echo_scenario (VStr "echo-test")
           (VStr "inline") "say hello" "main" "results/generic/inline_openai_temp.yaml"
           "[Errno 2] No such file or directory: '/opt/hector/hector'" bench_world);
    reflexivity.
Defined.

(** ** The loops of [run_benchmark] *)

Section Loops.

Variable re_search : regex_engine.
Variable py_format : formatter.
Variable yaml_reload : value -> value.
Variable spawn_server : nat -> list string -> option string.
Variable call_subject : nat -> list string -> child.

Local Abbreviation run_iteration :=
  (run_iteration re_search py_format spawn_server call_subject).
Local Abbreviation run_provider :=
  (run_provider re_search py_format yaml_reload spawn_server call_subject).

(** A record added for [provider] at the iteration index [i]. *)
Local Abbreviation tagged provider :=
  (fun (record : value) (i : Z) =>
     getitem record "provider" = Ok provider /\
     getitem record "iteration" = Ok (VInt (i + 1))).

Lemma run_iteration_appends (variant provider scenario agent_name : value)
      (config_path : string) (acc rs : list value) (i : Z) (w w' : world) :
  run_iteration variant provider scenario config_path agent_name acc i w = (w', Ok rs) ->
  exists record, rs = acc ++ [record] /\ tagged provider record i.
Proof.
  intros H. unfold GenericBenchmark.run_iteration in H.
  apply bind_inv in H as (w1 & result & _ & H).
  apply bind_inv in H as (w2 & d & _ & H).
  apply bind_inv in H as (w3 & ok & _ & H).
  apply bind_inv in H as (w4 & name & _ & H).
  apply bind_inv in H as (w5 & elapsed & _ & H).
  apply bind_inv in H as (w6 & u & _ & H).
  unfold ret in H. injection H as _ <-.
  eexists. split; [reflexivity |]. split.
  - unfold getitem. rewrite dict_get_set_other by discriminate.
    rewrite dict_get_set_same. reflexivity.
  - unfold getitem. rewrite dict_get_set_same. reflexivity.
Qed.

Lemma iterations_append (variant provider scenario agent_name : value)
      (config_path : string) (indices : list Z) :
  forall (acc rs : list value) (w w' : world),
    fold_m indices (run_iteration variant provider scenario config_path agent_name) acc w
    = (w', Ok rs) ->
    exists added, rs = acc ++ added /\ Forall2 (tagged provider) added indices.
Proof.
  induction indices as [| i indices IH]; intros acc rs w w' H.
  - injection H as _ <-. exists []. rewrite app_nil_r. split; [reflexivity | constructor].
  - cbn [fold_m] in H. apply bind_inv in H as (w1 & acc1 & Hstep & H).
    apply run_iteration_appends in Hstep as (record & -> & Htag).
    apply IH in H as (added & -> & Hall).
    exists (record :: added). rewrite <- app_assoc. split; [reflexivity |].
    constructor; assumption.
Qed.

Lemma py_range_indices (iterations : value) (indices : list Z) :
  py_range iterations = Ok indices ->
  exists n, as_int iterations = Some n /\
            indices = map Z.of_nat (seq 0 (Z.to_nat n)).
Proof.
  unfold py_range. destruct (as_int iterations) as [n |]; [| discriminate].
  intros H. injection H as <-. eauto.
Qed.

Lemma nth_error_indices (m k : nat) (i : Z) :
  nth_error (map Z.of_nat (seq 0 m)) k = Some i -> i = Z.of_nat k /\ (k < m)%nat.
Proof.
  intros H. rewrite nth_error_map in H.
  destruct (nth_error (seq 0 m) k) as [j |] eqn:E; [| discriminate].
  injection H as <-.
  assert (Hk : (k < List.length (seq 0 m))%nat)
    by (apply nth_error_Some; rewrite E; discriminate).
  rewrite length_seq in Hk.
  rewrite (nth_error_nth' _ 0%nat) in E by (rewrite length_seq; exact Hk).
  rewrite seq_nth in E by exact Hk. injection E as <-. split; [reflexivity | exact Hk].
Qed.

Lemma Forall2_nth_error {A B} (R : A -> B -> Prop) (l : list A) (l' : list B) :
  Forall2 R l l' ->
  forall k a, nth_error l k = Some a -> exists b, nth_error l' k = Some b /\ R a b.
Proof.
  induction 1 as [| x y l l' Hxy _ IH]; intros k a Hk.
  - destruct k; discriminate.
  - destruct k as [| k]; simpl in Hk.
    + injection Hk as <-. exists y. split; [reflexivity | exact Hxy].
    + exact (IH k a Hk).
Qed.

(** The loop [for i in range(iterations)] around one scenario: when it
    completes, it has appended exactly [iterations] records to the
    results it started from (none when [iterations] is zero or negative),
    in the order of the iterations, the [k]-th of them numbered [k + 1]
    and tagged with the provider. *)
Theorem iterations_numbered_in_order (variant provider scenario agent_name iterations : value)
        (config_path : string) (indices : list Z) (acc rs : list value) (w w' : world) :
  py_range iterations = Ok indices ->
  fold_m indices (run_iteration variant provider scenario config_path agent_name) acc w
  = (w', Ok rs) ->
  exists n added,
    as_int iterations = Some n /\
    rs = acc ++ added /\
    List.length added = Z.to_nat n /\
    forall k record,
      nth_error added k = Some record ->
      getitem record "provider" = Ok provider /\
      getitem record "iteration" = Ok (VInt (Z.of_nat k + 1)).
Proof.
  intros Hrange H.
  apply py_range_indices in Hrange as (n & Hn & ->).
  apply iterations_append in H as (added & -> & Hall).
  exists n, added. repeat split; try assumption; try reflexivity.
  - rewrite (Forall2_length Hall), length_map, length_seq. reflexivity.
  - destruct (Forall2_nth_error _ _ _ Hall k record H) as (i & Hi & Htag).
    apply Htag.
  - destruct (Forall2_nth_error _ _ _ Hall k record H) as (i & Hi & Htag).
    apply nth_error_indices in Hi as [-> _]. apply Htag.
Qed.

Lemma scenarios_append (variant provider agent_name iterations : value)
      (config_path : string) (scenarios : list value) :
  forall (acc rs : list value) (w w' : world),
    fold_m scenarios
      (fun all_results scenario =>
         indices <- lift (py_range iterations) ;;
         fold_m indices
           (run_iteration variant provider scenario config_path agent_name)
           all_results)
      acc w
    = (w', Ok rs) ->
    exists added,
      rs = acc ++ added /\
      Forall (fun record => exists i, tagged provider record i /\
                                      exists n, as_int iterations = Some n /\
                                                (0 <= i < n)%Z)
             added.
Proof.
  induction scenarios as [| scenario scenarios IH]; intros acc rs w w' H.
  - injection H as _ <-. exists []. rewrite app_nil_r. split; [reflexivity | constructor].
  - cbn [fold_m] in H. apply bind_inv in H as (w1 & acc1 & Hstep & H).
    apply bind_inv in Hstep as (w0 & indices & Hrange & Hstep).
    apply GenericFacts.lift_inv in Hrange as [-> Hrange].
    apply py_range_indices in Hrange as (n & Hn & ->).
    apply iterations_append in Hstep as (added1 & -> & Hall1).
    apply IH in H as (added2 & -> & Hall2).
    exists (added1 ++ added2). rewrite <- app_assoc. split; [reflexivity |].
    apply Forall_app. split; [| exact Hall2].
    apply Forall_forall. intros record Hin.
    apply In_nth_error in Hin as [k Hk].
    destruct (Forall2_nth_error _ _ _ Hall1 k record Hk) as (i & Hi & Htag).
    apply nth_error_indices in Hi as [-> Hlt].
    exists (Z.of_nat k). split; [exact Htag |]. exists n. split; [exact Hn |]. lia.
Qed.

(** What [run_provider] does to the list of results: the records it was
    given stay where they are, none is dropped, changed or reordered, and
    each record it adds carries the provider and an iteration number
    between 1 and [iterations]. *)
Theorem run_provider_extends_results (iterations variant provider : value)
        (all_results rs : list value) (w w' : world) :
  run_provider iterations variant all_results provider w = (w', Ok rs) ->
  exists added,
    rs = all_results ++ added /\
    forall record,
      In record added ->
      getitem record "provider" = Ok provider /\
      exists k n, getitem record "iteration" = Ok (VInt k) /\
                  as_int iterations = Some n /\ (1 <= k <= n)%Z.
Proof.
  intros H. unfold GenericBenchmark.run_provider in H.
  apply bind_inv in H as (w1 & u & _ & H).
  apply bind_inv in H as (w2 & config_path & _ & H).
  destruct config_path as [config_path |].
  - apply bind_inv in H as (w3 & config & _ & H).
    apply bind_inv in H as (w4 & agents & _ & H).
    apply bind_inv in H as (w5 & agent_name & _ & H).
    apply bind_inv in H as (w6 & me & _ & H).
    apply bind_inv in H as (w7 & scenarios & _ & H).
    apply bind_inv in H as (w8 & scs & _ & H).
    apply scenarios_append in H as (added & -> & Hall).
    exists added. split; [reflexivity |].
    intros record Hin. rewrite Forall_forall in Hall.
    destruct (Hall record Hin) as (i & [Hp Hi] & n & Hn & Hrange).
    split; [exact Hp |]. exists (i + 1)%Z, n. split; [exact Hi |].
    split; [exact Hn | lia].
  - apply bind_inv in H as (w3 & u3 & _ & H).
    unfold ret in H. injection H as _ <-.
    exists []. rewrite app_nil_r. split; [reflexivity |]. intros record [].
Qed.

(** A variant whose configuration file does not exist is skipped for the
    provider: two warning lines are printed after the provider line, the
    results are returned as they were, no file is written and no process
    is launched. *)
Theorem run_provider_skips_missing_config (iterations variant provider : value)
        (config_file : string) (all_results : list value) (w : world) :
  get variant "config" VNone = Ok (VStr config_file) ->
  file_lookup (files w) config_file = None ->
  run_provider iterations variant all_results provider w
  = (add_stdout [("   Provider: " ++ py_format provider "")%string;
                 ("⚠️  Config file not found: " ++ config_file)%string;
                 "   ⚠️  Failed to prepare config, skipping"] w,
     Ok all_results).
Proof.
  intros Hget Hfile.
  assert (Hprep : forall w1,
             files w1 = files w ->
             prepare_variant_config py_format yaml_reload variant provider w1
             = (add_stdout [("⚠️  Config file not found: " ++ config_file)%string] w1,
                Ok None)).
  { intros w1 Hfiles. unfold GenericBenchmark.prepare_variant_config.
    unfold bind at 1, get_self. rewrite Hget, bind_ok.
    unfold bind at 1, exists_. rewrite Hfiles, Hfile. reflexivity. }
  unfold GenericBenchmark.run_provider.
  unfold bind at 1, print.
  match goal with
  | |- context [bind (GenericBenchmark.prepare_variant_config _ _ _ _) _ ?w1] =>
    rewrite (bind_run _ (Hprep w1 eq_refl))
  end.
  unfold bind, print, ret. rewrite !add_stdout_twice. reflexivity.
Qed.

End Loops.

Lemma iterations_numbered_in_order_witness :
  exists n added,
    as_int (VInt 2) = Some n /\
    [answered_record; timed_out_record] = [] ++ added /\
    List.length added = Z.to_nat n /\
    forall k record,
      nth_error added k = Some record ->
      getitem record "provider" = Ok (VStr "openai") /\
      getitem record "iteration" = Ok (VInt (Z.of_nat k + 1)).
Proof.
  apply (iterations_numbered_in_order
           sample_engine plain_format server_starts sample_subject
           inline_variant (VStr "openai") echo_scenario (VStr "main") (VInt 2)
           "results/generic/inline_openai_temp.yaml" [0; 1]%Z []
           [answered_record; timed_out_record] bench_world
           (fst (fold_m [0; 1]%Z
                   (run_iteration sample_engine plain_format server_starts
                      sample_subject inline_variant (VStr "openai") echo_scenario
                      "results/generic/inline_openai_temp.yaml" (VStr "main"))
                   [] bench_world))).
  - reflexivity.
  - vm_compute. reflexivity.
Defined.

Lemma run_provider_extends_results_witness :
  exists added,
    [answered_record; timed_out_record] = [] ++ added /\
    forall record,
      In record added ->
      getitem record "provider" = Ok (VStr "openai") /\
      exists k n, getitem record "iteration" = Ok (VInt k) /\
                  as_int (VInt 2) = Some n /\ (1 <= k <= n)%Z.
Proof.
  apply (run_provider_extends_results
           sample_engine plain_format (fun v => v) server_starts sample_subject
           (VInt 2) inline_variant (VStr "openai") []
           [answered_record; timed_out_record] ready_world
           (fst (run_provider sample_engine plain_format (fun v => v) server_starts
                   sample_subject (VInt 2) inline_variant [] (VStr "openai")
                   ready_world))).
  vm_compute. reflexivity.
Defined.

Lemma run_provider_skips_missing_config_witness :
  run_provider sample_engine plain_format (fun v => v) server_starts sample_subject
               (VInt 2) lost_variant [answered_record] (VStr "openai") ready_world
  = (add_stdout ["   Provider: openai";
                 "⚠️  Config file not found: configs/none.yaml";
                 "   ⚠️  Failed to prepare config, skipping"] ready_world,
     Ok [answered_record]).
Proof.
  apply (run_provider_skips_missing_config
           sample_engine plain_format (fun v => v) server_starts sample_subject
           (VInt 2) lost_variant (VStr "openai") "configs/none.yaml"
           [answered_record] ready_world); reflexivity.
Defined.

(** ** A run without results *)

Section EmptyRun.

Variable re_search : regex_engine.
Variable py_format : formatter.
Variable yaml_reload : value -> value.
Variable timestamp : string.
Variable spawn_server : nat -> list string -> option string.
Variable call_subject : nat -> list string -> child.
Variable set_order : list value -> list value.
Hypothesis set_order_perm : forall l, Permutation (set_order l) l.

Local Abbreviation prepare_variant_config :=
  (prepare_variant_config py_format yaml_reload).
Local Abbreviation run_provider :=
  (run_provider re_search py_format yaml_reload spawn_server call_subject).
Local Abbreviation run_variant :=
  (run_variant re_search py_format yaml_reload spawn_server call_subject).
Local Abbreviation run_benchmark :=
  (run_benchmark re_search py_format yaml_reload timestamp spawn_server call_subject
                 set_order).
Local Abbreviation generate_summary := (generate_summary py_format set_order).

Lemma set_order_nil : set_order [] = [].
Proof. apply Permutation_nil. symmetry. apply set_order_perm. Qed.

(** With no record, the summary is empty, it is saved, and the selection
    of the best variant fails on the empty list of variants. *)
Lemma generate_summary_nil (run_dir : string) (metric : string) (w : world) :
  primary_metric_of (test_def (self w)) = Ok (VStr metric) ->
  In metric ["quality"; "cost"; "speed"] ->
  exists before after msg,
    generate_summary [] run_dir w
    = (add_stdout after
         (written (path_div run_dir "summary.json") (JsonDump (VDict []))
                  (add_stdout before w)),
       Raise (Exc ValueError msg)).
Proof.
  intros Hmetric Hin. unfold GenericBenchmark.generate_summary.
  unfold bind at 1, print. unfold bind at 1, print. unfold bind at 1, print.
  cbn [variant_names]. rewrite bind_ok. cbn [dedup]. rewrite set_order_nil.
  unfold bind at 1, print. unfold bind at 1, print.
  cbn [fold_m]. rewrite bind_ret.
  unfold bind at 1, write_file.
  unfold bind at 1, print. unfold bind at 1, print.
  unfold bind at 1, get_self.
  rewrite !add_stdout_twice.
  match goal with
  | |- context [written ?p ?f (add_stdout ?l w)] =>
    change (self (add_stdout _ (written p f (add_stdout l w)))) with (self w)
  end.
  unfold primary_metric_of in Hmetric.
  destruct (get (test_def (self w)) "metrics" (VDict [])) as [metrics | e];
    [| discriminate Hmetric].
  cbn [rbind] in Hmetric. rewrite bind_ok, Hmetric, bind_ok.
  assert (Hbest : exists msg, best_variant (VStr metric) [] [] = Raise (Exc ValueError msg)).
  { destruct Hin as [<- | [<- | [<- | []]]]; eexists; reflexivity. }
  destruct Hbest as [msg Hbest]. rewrite Hbest.
  do 3 eexists. reflexivity.
Qed.

(** [generate_summary] on an empty list of results: it saves an empty
    summary and then raises [ValueError], because [max] (or [min]) is
    applied to the empty list of variants. *)
Theorem generate_summary_without_results (run_dir : string) (metric : string)
        (w : world) :
  primary_metric_of (test_def (self w)) = Ok (VStr metric) ->
  In metric ["quality"; "cost"; "speed"] ->
  exists w' msg,
    generate_summary [] run_dir w = (w', Raise (Exc ValueError msg)) /\
    files w' = (path_div run_dir "summary.json", JsonDump (VDict [])) :: files w /\
    events w'
    = events w ++ [EvWrite (path_div run_dir "summary.json") (JsonDump (VDict []))].
Proof.
  intros Hmetric Hin.
  destruct (generate_summary_nil run_dir metric w Hmetric Hin)
    as (before & after & msg & Hrun).
  rewrite Hrun. do 2 eexists. split; [reflexivity |]. split; reflexivity.
Qed.

(** A variant whose configuration file is missing is not materialised. *)
Lemma prepare_missing_file (variant provider : value) (config_file : string) (w : world) :
  get variant "config" VNone = Ok (VStr config_file) ->
  file_lookup (files w) config_file = None ->
  prepare_variant_config variant provider w
  = (add_stdout [("⚠️  Config file not found: " ++ config_file)%string] w, Ok None).
Proof.
  intros Hget Hfile. unfold GenericBenchmark.prepare_variant_config.
  unfold bind at 1, get_self. rewrite Hget, bind_ok.
  unfold bind at 1, exists_. rewrite Hfile. reflexivity.
Qed.

Lemma providers_all_skipped (iterations variant : value) (config_file : string)
      (acc : list value) (providers : list value) :
  get variant "config" VNone = Ok (VStr config_file) ->
  forall w,
    file_lookup (files w) config_file = None ->
    exists lines,
      fold_m providers (run_provider iterations variant) acc w
      = (add_stdout lines w, Ok acc).
Proof.
  intros Hget. induction providers as [| provider providers IH]; intros w Hfile.
  - exists []. cbn [fold_m]. unfold ret, add_stdout. rewrite app_nil_r.
    destruct w; reflexivity.
  - cbn [fold_m].
    assert (Hstep : exists lines,
               run_provider iterations variant acc provider w
               = (add_stdout lines w, Ok acc)).
    { unfold GenericBenchmark.run_provider. unfold bind at 1, print.
      match goal with
      | |- context [bind (GenericBenchmark.prepare_variant_config _ _ _ _) _ ?w1] =>
        rewrite (bind_run _ (prepare_missing_file variant provider config_file w1
                               Hget Hfile))
      end.
      unfold bind, print, ret. rewrite !add_stdout_twice. eauto. }
    destruct Hstep as [lines1 Hstep]. rewrite (bind_run _ Hstep).
    destruct (IH (add_stdout lines1 w) Hfile) as [lines2 Hrest].
    rewrite Hrest, add_stdout_twice. eauto.
Qed.

Lemma run_variant_skipped (providers iterations variant : value) (ps acc : list value)
      (w : world) :
  py_iter providers = Ok ps ->
  config_file_missing (files w) variant = true ->
  exists lines,
    run_variant providers iterations acc variant w = (add_stdout lines w, Ok acc).
Proof.
  intros Hps Hmissing. unfold config_file_missing in Hmissing.
  destruct variant as [| | | | | | d]; try discriminate Hmissing.
  apply andb_true_iff in Hmissing as [Hname Hconfig].
  unfold dict_mem in Hname.
  destruct (dict_get d (VStr "name")) as [name |] eqn:Ename; [| discriminate Hname].
  destruct (dict_get d (VStr "config")) as [[| | | | p | |] |] eqn:Econfig;
    try discriminate Hconfig.
  destruct (file_lookup (files w) p) eqn:Efile; [discriminate Hconfig |].
  assert (Hget : get (VDict d) "config" VNone = Ok (VStr p))
    by (unfold get; rewrite Econfig; reflexivity).
  unfold GenericBenchmark.run_variant.
  unfold getitem at 1. rewrite Ename, bind_ok.
  unfold bind at 1, print.
  cbn [contains_key]. rewrite bind_ok.
  assert (Hdescr : exists lines0,
             (if dict_mem d (VStr "description")
              then d0 <- lift (getitem (VDict d) "description") ;;
                   print ("   " ++ py_format d0 "")
              else ret tt)
               (add_stdout [(nl ++ "🧪 Testing variant: " ++ py_format name "")%string] w)
             = (add_stdout lines0 w, Ok tt)).
  { unfold dict_mem, getitem.
    destruct (dict_get d (VStr "description")) as [descr |].
    - rewrite bind_ok. unfold print. rewrite add_stdout_twice. eauto.
    - unfold ret. eauto. }
  destruct Hdescr as [lines0 Hdescr]. rewrite (bind_run _ Hdescr).
  rewrite Hps, bind_ok.
  destruct (providers_all_skipped iterations (VDict d) p acc ps Hget
              (add_stdout lines0 w) Efile) as [lines Hrun].
  rewrite Hrun, add_stdout_twice. eauto.
Qed.

Lemma variants_all_skipped (providers iterations : value) (ps acc : list value)
      (variants : list value) :
  py_iter providers = Ok ps ->
  forall w,
    forallb (config_file_missing (files w)) variants = true ->
    exists lines,
      fold_m variants (run_variant providers iterations) acc w
      = (add_stdout lines w, Ok acc).
Proof.
  intros Hps. induction variants as [| variant variants IH]; intros w Hall.
  - exists []. cbn [fold_m]. unfold ret, add_stdout. rewrite app_nil_r.
    destruct w; reflexivity.
  - cbn [forallb] in Hall. apply andb_true_iff in Hall as [Hv Hall].
    cbn [fold_m].
    destruct (run_variant_skipped providers iterations variant ps acc w Hps Hv)
      as [lines1 Hstep].
    rewrite (bind_run _ Hstep).
    destruct (IH (add_stdout lines1 w) Hall) as [lines2 Hrest].
    rewrite Hrest, add_stdout_twice. eauto.
Qed.


End EmptyRun.

Lemma generate_summary_without_results_witness :
  exists w' msg,
    generate_summary plain_format (fun l => l) [] "results/generic/run_1" ready_world
    = (w', Raise (Exc ValueError msg)) /\
    files w'
    = (path_div "results/generic/run_1" "summary.json", JsonDump (VDict []))
        :: files ready_world /\
    events w'
    = events ready_world
      ++ [EvWrite (path_div "results/generic/run_1" "summary.json")
                  (JsonDump (VDict []))].
Proof.
  apply (generate_summary_without_results plain_format (fun l => l)
           (fun l => Permutation_refl l) "results/generic/run_1" "quality" ready_world).
  - reflexivity.
  - simpl. left. reflexivity.
Defined.


(** ** Overrides in the materialised configuration *)

Section Overrides.

Variable py_format : formatter.
Variable yaml_reload : value -> value.

Local Abbreviation prepare_variant_config :=
  (prepare_variant_config py_format yaml_reload).

(** The override declared last is in force in the configuration that
    [prepare_variant_config] writes: reading the written document along
    the dotted path of that override yields its value, whatever the base
    configuration held and whatever the earlier overrides did. *)
Theorem prepare_applies_last_override (vd earlier : dict) (config_file path p : string)
        (v provider : value) (w w' : world) :
  dict_get vd (VStr "config") = Some (VStr config_file) ->
  dict_get vd (VStr "config_overrides") = Some (VDict (earlier ++ [(VStr path, v)])) ->
  prepare_variant_config (VDict vd) provider w = (w', Ok (Some p)) ->
  exists config,
    file_lookup (files w') p = Some (YamlDump config) /\
    get_nested config (split_on "." path) = Some v.
Proof.
  intros Hconfig Hoverrides H.
  unfold GenericBenchmark.prepare_variant_config in H.
  apply bind_inv in H as (w1 & me & Hme & H).
  unfold get_self in Hme. injection Hme as <- <-.
  unfold get at 1 in H. rewrite Hconfig, bind_ok in H.
  apply bind_inv in H as (w1 & found & Hfound & H).
  unfold exists_ in Hfound. injection Hfound as <- _.
  destruct found; cbn [negb] in H.
  2: { apply bind_inv in H as (w1 & u & _ & H). discriminate H. }
  unfold contains_key, dict_mem in H. rewrite Hoverrides, bind_ok in H.
  apply bind_inv in H as (w1 & config0 & Hload & H).
  assert (w1 = w) as ->.
  { unfold yaml_load in Hload.
    destruct (file_lookup (files w) config_file) as [[c | c | | j [y |]] |];
      try discriminate Hload; injection Hload as <- _; reflexivity. }
  unfold getitem at 1 in H. rewrite Hoverrides, bind_ok in H.
  cbn [items] in H. rewrite bind_ok in H.
  apply bind_inv in H as (w1 & config & Hfold & H).
  apply GenericFacts.lift_inv in Hfold as [-> Hfold].
  rewrite fold_left_app in Hfold. cbn [fold_left fst snd] in Hfold.
  destruct (fold_left _ earlier (Ok config0)) as [c |]; [| discriminate Hfold].
  cbn [rbind] in Hfold. unfold _set_nested_key in Hfold.
  apply set_nested_get in Hfold.
  apply bind_inv in H as (w1 & name & Hname & H).
  apply GenericFacts.lift_inv in Hname as [-> _].
  apply bind_inv in H as (w1 & u & Hwrite & H).
  unfold write_file in Hwrite. injection Hwrite as <- _.
  unfold ret in H. injection H as <- <-.
  exists config. split; [| exact Hfold].
  unfold written. cbn [files file_lookup]. rewrite String.eqb_refl. reflexivity.
Qed.

End Overrides.

Lemma prepare_applies_last_override_witness :
  exists config,
    file_lookup
      (files (fst (prepare_variant_config plain_format (fun v => v) tuned_variant
                     (VStr "openai") bench_world)))
      "results/generic/tuned_openai_temp.yaml"
    = Some (YamlDump config) /\
    get_nested config (split_on "." "agents.main.temperature") = Some (VInt 0).
Proof.
  apply (prepare_applies_last_override plain_format (fun v => v)
           [(VStr "name", VStr "tuned");
            (VStr "config", VStr "configs/base.yaml");
            (VStr "config_overrides",
             VDict [(VStr "agents.main.temperature", VInt 0)])]
           [] "configs/base.yaml" "agents.main.temperature"
           "results/generic/tuned_openai_temp.yaml" (VInt 0) (VStr "openai")
           bench_world); reflexivity.
Defined.

(** ** The summary counts every record once *)

Lemma Zsum_app (l l' : list Z) : Zsum (l ++ l') = (Zsum l + Zsum l')%Z.
Proof. unfold Zsum. induction l as [| x l IH]; simpl; lia. Qed.

Lemma Zsum_cons (x : Z) (l : list Z) : Zsum (x :: l) = (x + Zsum l)%Z.
Proof. reflexivity. Qed.

Lemma Zsum_nil : Zsum [] = 0%Z.
Proof. reflexivity. Qed.

Lemma dict_set_absent (d : dict) (k v : value) :
  dict_get d k = None -> dict_set d k v = d ++ [(k, v)].
Proof.
  induction d as [| [k0 v0] rest IH]; simpl; intros H; [reflexivity |].
  destruct (py_eq k0 k); [discriminate H |]. rewrite (IH H). reflexivity.
Qed.

Lemma dict_get_app_absent (d : dict) (k u v : value) :
  dict_get d u = None -> py_eq k u = false -> dict_get (d ++ [(k, v)]) u = None.
Proof.
  intros Hd Hk. induction d as [| [k0 v0] rest IH]; simpl in *.
  - rewrite Hk. reflexivity.
  - destruct (py_eq k0 u); [discriminate Hd | exact (IH Hd)].
Qed.

Lemma py_eq_strings (a b : string) : py_eq (VStr a) (VStr b) = String.eqb a b.
Proof. reflexivity. Qed.

(** The number of list elements equal to a given string is 0 when the
    string is not in the list, and 1 when it is in a list without
    repetitions. *)
Lemma occurrences_absent (s : string) (l : list string) :
  ~ In s l -> Zsum (map (fun t => if String.eqb s t then 1 else 0)%Z l) = 0%Z.
Proof.
  unfold Zsum. induction l as [| t l IH]; simpl; intros Hn; [reflexivity |].
  destruct (String.eqb_spec s t) as [-> | Hne]; [exfalso; apply Hn; now left |].
  rewrite IH by (intros Hin; apply Hn; now right). reflexivity.
Qed.

Lemma occurrences_once (s : string) (l : list string) :
  NoDup l -> In s l -> Zsum (map (fun t => if String.eqb s t then 1 else 0)%Z l) = 1%Z.
Proof.
  induction 1 as [| t l Hnot Hnd IH]; intros Hin; [contradiction |].
  change (Zsum (map _ (t :: l)))
    with ((if String.eqb s t then 1 else 0)
          + Zsum (map (fun t => if String.eqb s t then 1 else 0) l))%Z.
  destruct (String.eqb_spec s t) as [-> | Hne].
  - rewrite (occurrences_absent t l Hnot). reflexivity.
  - destruct Hin as [-> | Hin]; [contradiction |]. rewrite (IH Hin). reflexivity.
Qed.

(** The variant name of a record that names its variant by a string. *)
Lemma named_record_inv (r : value) :
  named_record r = true -> exists s, getitem r "variant" = Ok (VStr s).
Proof.
  unfold named_record. destruct (getitem r "variant") as [[| | | | s | |] | e];
    try discriminate. eauto.
Qed.

Lemma Zsum_map_add {A} (f g : A -> Z) (l : list A) :
  Zsum (map (fun x => f x + g x)%Z l) = (Zsum (map f l) + Zsum (map g l))%Z.
Proof. unfold Zsum. induction l as [| x l IH]; simpl; lia. Qed.

(** Over a list of distinct names that covers the names of all records,
    the sizes of the groups add up to the number of records. *)
Lemma groups_partition (names : list string) (results : list value) :
  NoDup names ->
  (forall r, In r results ->
             exists s, getitem r "variant" = Ok (VStr s) /\ In s names) ->
  Zsum (map (fun s => Z.of_nat (List.length (filter (has_variant (VStr s)) results)))
            names)
  = Z.of_nat (List.length results).
Proof.
  intros Hnd. induction results as [| r results IH]; intros Hcover.
  - clear Hnd Hcover. unfold Zsum.
    induction names as [| s names IH]; simpl; [reflexivity | exact IH].
  - destruct (Hcover r (or_introl eq_refl)) as (s & Hs & Hin).
    assert (Hstep : forall t,
               Z.of_nat (List.length (filter (has_variant (VStr t)) (r :: results)))
               = ((if String.eqb s t then 1 else 0)
                  + Z.of_nat (List.length (filter (has_variant (VStr t)) results)))%Z).
    { intros t. cbn [filter]. unfold has_variant at 1. rewrite Hs, py_eq_strings.
      destruct (String.eqb s t); cbn [List.length]; lia. }
    rewrite (map_ext _ _ Hstep), Zsum_map_add.
    rewrite (occurrences_once s names Hnd Hin).
    rewrite IH by (intros r' Hr'; apply Hcover; now right).
    cbn [List.length]. lia.
Qed.

Lemma results_of_inv (v : value) (results : list value) :
  forall rs, results_of v results = Ok rs -> rs = filter (has_variant v) results.
Proof.
  induction results as [| r results IH]; simpl; intros rs H.
  - injection H as <-. reflexivity.
  - unfold has_variant at 1.
    destruct (getitem r "variant") as [x | e]; [| discriminate H].
    cbn [rbind] in H.
    destruct (results_of v results) as [rs' | e]; [| discriminate H].
    cbn [rbind] in H. injection H as <-. rewrite (IH rs' eq_refl). reflexivity.
Qed.

Lemma variant_summary_total (results : list value) (v e : value) :
  variant_summary results v = Ok e ->
  total_tests_of e = Z.of_nat (List.length (filter (has_variant v) results)).
Proof.
  unfold variant_summary. unfold rbind at 1.
  destruct (results_of v results) as [rs | ex] eqn:Hrs; [| discriminate].
  apply results_of_inv in Hrs. subst rs.
  unfold rbind at 1. destruct (count_m _ _) as [n | ex]; [| discriminate].
  unfold rbind at 1.
  destruct (match filter (has_variant v) results with
            | [] => Ok (VInt 0)
            | _ :: _ => _
            end) as [sr | ex]; [| discriminate].
  unfold rbind at 1. destruct (average "tokens" _) as [tk | ex]; [| discriminate].
  unfold rbind at 1. destruct (average "elapsed_time" _) as [tm | ex]; [| discriminate].
  intros H. injection H as <-. reflexivity.
Qed.

(** The names of the records, as strings. *)
Lemma variant_names_strings (results : list value) :
  forallb named_record results = true ->
  exists names,
    variant_names results = Ok (map VStr names) /\
    forall r, In r results ->
              exists s, getitem r "variant" = Ok (VStr s) /\ In s names.
Proof.
  induction results as [| r results IH]; simpl; intros H.
  - exists []. split; [reflexivity | intros r []].
  - apply andb_prop in H as [Hr Hrest].
    destruct (named_record_inv r Hr) as [s Hs].
    destruct (IH Hrest) as (names & Hnames & Hcover).
    exists (s :: names). rewrite Hs. cbn [rbind hashable]. rewrite Hnames. cbn [rbind].
    split; [reflexivity |].
    intros r' [<- | Hr'].
    + exists s. split; [exact Hs | now left].
    + destruct (Hcover r' Hr') as (s' & Hs' & Hin). exists s'. split; [exact Hs' | now right].
Qed.

Lemma dedup_strings (names : list string) :
  exists distinct,
    dedup (map VStr names) = map VStr distinct /\
    NoDup distinct /\ forall s, In s names -> In s distinct.
Proof.
  induction names as [| s names (distinct & Hd & Hnd & Hin)].
  - exists []. split; [reflexivity |]. split; [constructor | intros s []].
  - exists (s :: filter (fun t => negb (String.eqb s t)) distinct).
    cbn [map dedup]. rewrite Hd. split; [| split].
    + f_equal. clear. induction distinct as [| t l IH]; [reflexivity |].
      cbn [map filter]. rewrite py_eq_strings.
      destruct (String.eqb s t); cbn [negb map]; rewrite IH; reflexivity.
    + constructor.
      * intros Hs. apply filter_In in Hs as [_ Hs]. rewrite String.eqb_refl in Hs.
        discriminate Hs.
      * apply NoDup_filter. exact Hnd.
    + intros t [<- | Ht]; [now left |].
      destruct (String.eqb_spec s t) as [-> | Hne]; [now left |].
      right. apply filter_In. split; [exact (Hin t Ht) |].
      apply negb_true_iff. apply String.eqb_neq. exact Hne.
Qed.

Lemma strings_of_permutation (l : list value) (names : list string) :
  Permutation l (map VStr names) ->
  exists names', l = map VStr names' /\ Permutation names' names.
Proof.
  intros H. apply Permutation_map_inv in H as (names' & -> & Hperm).
  exists names'. split; [reflexivity | apply Permutation_sym; exact Hperm].
Qed.

Section Totals.

Variable py_format : formatter.
Variable set_order : list value -> list value.
Hypothesis set_order_perm : forall l, Permutation (set_order l) l.

Local Abbreviation generate_summary := (generate_summary py_format set_order).

Lemma summary_totals (results : list value) (names : list string) :
  NoDup names ->
  forall (summary0 summary : dict) (w w' : world),
    fold_m (map VStr names) (summarize_variant py_format results) summary0 w
    = (w', Ok summary) ->
    (forall s, In s names -> dict_get summary0 (VStr s) = None) ->
    Zsum (map (fun kv => total_tests_of (snd kv)) summary)
    = (Zsum (map (fun kv => total_tests_of (snd kv)) summary0)
       + Zsum (map (fun s => Z.of_nat (List.length
                                         (filter (has_variant (VStr s)) results)))
                   names))%Z.
Proof.
  induction 1 as [| s names Hnot Hnd IH]; intros summary0 summary w w' Hrun Hfresh.
  - simpl in Hrun. injection Hrun as _ <-. unfold Zsum at 3. simpl. lia.
  - cbn [map fold_m] in Hrun. apply bind_inv in Hrun as (w1 & s1 & Hstep & Hrun).
    apply GenericFacts.summarize_variant_inv in Hstep as (e & He & ->).
    rewrite (dict_set_absent _ _ _ (Hfresh s (or_introl eq_refl))) in Hrun.
    rewrite (IH _ _ _ _ Hrun).
    + rewrite map_app, Zsum_app. cbn [map snd].
      rewrite (variant_summary_total _ _ _ He).
      rewrite !Zsum_cons, Zsum_nil. lia.
    + intros t Ht. apply dict_get_app_absent; [apply Hfresh; now right |].
      rewrite py_eq_strings. apply String.eqb_neq. intros ->. contradiction.
Qed.

(** In a run whose records name their variants by strings, the summary
    that [generate_summary] saves counts every record exactly once: the
    [total_tests] of its entries add up to the number of records. *)
Theorem summary_counts_every_record_once (results : list value) (run_dir : string)
        (w w' : world) :
  forallb named_record results = true ->
  generate_summary results run_dir w = (w', Ok tt) ->
  exists summary,
    events w'
    = events w ++ [EvWrite (path_div run_dir "summary.json")
                           (JsonDump (VDict summary))] /\
    Zsum (map (fun kv => total_tests_of (snd kv)) summary)
    = Z.of_nat (List.length results).
Proof.
  intros Hnamed H.
  destruct (variant_names_strings results Hnamed) as (names & Hnames & Hcover).
  destruct (dedup_strings names) as (distinct & Hdedup & Hnd & Hin).
  destruct (strings_of_permutation (set_order (dedup (map VStr names))) distinct)
    as (ordered & Hordered & Hperm).
  { rewrite <- Hdedup. apply set_order_perm. }
  unfold GenericBenchmark.generate_summary in H.
  apply bind_inv in H as (w1 & u1 & H1 & H).
  apply bind_inv in H as (w2 & u2 & H2 & H).
  apply bind_inv in H as (w3 & u3 & H3 & H).
  rewrite Hnames, bind_ok in H.
  apply bind_inv in H as (w5 & u5 & H5 & H).
  apply bind_inv in H as (w6 & u6 & H6 & H).
  apply bind_inv in H as (w7 & summary & Hloop & H).
  apply bind_inv in H as (w8 & u8 & Hwrite & H).
  unfold write_file in Hwrite. injection Hwrite as Hw8 _.
  exists summary. split.
  - assert (Hq : events w7 = events w).
    { apply (GenericFacts.quiet_fold_m _ _
               (GenericFacts.quiet_summarize_variant py_format results)) in Hloop.
      rewrite Hloop.
      apply GenericFacts.quiet_print in H1, H2, H3, H5, H6. congruence. }
    assert (Hrest : events w' = events w8).
    { match type of H with
      | ?m w8 = _ => assert (Hquiet : quiet m)
      end.
      { GenericFacts.quiet_steps.
        match goal with |- quiet (match ?b with _ => _ end) => destruct b end;
          [| apply GenericFacts.quiet_ret].
        repeat match goal with
               | |- quiet (if ?c then _ else _) => destruct c
               end; GenericFacts.quiet_steps. }
      exact (Hquiet _ _ _ H). }
    rewrite Hrest, <- Hw8. unfold written. cbn [events]. rewrite Hq. reflexivity.
  - rewrite Hordered in Hloop.
    rewrite (summary_totals results ordered
               (Permutation_NoDup (Permutation_sym Hperm) Hnd) _ _ _ _ Hloop)
      by reflexivity.
    unfold Zsum at 1. cbn [map fold_right]. rewrite Z.add_0_l.
    apply groups_partition.
    + exact (Permutation_NoDup (Permutation_sym Hperm) Hnd).
    + intros r Hr. destruct (Hcover r Hr) as (s & Hs & Hs').
      exists s. split; [exact Hs |].
      apply (Permutation_in _ (Permutation_sym Hperm)). apply Hin. exact Hs'.
Qed.

End Totals.

Lemma summary_counts_every_record_once_witness :
  exists summary,
    events (fst (generate_summary plain_format (fun l => l) two_variant_results
                   "results/generic/run_1" ready_world))
    = events ready_world
      ++ [EvWrite (path_div "results/generic/run_1" "summary.json")
                  (JsonDump (VDict summary))] /\
    Zsum (map (fun kv => total_tests_of (snd kv)) summary)
    = Z.of_nat (List.length two_variant_results).
Proof.
  apply (summary_counts_every_record_once plain_format (fun l => l)
           (fun l => Permutation_refl l) two_variant_results
           "results/generic/run_1" ready_world).
  - reflexivity.
  - vm_compute. reflexivity.
Defined.

(** ** Overrides on shared dictionaries *)

Section Store.

Import InPlace.

Lemma put_length (s : store) (l : loc) (t : table) :
  List.length (put s l t) = List.length s.
Proof.
  revert l. induction s as [| t0 s IH]; intros [| l]; simpl; auto.
Qed.

Lemma fetch_put_same (s : store) (l : loc) (t t0 : table) :
  fetch s l = Some t0 -> fetch (put s l t) l = Some t.
Proof.
  unfold fetch. revert l. induction s as [| t1 s IH]; intros [| l]; simpl; intros H;
    try discriminate H; [reflexivity | exact (IH l H)].
Qed.

Lemma fetch_put_other (s : store) (l l' : loc) (t : table) :
  l' <> l -> fetch (put s l t) l' = fetch s l'.
Proof.
  unfold fetch. revert l l'.
  induction s as [| t1 s IH]; intros [| l] [| l'] Hne; simpl; try reflexivity.
  - contradiction.
  - apply IH. intros ->. apply Hne. reflexivity.
Qed.

Lemma fetch_bound (s : store) (l : loc) (t : table) :
  fetch s l = Some t -> (l < List.length s)%nat.
Proof.
  unfold fetch. intros H. apply nth_error_Some. rewrite H. discriminate.
Qed.

Lemma fetch_app_old (s extra : store) (l : loc) :
  (l < List.length s)%nat -> fetch (s ++ extra) l = fetch s l.
Proof. unfold fetch. intros H. apply nth_error_app1. exact H. Qed.

Lemma fetch_new (s : store) (t : table) : fetch (s ++ [t]) (List.length s) = Some t.
Proof.
  unfold fetch. rewrite nth_error_app2 by lia. rewrite Nat.sub_diag. reflexivity.
Qed.

Lemma table_get_set_other (t : table) (key : string) (k : value) (x : obj) :
  k <> VStr key -> table_get (table_set t (VStr key) x) k = table_get t k.
Proof.
  intros Hne. induction t as [| [k0 x0] rest IH]; simpl.
  - rewrite (py_eq_str_other key k Hne). reflexivity.
  - destruct (py_eq k0 (VStr key)) eqn:E; simpl.
    + apply py_eq_str_key in E. subst k0.
      rewrite (py_eq_str_other key k Hne). reflexivity.
    + destruct (py_eq k0 k); [reflexivity | exact IH].
Qed.

Lemma fetch_fresh (s : store) (l : loc) (t : table) :
  fetch (put s l t ++ [[]]) (List.length s) = Some [].
Proof.
  unfold fetch. rewrite nth_error_app2 by (rewrite put_length; lia).
  rewrite put_length, Nat.sub_diag. reflexivity.
Qed.

(** A walk that starts in a new, empty dictionary stays in new
    dictionaries: it changes none of the older ones. *)
Lemma walk_in_new_dictionaries (n : nat) (x : obj) (keys : list string) :
  forall (s s' : store) (l : loc),
    (n <= l)%nat -> fetch s l = Some [] ->
    set_nested_in_place s (Ref l) keys x = Ok s' ->
    forall l', (l' < n)%nat -> fetch s' l' = fetch s l'.
Proof.
  induction keys as [| key rest IH]; intros s s' l Hl Hempty H l' Hl';
    [discriminate H |].
  destruct rest as [| key' rest].
  - cbn [set_nested_in_place setitem] in H. rewrite Hempty in H. injection H as <-.
    apply fetch_put_other. lia.
  - change (set_nested_in_place s (Ref l) (key :: key' :: rest) x)
      with (r <~ setdefault s (Ref l) key ;;
            set_nested_in_place (fst r) (snd r) (key' :: rest) x) in H.
    cbn [setdefault] in H. rewrite Hempty in H. cbn [table_get rbind fst snd] in H.
    pose proof (fetch_bound _ _ _ Hempty) as Hbound.
    rewrite (IH _ _ (List.length s) ltac:(lia) (fetch_fresh _ _ _) H l' Hl').
    rewrite fetch_app_old by (rewrite put_length; lia).
    apply fetch_put_other. lia.
Qed.

(** The one existing dictionary that an override updates. *)
Lemma set_nested_in_place_lands (x : obj) (keys : list string) :
  forall (s s' : store) (d : obj),
    set_nested_in_place s d keys x = Ok s' ->
    exists l key t y,
      landing s d keys = Some (l, key) /\
      fetch s l = Some t /\
      fetch s' l = Some (table_set t (VStr key) y) /\
      (y = x \/ y = Ref (List.length s)) /\
      forall l', l' <> l -> (l' < List.length s)%nat -> fetch s' l' = fetch s l'.
Proof.
  induction keys as [| key rest IH]; intros s s' d H; [discriminate H |].
  destruct rest as [| key' rest].
  - cbn [set_nested_in_place] in H. unfold setitem in H.
    destruct d as [l | xs | v]; try discriminate H.
    destruct (fetch s l) as [t |] eqn:Ht; [| discriminate H]. injection H as <-.
    exists l, key, t, x. cbn [landing]. repeat split.
    + exact Ht.
    + exact (fetch_put_same _ _ _ _ Ht).
    + left. reflexivity.
    + intros l' Hne _. apply fetch_put_other. exact Hne.
  - change (set_nested_in_place s d (key :: key' :: rest) x)
      with (r <~ setdefault s d key ;;
            set_nested_in_place (fst r) (snd r) (key' :: rest) x) in H.
    unfold setdefault in H.
    destruct d as [l | xs | v]; try discriminate H.
    destruct (fetch s l) as [t |] eqn:Ht; [| discriminate H].
    change (landing s (Ref l) (key :: key' :: rest))
      with (match fetch s l with
            | Some t0 =>
              match table_get t0 (VStr key) with
              | Some x0 => landing s x0 (key' :: rest)
              | None => Some (l, key)
              end
            | None => None
            end).
    rewrite Ht.
    destruct (table_get t (VStr key)) as [child |] eqn:Hchild; cbn [rbind fst snd] in H.
    + exact (IH _ _ _ H).
    + pose proof (fetch_bound _ _ _ Ht) as Hbound.
      assert (Hold : forall l', (l' < List.length s)%nat ->
                                fetch s' l'
                                = fetch (put s l (table_set t (VStr key)
                                                            (Ref (List.length s)))) l').
      { intros l' Hl'.
        rewrite (walk_in_new_dictionaries (List.length s) x (key' :: rest) _ _
                   (List.length s) (Nat.le_refl _) (fetch_fresh _ _ _) H l' Hl').
        apply fetch_app_old. rewrite put_length. exact Hl'. }
      exists l, key, t, (Ref (List.length s)). repeat split.
      * exact Ht.
      * rewrite (Hold l Hbound). exact (fetch_put_same _ _ _ _ Ht).
      * right. reflexivity.
      * intros l' Hne Hl'. rewrite (Hold l' Hl'). apply fetch_put_other. exact Hne.
Qed.


End Store.


(** On the aliased configuration the override of
    [agents.main.temperature] lands in the dictionary that [defaults]
    holds as well: read from the root, [defaults.temperature] is 0 after
    the call. *)
Example override_reaches_the_alias :
  exists s',
    InPlace._set_nested_key aliased_store (InPlace.Ref 0%nat)
                            (VStr "agents.main.temperature") (InPlace.Atom (VInt 0))
    = Ok s' /\
    InPlace.landing aliased_store (InPlace.Ref 0%nat)
                    (split_on "." "agents.main.temperature")
    = Some (1%nat, "temperature") /\
    InPlace.view 4%nat aliased_store (InPlace.Ref 0%nat)
    = VDict [(VStr "defaults", VDict [(VStr "temperature", VInt 1)]);
             (VStr "agents",
              VDict [(VStr "main", VDict [(VStr "temperature", VInt 1)])])] /\
    InPlace.view 4%nat s' (InPlace.Ref 0%nat)
    = VDict [(VStr "defaults", VDict [(VStr "temperature", VInt 0)]);
             (VStr "agents",
              VDict [(VStr "main", VDict [(VStr "temperature", VInt 0)])])].
Proof. eexists. split; [reflexivity | split; [reflexivity | split; reflexivity]]. Qed.

End GenericMore.

(* ===================================================================== *)
(** * Further properties of [behavioral_benchmark.py] *)
(* ===================================================================== *)

Module BehavioralMore.
Import BehavioralTester.
Import BehavioralFacts.

(** ** Criterion evaluation *)

Section Criteria.

Variable re_search : regex_engine.

Local Abbreviation check_criterion := (check_criterion re_search).
Local Abbreviation evaluate_criterion := (evaluate_criterion re_search).
Local Abbreviation evaluate_test := (evaluate_test re_search).
Local Abbreviation criterion_matches := (criterion_matches re_search).
Local Abbreviation criterion_report := (criterion_report re_search).
Local Abbreviation passed_count := (passed_count re_search).

(** [check_criterion] on an object raises exactly when the object has no
    [check_pattern]: the lookup is outside the [try] block, so its
    [KeyError] is not turned into a failed criterion, while every error of
    the search itself is. *)
Theorem check_criterion_raises_without_pattern (output : string) (d : dict) (w : world) :
  (exists w' e, check_criterion output (VDict d) w = (w', Raise e))
  <-> dict_get d (VStr "check_pattern") = None.
Proof.
  split.
  - intros (w' & e & H).
    destruct (dict_get d (VStr "check_pattern")) as [p |] eqn:Hp; [| reflexivity].
    destruct (check_criterion_verdict re_search output d p w Hp) as [w1 Hok].
    rewrite Hok in H. discriminate H.
  - intros Hp. exists w, (Exc KeyError "'check_pattern'").
    unfold BehavioralTester.check_criterion, getitem. rewrite Hp. reflexivity.
Qed.

Lemma criterion_step_report (output : string) (c id name : value)
      (l : list value) (n total ol : Z) (w : world) :
  wf_criterion c = true ->
  exists w',
    evaluate_criterion output (partial_results id name l n total ol) c w
    = (w', Ok (partial_results id name (l ++ [criterion_report output c])
                 (if criterion_matches output c then n + 1 else n) total ol)).
Proof.
  intros Hwf. destruct c as [| | | | | | d]; try discriminate Hwf.
  simpl in Hwf. apply andb_prop in Hwf as [Hwf Hd]. apply andb_prop in Hwf as [Hp Hc].
  apply dict_mem_get in Hp as [p Hp], Hc as [cv Hc], Hd as [dv Hd].
  destruct (check_criterion_verdict re_search output d p w Hp) as [w' Hck].
  exists w'.
  unfold BehavioralTester.evaluate_criterion, BehavioralTester.criterion_report.
  rewrite (bind_run _ Hck).
  unfold getitem at 1 3. rewrite Hc, bind_ok.
  unfold getitem at 1 2. rewrite Hd, bind_ok.
  destruct (criterion_matches output (VDict d)); reflexivity.
Qed.

Lemma criteria_loop_report (output : string) (id name : value) (total ol : Z)
      (crits : list value) :
  forallb wf_criterion crits = true ->
  forall (l : list value) (n : Z) (w : world),
  exists w',
    fold_m crits (evaluate_criterion output) (partial_results id name l n total ol) w
    = (w', Ok (partial_results id name (l ++ map (criterion_report output) crits)
                 (n + Z.of_nat (passed_count output crits)) total ol)).
Proof.
  induction crits as [| c crits IH]; intros Hwf l n w.
  - exists w. simpl. unfold BehavioralTester.passed_count. simpl.
    rewrite Z.add_0_r, app_nil_r. reflexivity.
  - simpl in Hwf. apply andb_prop in Hwf as [Hc Hrest].
    destruct (criterion_step_report output c id name l n total ol w Hc) as (w1 & Hstep).
    destruct (IH Hrest (l ++ [criterion_report output c])
                 (if criterion_matches output c then (n + 1)%Z else n) w1)
      as (w2 & Hloop).
    exists w2. simpl fold_m. rewrite (bind_run _ Hstep), Hloop.
    unfold BehavioralTester.passed_count. simpl filter. simpl map.
    rewrite <- app_assoc. simpl app.
    destruct (criterion_matches output c); simpl List.length; do 3 f_equal; lia.
Qed.


End Criteria.


(** ** Calling the subject *)

Section Calls.

Variable call_subject : nat -> list string -> child.

Local Abbreviation run_test := (BehavioralCalls.run_test call_subject).

(** [run_test] always returns a text and a flag, and no exception leaves
    it.  With string arguments, a call that exits within 60 seconds gives
    its output and the flag [returncode == 0]; a call that is still
    running after 60 seconds gives [TIMEOUT] and [False]; a binary that
    cannot be started gives [ERROR: ] followed by the error text, and
    [False].  Arguments that are not strings give [ERROR: ...] and
    [False]. *)
Theorem run_test_outcome (agent_name prompt : value) (w : world) :
  exists w' output success,
    run_test agent_name prompt w = (w', Ok (VStr output, success)) /\
    match agent_name, prompt with
    | VStr agent, VStr p =>
      match call_subject (calls w) ["../hector"; "call"; agent; p] with
      | Exits out returncode duration =>
        if Qle_bool duration (inject_Z 60)
        then output = out /\ success = (returncode =? 0)%Z
        else output = "TIMEOUT" /\ success = false
      | Hangs => output = "TIMEOUT" /\ success = false
      | CannotStart msg => output = ("ERROR: " ++ msg)%string /\ success = false
      end
    | _, _ => success = false /\ exists msg : string, output = ("ERROR: " ++ msg)%string
    end.
Proof.
  unfold BehavioralCalls.run_test, try_except, try_catch.
  destruct agent_name as [| b | z | q | agent | l | d];
    try (do 3 eexists; split; [reflexivity | split; [reflexivity | eauto]]).
  destruct prompt as [| b | z | q | p | l | d];
    try (do 3 eexists; split; [reflexivity | split; [reflexivity | eauto]]).
  cbn [as_str]. rewrite !bind_ok.
  unfold bind at 1, tick. unfold bind at 1, emit. cbn [calls].
  destruct (call_subject (calls w) ["../hector"; "call"; agent; p])
    as [out rc duration | | msg]; cbn [subprocess_run].
  - destruct (Qle_bool duration (inject_Z 60));
      do 3 eexists; (split; [reflexivity | split; reflexivity]).
  - do 3 eexists. split; [reflexivity | split; reflexivity].
  - do 3 eexists. split; [reflexivity | split; reflexivity].
Qed.


End Calls.

Lemma run_test_outcome_witness :
  exists w' output success,
    BehavioralCalls.run_test hanging_subject (VStr "main") (VStr "say hello") empty_world
    = (w', Ok (VStr output, success)) /\
    output = "TIMEOUT" /\ success = false.
Proof.
  exact (run_test_outcome hanging_subject (VStr "main") (VStr "say hello") empty_world).
Defined.


(** ** The comparison report *)

Lemma fails_quietly_first {A B} (m : M A) (k : A -> M B) :
  fails_quietly m -> fails_quietly (bind m k).
Proof.
  intros Hm w w' r H. unfold bind in H.
  destruct (m w) as [w1 [a | e]] eqn:E.
  - destruct (Hm _ _ _ E) as [[e He] _]. discriminate He.
  - injection H as <- <-. destruct (Hm _ _ _ E) as [_ Hev]. eauto.
Qed.

(** A quiet step whose results all satisfy [post], followed by a
    continuation that fails quietly on such results. *)
Lemma fails_quietly_then {A B} (post : A -> Prop) (m : M A) (k : A -> M B) :
  quiet m ->
  (forall w w' a, m w = (w', Ok a) -> post a) ->
  (forall a, post a -> fails_quietly (k a)) ->
  fails_quietly (bind m k).
Proof.
  intros Hq Hpost Hk w w' r H. unfold bind in H.
  destruct (m w) as [w1 [a | e]] eqn:E.
  - destruct (Hk a (Hpost _ _ _ E) _ _ _ H) as [Hr Hev].
    split; [exact Hr |]. rewrite Hev. exact (Hq _ _ _ E).
  - injection H as <- <-. split; [eauto | exact (Hq _ _ _ E)].
Qed.

Lemma quiet_for_each {A} (body : A -> M unit) (xs : list A) :
  (forall x, quiet (body x)) -> quiet (for_each xs body).
Proof.
  intros Hbody. induction xs as [| x xs IH]; simpl.
  - apply GenericFacts.quiet_ret.
  - apply GenericFacts.quiet_bind; [apply Hbody | intros _; exact IH].
Qed.

Lemma quiet_json_load (p : string) : quiet (json_load p).
Proof.
  intros w w' r H. unfold json_load in H.
  destruct (file_lookup (files w) p) as [[v | v | | [j |] y] |];
    injection H as <- _; reflexivity.
Qed.

Ltac quiet_more :=
  repeat first
         [ apply GenericFacts.quiet_ret | apply GenericFacts.quiet_lift
         | apply GenericFacts.quiet_print | apply quiet_json_load
         | apply GenericFacts.quiet_bind; [| intros ]
         | apply GenericFacts.quiet_fold_m; intros
         | apply quiet_for_each; intros
         | progress cbv beta
         | match goal with
           | |- quiet (if ?c then _ else _) => destruct c
           | |- quiet (let (_, _) := ?p in _) => destruct p
           end ].

Lemma config_summary_truthy (v : value) : config_summary v -> truthy v = true.
Proof. intros (a & b & c & d & e & f & ->). reflexivity. Qed.

Lemma config_summary_no_avg_score (v : value) :
  config_summary v -> getitem v "avg_score" = Raise (Exc KeyError "'avg_score'").
Proof. intros (a & b & c & d & e & f & ->). reflexivity. Qed.

Lemma dict_mem_set_keeps (d : dict) (k v : value) (s : string) :
  dict_mem d (VStr s) = true -> dict_mem (dict_set d k v) (VStr s) = true.
Proof.
  unfold dict_mem. destruct (dict_get d (VStr s)) as [x |] eqn:E; [| discriminate].
  intros _. destruct (dict_set_keeps d k (VStr s) v x E) as [y ->]. reflexivity.
Qed.

Lemma dict_mem_set_key (d : dict) (k v : value) (s : string) :
  py_eq k (VStr s) = true -> dict_mem (dict_set d k v) (VStr s) = true.
Proof.
  intros Hk. apply GenericMore.py_eq_str_key in Hk as ->.
  unfold dict_mem. rewrite GenericMore.dict_get_set_same. reflexivity.
Qed.

Lemma dict_mem_cons (k v : value) (rest : dict) (s : string) :
  dict_mem ((k, v) :: rest) (VStr s) = true ->
  py_eq k (VStr s) = true \/ dict_mem rest (VStr s) = true.
Proof.
  unfold dict_mem. simpl. destruct (py_eq k (VStr s)); [now left | now right].
Qed.

(** Grouping by configuration keeps every configuration name. *)
Lemma by_config_keys (its : dict) (s : string) :
  forall acc : dict,
    dict_mem acc (VStr s) = true \/ dict_mem its (VStr s) = true ->
    dict_mem (fold_left (fun acc it => dict_set acc (fst it) (snd it)) its acc) (VStr s)
    = true.
Proof.
  induction its as [| [k v] its IH]; intros acc [H | H]; simpl.
  - exact H.
  - discriminate H.
  - apply IH. left. apply dict_mem_set_keeps. exact H.
  - apply IH. apply dict_mem_cons in H as [H | H].
    + left. apply dict_mem_set_key. exact H.
    + right. exact H.
Qed.

Section Report.

Variable re_search : regex_engine.
Variable py_format : formatter.
Variable isoformat_now : string.
Variable tester_results_dir : string.

Local Abbreviation summary_block := (summary_block py_format).
Local Abbreviation summarize_config := (summarize_config py_format).
Local Abbreviation feature_block := (feature_block py_format).
Local Abbreviation improvement_block := (improvement_block py_format).
Local Abbreviation reflection_recommendation := (reflection_recommendation py_format).
Local Abbreviation completion_recommendation := (completion_recommendation py_format).
Local Abbreviation all_features_recommendation :=
  (all_features_recommendation py_format).
Local Abbreviation generate_comparison_report :=
  (generate_comparison_report py_format isoformat_now tester_results_dir).

Lemma summarize_config_sets (cs cs' : dict) (k results : value) (w w' : world) :
  summarize_config cs (k, results) w = (w', Ok cs') ->
  exists v, config_summary v /\ cs' = dict_set cs k v.
Proof.
  intros H. unfold BehavioralTester.summarize_config in H. bind_inv_in H.
  injection H as _ <-. eexists. split; [| reflexivity].
  unfold config_summary. do 6 eexists. reflexivity.
Qed.

Lemma summary_loop_keys (its : dict) (s : string) :
  forall (cs cs' : dict) (w w' : world),
    fold_m its summarize_config cs w = (w', Ok cs') ->
    Forall (fun kv => config_summary (snd kv)) cs ->
    Forall (fun kv => config_summary (snd kv)) cs' /\
    (dict_mem cs (VStr s) = true \/ dict_mem its (VStr s) = true ->
     dict_mem cs' (VStr s) = true).
Proof.
  induction its as [| [k results] its IH]; intros cs cs' w w' H Hcs; simpl in H.
  - injection H as _ <-. split; [exact Hcs |]. intros [Hm | Hm]; [exact Hm | discriminate Hm].
  - apply bind_inv in H as (w1 & cs1 & Hstep & H).
    apply summarize_config_sets in Hstep as (v & Hv & ->).
    destruct (IH _ _ _ _ H (dict_set_Forall config_summary cs k v Hcs Hv))
      as [Hall Hkeys].
    split; [exact Hall |].
    intros [Hm | Hm]; apply Hkeys.
    + left. apply dict_mem_set_keeps. exact Hm.
    + apply dict_mem_cons in Hm as [Hm | Hm].
      * left. apply dict_mem_set_key. exact Hm.
      * right. exact Hm.
Qed.

(** What the first block leaves in [config_summaries]: entries built by
    [summarize_config], one for each configuration of the run. *)
Lemma summary_block_keys (ar by_config cs : dict) (w w' : world) :
  summary_block (VDict ar) w = (w', Ok (by_config, cs)) ->
  Forall (fun kv => config_summary (snd kv)) cs /\
  forall s, dict_mem ar (VStr s) = true -> dict_mem cs (VStr s) = true.
Proof.
  intros H. unfold BehavioralTester.summary_block in H.
  apply bind_inv in H as (w1 & u1 & _ & H).
  apply bind_inv in H as (w2 & u2 & _ & H).
  apply bind_inv in H as (w3 & u3 & _ & H).
  apply bind_inv in H as (w4 & its & Hits & H).
  apply GenericFacts.lift_inv in Hits as [-> Hits]. injection Hits as <-.
  apply bind_inv in H as (w5 & u5 & _ & H).
  apply bind_inv in H as (w6 & u6 & _ & H).
  apply bind_inv in H as (w7 & u7 & _ & H).
  apply bind_inv in H as (w8 & u8 & _ & H).
  apply bind_inv in H as (w9 & cs9 & Hloop & H).
  apply bind_inv in H as (w10 & u10 & _ & H).
  injection H as _ _ <-.
  split.
  - exact (proj1 (summary_loop_keys _ "" _ _ _ _ Hloop (Forall_nil _))).
  - intros s Hs.
    apply (proj2 (summary_loop_keys _ s _ _ _ _ Hloop (Forall_nil _))).
    right. apply by_config_keys. right. exact Hs.
Qed.

Lemma entry_of_summary (cs : dict) (s : string) :
  Forall (fun kv => config_summary (snd kv)) cs ->
  dict_mem cs (VStr s) = true ->
  exists v, get (VDict cs) s (VDict []) = Ok v /\ config_summary v.
Proof.
  intros Hall Hmem. unfold dict_mem in Hmem. unfold get.
  destruct (dict_get cs (VStr s)) as [v |] eqn:E; [| discriminate Hmem].
  exists v. split; [reflexivity |]. exact (dict_get_Forall _ cs _ v Hall E).
Qed.

Lemma quiet_summary_block (all_results : value) : quiet (summary_block all_results).
Proof.
  unfold BehavioralTester.summary_block, BehavioralTester.summarize_config. quiet_more.
Qed.

Lemma quiet_feature_block (by_config : dict) : quiet (feature_block by_config).
Proof.
  unfold BehavioralTester.feature_block, load_behavioral_tests, feature_row.
  quiet_more.
Qed.

Lemma quiet_improvement_block (cs : dict) : quiet (improvement_block cs).
Proof. unfold BehavioralTester.improvement_block, improvement_row. quiet_more. Qed.

Lemma improvement_block_baseline (cs : dict) (bs score : value) (w w' : world) :
  improvement_block cs w = (w', Ok (bs, score)) ->
  get (VDict cs) "Baseline" (VDict []) = Ok bs.
Proof.
  intros H. unfold BehavioralTester.improvement_block in H.
  apply bind_inv in H as (w1 & u1 & _ & H).
  apply bind_inv in H as (w2 & u2 & _ & H).
  apply bind_inv in H as (w3 & b & Hb & H).
  apply GenericFacts.lift_inv in Hb as [-> Hb].
  bind_inv_in H. injection H as _ <- _. exact Hb.
Qed.

Lemma quiet_reflection (cs : dict) (bs : value) : quiet (reflection_recommendation cs bs).
Proof. unfold BehavioralTester.reflection_recommendation. quiet_more. Qed.

Lemma quiet_completion (cs : dict) (bs : value) : quiet (completion_recommendation cs bs).
Proof. unfold BehavioralTester.completion_recommendation. quiet_more. Qed.

(** Each recommendation reads [avg_score] from the two summaries it
    compares, and no summary has that key. *)
Lemma reflection_fails (cs : dict) (bs v : value) :
  config_summary bs ->
  get (VDict cs) "Reflection Only" (VDict []) = Ok v -> config_summary v ->
  fails_quietly (reflection_recommendation cs bs).
Proof.
  intros Hbs Hget Hv w w' r H.
  unfold BehavioralTester.reflection_recommendation in H.
  unfold bind at 1, print in H. unfold bind at 1, print in H.
  rewrite Hget, bind_ok in H.
  rewrite (config_summary_truthy _ Hv), (config_summary_truthy _ Hbs) in H.
  cbn [andb] in H. rewrite (config_summary_no_avg_score _ Hv) in H.
  injection H as <- <-. split; [eauto | reflexivity].
Qed.

Lemma completion_fails (cs : dict) (bs v : value) :
  config_summary bs ->
  get (VDict cs) "Completion Only" (VDict []) = Ok v -> config_summary v ->
  fails_quietly (completion_recommendation cs bs).
Proof.
  intros Hbs Hget Hv w w' r H.
  unfold BehavioralTester.completion_recommendation in H.
  rewrite Hget, bind_ok in H.
  rewrite (config_summary_truthy _ Hv), (config_summary_truthy _ Hbs) in H.
  cbn [andb] in H. rewrite (config_summary_no_avg_score _ Hv) in H.
  injection H as <- <-. split; [eauto | reflexivity].
Qed.

Lemma all_features_fails (cs : dict) (bs v : value) :
  config_summary bs ->
  get (VDict cs) "All Features" (VDict []) = Ok v -> config_summary v ->
  fails_quietly (all_features_recommendation cs bs).
Proof.
  intros Hbs Hget Hv w w' r H.
  unfold BehavioralTester.all_features_recommendation in H.
  rewrite Hget, bind_ok in H.
  rewrite (config_summary_truthy _ Hv), (config_summary_truthy _ Hbs) in H.
  cbn [andb] in H. rewrite (config_summary_no_avg_score _ Hv) in H.
  injection H as <- <-. split; [eauto | reflexivity].
Qed.

(** The report of a run that has the configuration [Baseline] and at
    least one of [Reflection Only], [Completion Only] and [All Features]
    never reaches its end: whatever the results, it ends with an exception
    and [summary.json] is not written (no file is written at all).  The
    recommendations read [avg_score] from summaries that only have
    [avg_quality_score]. *)
Theorem report_never_completes_with_baseline (ar : dict) (w w' : world)
        (r : result unit) :
  dict_mem ar (VStr "Baseline") = true ->
  dict_mem ar (VStr "Reflection Only") || dict_mem ar (VStr "Completion Only")
  || dict_mem ar (VStr "All Features") = true ->
  generate_comparison_report (VDict ar) w = (w', r) ->
  (exists e, r = Raise e) /\ events w' = events w.
Proof.
  intros Hbase Hother. revert w w' r.
  change (fails_quietly (generate_comparison_report (VDict ar))).
  unfold BehavioralTester.generate_comparison_report.
  apply (fails_quietly_then
           (fun groups : dict * dict =>
              Forall (fun kv => config_summary (snd kv)) (snd groups) /\
              forall s, dict_mem ar (VStr s) = true ->
                        dict_mem (snd groups) (VStr s) = true)).
  { apply quiet_summary_block. }
  { intros w w' [by_config cs] H. exact (summary_block_keys _ _ _ _ _ H). }
  intros [by_config cs] [Hall Hkeys]. cbn [snd] in Hall, Hkeys.
  apply (fails_quietly_then (fun _ => True)).
  { apply quiet_feature_block. }
  { trivial. }
  intros by_feature _.
  apply (fails_quietly_then
           (fun baseline : value * value =>
              get (VDict cs) "Baseline" (VDict []) = Ok (fst baseline))).
  { apply quiet_improvement_block. }
  { intros w w' [bs score] H. exact (improvement_block_baseline _ _ _ _ _ H). }
  intros [bs score] Hbs. cbn [fst] in Hbs.
  destruct (entry_of_summary cs "Baseline" Hall (Hkeys _ Hbase)) as (bs' & Hget & Hentry).
  rewrite Hget in Hbs. injection Hbs as <-.
  apply orb_true_iff in Hother as [Hother | Hall_features].
  1: apply orb_true_iff in Hother as [Hreflection | Hcompletion].
  - destruct (entry_of_summary cs _ Hall (Hkeys _ Hreflection)) as (v & Hv & Hentry').
    apply fails_quietly_first. exact (reflection_fails cs bs' v Hentry Hv Hentry').
  - destruct (entry_of_summary cs _ Hall (Hkeys _ Hcompletion)) as (v & Hv & Hentry').
    apply (fails_quietly_then (fun _ => True));
      [apply quiet_reflection | trivial | intros _ _].
    apply fails_quietly_first. exact (completion_fails cs bs' v Hentry Hv Hentry').
  - destruct (entry_of_summary cs _ Hall (Hkeys _ Hall_features))
      as (v & Hv & Hentry').
    apply (fails_quietly_then (fun _ => True));
      [apply quiet_reflection | trivial | intros _ _].
    apply (fails_quietly_then (fun _ => True));
      [apply quiet_completion | trivial | intros _ _].
    apply fails_quietly_first. exact (all_features_fails cs bs' v Hentry Hv Hentry').
Qed.

End Report.

Lemma report_never_completes_with_baseline_witness :
  (exists e,
      snd (generate_comparison_report plain_format "2026-01-01T12:00:00"
             "results/behavioral" baseline_run tester_world) = Raise e) /\
  events (fst (generate_comparison_report plain_format "2026-01-01T12:00:00"
                 "results/behavioral" baseline_run tester_world))
  = events tester_world.
Proof.
  apply (report_never_completes_with_baseline
           plain_format "2026-01-01T12:00:00" "results/behavioral"
           [(VStr "Baseline", VList [suite_record true 2 1]);
            (VStr "Reflection Only", VList [suite_record false 1 (1 # 2)])]
           tester_world).
  - reflexivity.
  - reflexivity.
  - vm_compute. reflexivity.
Defined.

(** ** The counts of a configuration *)

Lemma count_m_filter (p : value -> result bool) (pb : value -> bool) (rs : list value) :
  (forall r, In r rs -> p r = Ok (pb r)) ->
  count_m p rs = Ok (Z.of_nat (List.length (filter pb rs))).
Proof.
  induction rs as [| r rs IH]; intros Hp; [reflexivity |].
  cbn [count_m filter]. rewrite (Hp r (or_introl eq_refl)).
  rewrite IH by (intros r' Hr'; apply Hp; now right).
  destruct (pb r); cbn [List.length]; f_equal; lia.
Qed.

(** What the three counting loops compute on a scored record. *)
Lemma scored_record_tests (r : value) :
  scored_record r = true ->
  (p <~ get r "passed" (VBool false) ;; Ok (truthy p)) = Ok (record_passed r) /\
  (p <~ get r "passed" (VBool false) ;;
   if negb (truthy p) then (s <~ get r "score" (VInt 0) ;; py_gt s (VInt 0))
   else Ok false)
  = Ok (negb (record_passed r) && Qlt_bool 0 (record_score r)) /\
  (s <~ get r "score" (VInt 0) ;; Ok (py_eq s (VInt 0)))
  = Ok (Qeq_bool (record_score r) 0).
Proof.
  destruct r as [| | | | | | d]; try discriminate.
  intros H. unfold scored_record in H.
  apply andb_prop in H as [H _]. apply andb_prop in H as [Hnum _].
  assert (Hscore : exists s q,
             get (VDict d) "score" (VInt 0) = Ok s /\ as_num s = Some q).
  { unfold get. destruct (dict_get d (VStr "score")) as [s |].
    - destruct (as_num s) as [q |] eqn:Hs; [eauto | discriminate Hnum].
    - exists (VInt 0), 0. split; reflexivity. }
  destruct Hscore as (s & q & Hget & Hs).
  assert (Hpassed : exists p, get (VDict d) "passed" (VBool false) = Ok p).
  { unfold get. destruct (dict_get d (VStr "passed")); eauto. }
  destruct Hpassed as [p Hp].
  unfold record_passed, record_score. rewrite Hp, Hget, Hs. cbn [rbind].
  split; [reflexivity |]. split.
  - destruct (truthy p); cbn [negb andb]; [reflexivity |].
    unfold py_gt. rewrite (GenericFacts.py_lt_num (VInt 0) s 0 q eq_refl Hs). reflexivity.
  - unfold py_eq. rewrite Hs. reflexivity.
Qed.

(** A scored record falls in exactly one of the three classes. *)
Lemma scored_record_class (r : value) :
  scored_record r = true ->
  (Z.b2z (record_passed r)
   + Z.b2z (negb (record_passed r) && Qlt_bool 0 (record_score r))
   + Z.b2z (Qeq_bool (record_score r) 0) = 1)%Z.
Proof.
  destruct r as [| | | | | | d]; try discriminate.
  unfold scored_record. intros H.
  apply andb_prop in H as [H Hpos]. apply andb_prop in H as [_ Hle].
  apply Qle_bool_iff in Hle.
  destruct (Qeq_bool (record_score (VDict d)) 0) eqn:Hz.
  - apply Qeq_bool_iff in Hz.
    assert (Hlt : Qlt_bool 0 (record_score (VDict d)) = false).
    { apply GenericFacts.Qlt_bool_false. rewrite Hz. apply Qle_refl. }
    rewrite Hlt in *. rewrite orb_false_r in Hpos. apply negb_true_iff in Hpos.
    rewrite Hpos. reflexivity.
  - assert (Hlt : Qlt_bool 0 (record_score (VDict d)) = true).
    { apply GenericFacts.Qlt_bool_true. apply Qle_lt_or_eq in Hle as [Hlt | Heq];
        [exact Hlt |].
      symmetry in Heq. apply Qeq_bool_iff in Heq. congruence. }
    rewrite Hlt. destruct (record_passed (VDict d)); reflexivity.
Qed.

Lemma classes_cover (f g h : value -> bool) (rs : list value) :
  (forall r, In r rs -> (Z.b2z (f r) + Z.b2z (g r) + Z.b2z (h r) = 1)%Z) ->
  (Z.of_nat (List.length (filter f rs)) + Z.of_nat (List.length (filter g rs))
   + Z.of_nat (List.length (filter h rs)) = Z.of_nat (List.length rs))%Z.
Proof.
  induction rs as [| r rs IH]; intros H; [reflexivity |].
  pose proof (H r (or_introl eq_refl)) as Hr.
  specialize (IH (fun r' Hr' => H r' (or_intror Hr'))).
  cbn [filter]. destruct (f r), (g r), (h r); cbn [List.length Z.b2z] in *; lia.
Qed.

Section Counts.

Variable py_format : formatter.

Local Abbreviation summarize_config := (summarize_config py_format).

(** The four counts that [summarize_config] stores for a configuration
    whose records are scored: [tests_total] is the number of records,
    [tests_passed] the number of records whose [passed] flag holds,
    [tests_failed] the number of records with score 0, and the three
    classes passed, partial and failed cover the records without overlap:
    their counts add up to the total. *)
Theorem summarize_config_counts (cs cs' : dict) (name : string) (rs : list value)
        (w w' : world) :
  forallb scored_record rs = true ->
  summarize_config cs (VStr name, VList rs) w = (w', Ok cs') ->
  exists entry passed partial failed,
    dict_get cs' (VStr name) = Some entry /\
    getitem entry "tests_total" = Ok (VInt (Z.of_nat (List.length rs))) /\
    getitem entry "tests_passed" = Ok (VInt passed) /\
    getitem entry "tests_partial" = Ok (VInt partial) /\
    getitem entry "tests_failed" = Ok (VInt failed) /\
    passed = Z.of_nat (List.length (filter record_passed rs)) /\
    failed = Z.of_nat (List.length (filter (fun r => Qeq_bool (record_score r) 0) rs)) /\
    (passed + partial + failed = Z.of_nat (List.length rs))%Z.
Proof.
  intros Hscored H. rewrite forallb_forall in Hscored.
  unfold BehavioralTester.summarize_config in H.
  cbn [py_len py_iter] in H. rewrite !bind_ok in H.
  rewrite (count_m_filter _ record_passed rs) in H
    by (intros r Hr; apply (scored_record_tests r (Hscored r Hr))).
  rewrite bind_ok in H.
  rewrite (count_m_filter
             _ (fun r => negb (record_passed r) && Qlt_bool 0 (record_score r)) rs) in H
    by (intros r Hr; apply (scored_record_tests r (Hscored r Hr))).
  rewrite bind_ok in H.
  rewrite (count_m_filter _ (fun r => Qeq_bool (record_score r) 0) rs) in H
    by (intros r Hr; apply (scored_record_tests r (Hscored r Hr))).
  rewrite bind_ok in H.
  bind_inv_in H. injection H as _ <-.
  do 4 eexists. rewrite GenericMore.dict_get_set_same.
  split; [reflexivity |]. repeat split.
  apply classes_cover. intros r Hr. exact (scored_record_class r (Hscored r Hr)).
Qed.

End Counts.

Lemma summarize_config_counts_witness :
  exists entry passed partial failed,
    dict_get three_records_summary (VStr "Baseline") = Some entry /\
    getitem entry "tests_total" = Ok (VInt (Z.of_nat (List.length three_records))) /\
    getitem entry "tests_passed" = Ok (VInt passed) /\
    getitem entry "tests_partial" = Ok (VInt partial) /\
    getitem entry "tests_failed" = Ok (VInt failed) /\
    passed = Z.of_nat (List.length (filter record_passed three_records)) /\
    failed = Z.of_nat (List.length (filter (fun r => Qeq_bool (record_score r) 0)
                                           three_records)) /\
    (passed + partial + failed = Z.of_nat (List.length three_records))%Z.
Proof.
  apply (summarize_config_counts plain_format [] three_records_summary "Baseline"
           three_records empty_world
           (fst (summarize_config plain_format [] (VStr "Baseline", VList three_records)
                   empty_world))).
  - reflexivity.
  - vm_compute. reflexivity.
Defined.

End BehavioralMore.
